(** * miniERP-Hybrid: the [InventoryService] class of
    [assets/js/inventory-service.js]

    A shallow embedding of the point-of-sale service: catalog loading with its
    fallback chain, the flat-file parser, the cart store, the order summary and
    the checkout submission, followed by the properties proved about them.
    The application class [MiniERP], which starts the service and handles the
    checkout button, and the helpers of its payment dialog are embedded after
    the service.

    Conventions of the embedding.
    - A JavaScript Number is an IEEE 754 binary64 value, modelled by the
      Standard Library's [spec_float] with [prec = 53] and [emax = 1024];
      [+] and [*] are [SFadd] and [SFmul] (round to nearest, ties to even).
    - The [quantity] of a cart line is a counter that the program itself
      creates as the literal [1] and then moves by [+= 1] and [-= 1]; it is
      kept as an integer of [Z] and converted to binary64 where the pricing
      code multiplies or sums it.  Below [2^53] the binary64 operations on
      such a counter are the integer ones ([quantity_increment_exact],
      [quantity_decrement_exact], [quantity_le_zero_exact]).
    - A string is a sequence of characters with the codes U+0000 to U+00FF,
      one [ascii] each; on this range [toLowerCase], [trim] and the other
      string operations are those of the language.  A character above U+007F
      is written by its code.
    - A property that may be [undefined] is an [option]; a JavaScript object
      read as a dictionary is a [gmap].
    - An [async] method is run to completion: a computation takes the service
      state and returns the requests it sent, its result or the exception it
      threw, and the state it left.
    - Writes to the page (innerHTML, textContent, console) are left out, except
      the product grid, whose presence [renderProducts] tests before it stores
      the list.
    - What the window supplies to the application (the answer to a [confirm]
      dialog, [Intl.NumberFormat]) is a parameter, like the host; the alerts
      a handler shows are its value. *)

From Stdlib Require Import ZArith Lia List Ascii String QArith Qround.
From Stdlib Require Import Floats.SpecFloat.
From stdpp Require Import base strings pretty gmap list.

Local Open Scope string_scope.
Local Open Scope Z_scope.

(** ** JavaScript numbers *)

Definition prec : Z := 53.
Definition emax : Z := 1024.

Abbreviation number := spec_float.

(** The Number nearest to an integer (every integer below [2^53] in
    magnitude is a Number). *)
Definition number_of_Z (n : Z) : number := binary_normalize prec emax n 0 false.

Definition js_add : number → number → number := SFadd prec emax.
Definition js_mul : number → number → number := SFmul prec emax.
Definition js_sub : number → number → number := SFsub prec emax.
Definition js_le : number → number → bool := SFleb.

Definition NaN : number := S754_nan.

(** [ToNumber] of a property that may be missing: [undefined] is [NaN]. *)
Definition to_number (v : option number) : number := default NaN v.

(** The literal [0.11]: the binary64 value nearest to 11/100,
    [0x1.c28f5c28f5c29p-4]. *)
Definition tax_literal : number := S754_finite false 7926335344172073 (-56).

(** [Math.round]: the integer nearest to [x], the larger one on a tie, that
    is [floor (x + 1/2)] computed exactly.  The sign of a zero result is the
    sign of [x]. *)
Definition Math_round (x : number) : number :=
  match x with
  | S754_finite s m e =>
      if 0 <=? e then x
      else binary_normalize prec emax
             ((cond_Zopp s (Z.pos m) + 2 ^ (- e - 1)) / 2 ^ (- e)) 0 s
  | _ => x
  end.

(** Truthiness of a Number: [0], [-0] and [NaN] are falsy. *)
Definition truthy_number (x : number) : bool :=
  match x with
  | S754_zero _ | S754_nan => false
  | _ => true
  end.

(** [x || 0] on Numbers. *)
Definition or_zero (x : number) : number :=
  if truthy_number x then x else number_of_Z 0.

(** Rounding half up of a rational, the rule the specification names. *)
Definition round_half_up (x : Q) : Z := Qfloor (x + (1 # 2))%Q.

(** ** JavaScript strings (characters U+0000 to U+00FF) *)

Definition truthy (s : string) : bool := negb (String.eqb s "").

Definition truthy_opt (v : option string) : bool :=
  match v with Some s => truthy s | None => false end.

(** [v === s] for a property [v] that may be missing and a string [s]. *)
Definition strict_eq (v : option string) (s : string) : bool :=
  match v with Some x => String.eqb x s | None => false end.

(** A template literal prints a missing property as [undefined]. *)
Definition template (v : option string) : string := default "undefined" v.

(** The lower-case form of a character.  The capitals of the range are
    [A] to [Z] and U+00C0 to U+00DE without the multiplication sign U+00D7;
    each has its lower-case form 32 places further. *)
Definition lower_ascii (c : ascii) : ascii :=
  let n := N_of_ascii c in
  if ((65 <=? n)%N && (n <=? 90)%N)
     || ((192 <=? n)%N && (n <=? 222)%N && negb (n =? 215)%N)
  then ascii_of_N (n + 32) else c.

(** [s.toLowerCase()]: on this range the lower-case form of a string is that
    of its characters, one by one, and stays in the range. *)
Fixpoint toLowerCase (s : string) : string :=
  match s with
  | EmptyString => EmptyString
  | String c s' => String (lower_ascii c) (toLowerCase s')
  end.

(** White space and line terminators of the range: TAB, LF, VT, FF, CR, the
    space and the no-break space U+00A0. *)
Definition is_white (c : ascii) : bool :=
  let n := N_of_ascii c in
  ((9 <=? n)%N && (n <=? 13)%N) || (n =? 32)%N || (n =? 160)%N.

Fixpoint trimStart (s : string) : string :=
  match s with
  | EmptyString => EmptyString
  | String c s' => if is_white c then trimStart s' else s
  end.

Fixpoint trimEnd (s : string) : string :=
  match s with
  | EmptyString => EmptyString
  | String c s' =>
      match trimEnd s' with
      | EmptyString => if is_white c then EmptyString else String c EmptyString
      | r => String c r
      end
  end.

(** [s.trim()] *)
Definition trim (s : string) : string := trimEnd (trimStart s).

(** [s.split(sep)] for a one-character separator: never the empty list. *)
Fixpoint split (sep : ascii) (s : string) : list string :=
  match s with
  | EmptyString => [EmptyString]
  | String c s' =>
      if Ascii.eqb c sep then EmptyString :: split sep s'
      else match split sep s' with
           | piece :: rest => String c piece :: rest
           | [] => [String c EmptyString]
           end
  end.

(** [s.includes(needle)] *)
Fixpoint includes (needle s : string) : bool :=
  String.prefix needle s ||
  match s with
  | EmptyString => false
  | String _ s' => includes needle s'
  end.

(** ** Data model *)

(** A product object.  The nine properties the program names are fields;
    every other property (an unrecognised flat-file column) lives in
    [extra]. *)
Record Product := {
  id : option string;
  name : option string;
  price : option number;
  category : option string;
  weight : option string;
  image : option string;
  stock : option number;
  costPrice : option number;
  vendor : option string;
  extra : gmap string string
}.

(** [{}] *)
Definition empty_object : Product :=
  {| id := None; name := None; price := None; category := None; weight := None;
     image := None; stock := None; costPrice := None; vendor := None; extra := ∅ |}.

Definition set_id (v : string) (p : Product) : Product :=
  {| id := Some v; name := name p; price := price p; category := category p;
     weight := weight p; image := image p; stock := stock p;
     costPrice := costPrice p; vendor := vendor p; extra := extra p |}.
Definition set_name (v : string) (p : Product) : Product :=
  {| id := id p; name := Some v; price := price p; category := category p;
     weight := weight p; image := image p; stock := stock p;
     costPrice := costPrice p; vendor := vendor p; extra := extra p |}.
Definition set_price (v : number) (p : Product) : Product :=
  {| id := id p; name := name p; price := Some v; category := category p;
     weight := weight p; image := image p; stock := stock p;
     costPrice := costPrice p; vendor := vendor p; extra := extra p |}.
Definition set_category (v : string) (p : Product) : Product :=
  {| id := id p; name := name p; price := price p; category := Some v;
     weight := weight p; image := image p; stock := stock p;
     costPrice := costPrice p; vendor := vendor p; extra := extra p |}.
Definition set_weight (v : string) (p : Product) : Product :=
  {| id := id p; name := name p; price := price p; category := category p;
     weight := Some v; image := image p; stock := stock p;
     costPrice := costPrice p; vendor := vendor p; extra := extra p |}.
Definition set_image (v : string) (p : Product) : Product :=
  {| id := id p; name := name p; price := price p; category := category p;
     weight := weight p; image := Some v; stock := stock p;
     costPrice := costPrice p; vendor := vendor p; extra := extra p |}.
Definition set_stock (v : number) (p : Product) : Product :=
  {| id := id p; name := name p; price := price p; category := category p;
     weight := weight p; image := image p; stock := Some v;
     costPrice := costPrice p; vendor := vendor p; extra := extra p |}.
Definition set_costPrice (v : number) (p : Product) : Product :=
  {| id := id p; name := name p; price := price p; category := category p;
     weight := weight p; image := image p; stock := stock p;
     costPrice := Some v; vendor := vendor p; extra := extra p |}.
Definition set_vendor (v : string) (p : Product) : Product :=
  {| id := id p; name := name p; price := price p; category := category p;
     weight := weight p; image := image p; stock := stock p;
     costPrice := costPrice p; vendor := Some v; extra := extra p |}.
Definition set_extra (k v : string) (p : Product) : Product :=
  {| id := id p; name := name p; price := price p; category := category p;
     weight := weight p; image := image p; stock := stock p;
     costPrice := costPrice p; vendor := vendor p; extra := <[k := v]> (extra p) |}.

(** A cart line [{...product, quantity}]: the product as it was when it was
    added, and the counter. *)
Record CartLine := {
  item : Product;
  quantity : Z
}.

(** The parsed [config.json], also the shape of every JSON object the
    program reads: the properties it looks at, each possibly missing. *)
Record JsonObject := {
  INVENTORY_SHEET_ID : option string;
  FINANCE_SHEET_ID : option string;
  APPS_SCRIPT_URL : option string;
  SECRET_KEY : option string;
  products : option (list Product);
  success : bool;
  error : option string
}.

Inductive Json :=
| JNull
| JObject (o : JsonObject).

(** The configuration [loadConfig] falls back to. *)
Definition default_config : JsonObject :=
  {| INVENTORY_SHEET_ID := Some ""; FINANCE_SHEET_ID := Some "";
     APPS_SCRIPT_URL := Some ""; SECRET_KEY := Some "";
     products := None; success := false; error := None |}.

(** The fields of an [InventoryService] and, as [productsGrid], the element
    [#productsGrid] of the page with the cards it shows ([None] when the page
    has no such element). *)
Record State := {
  config : option JsonObject;
  inventory : list Product;
  cart : list CartLine;
  taxRate : number;
  productsGrid : option (list Product)
}.

Definition set_config (c : option JsonObject) (st : State) : State :=
  {| config := c; inventory := inventory st; cart := cart st;
     taxRate := taxRate st; productsGrid := productsGrid st |}.
Definition set_cart (c : list CartLine) (st : State) : State :=
  {| config := config st; inventory := inventory st; cart := c;
     taxRate := taxRate st; productsGrid := productsGrid st |}.

(** One line of a transaction and the transaction [checkout] sends. *)
Record TransactionItem := {
  item_sku : option string;
  item_name : option string;
  item_price : option number;
  item_quantity : Z;
  item_total : number
}.

Record Transaction := {
  timestamp : string;
  items : list TransactionItem;
  subtotal : number;
  tax : number;
  total : number;
  status : string
}.

(** What [updateOrderSummary] computes before it formats it. *)
Record OrderSummary := {
  subTotal : number;
  taxAmount : number;
  totalAmount : number;
  itemCount : number
}.

(** ** Exceptions, requests and the host *)

Inductive JsError :=
| Error (message : string)
| TypeError (message : string).

Inductive outcome (A : Type) :=
| Ok (a : A)
| Throw (e : JsError).
Arguments Ok {A} a.
Arguments Throw {A} e.

Record Payload := {
  action : string;
  data : Transaction;
  sheetId : option string
}.

Record Request := {
  url : string;
  method : string;
  authorization : option string;
  body : option Payload
}.

(** A response: [response.text()] and [response.json()] may reject. *)
Record Response := {
  ok : bool;
  http_status : Z;
  text : outcome string;
  json : outcome Json
}.

(** What the browser supplies: [parseFloat], [parseInt], the answer of the
    network to a request, and the clock ([new Date().toISOString()]). *)
Record Host := {
  parseFloat : string → number;
  parseInt : string → number;
  network : Request → outcome Response;
  now : string
}.

(** A computation of the service: from the state to the requests sent, the
    result or exception, and the state left. *)
Definition M (A : Type) : Type := State → list Request * outcome A * State.

Definition ret {A} (a : A) : M A := λ st, ([], Ok a, st).
Definition throw {A} (e : JsError) : M A := λ st, ([], Throw e, st).
Definition bind {A B} (m : M A) (k : A → M B) : M B := λ st,
  match m st with
  | (tr, Ok a, st1) => let '(tr', r, st2) := k a st1 in ((tr ++ tr')%list, r, st2)
  | (tr, Throw e, st1) => (tr, Throw e, st1)
  end.
Definition try_catch {A} (block : M A) (handler : JsError → M A) : M A := λ st,
  match block st with
  | (tr, Throw e, st1) => let '(tr', r, st2) := handler e st1 in ((tr ++ tr')%list, r, st2)
  | done => done
  end.
Definition get_state : M State := λ st, ([], Ok st, st).
Definition put_state (st' : State) : M unit := λ _, ([], Ok tt, st').
Definition await {A} (o : outcome A) : M A := λ st, ([], o, st).
Definition fetch (host : Host) (req : Request) : M Response :=
  λ st, ([req], network host req, st).

Notation "'let*' x ':=' m 'in' k" := (bind m (λ x, k))
  (at level 10, x pattern, m at level 100, k at level 200).

Definition trace {A} (r : list Request * outcome A * State) : list Request := r.1.1.
Definition result {A} (r : list Request * outcome A * State) : outcome A := r.1.2.
Definition final {A} (r : list Request * outcome A * State) : State := r.2.

(** ** Catalog loader *)

Definition new_InventoryService (grid : option (list Product)) : State :=
  {| config := None; inventory := []; cart := []; taxRate := tax_literal;
     productsGrid := grid |}.

(** [loadConfig]: both branches assign [this.config]. *)
Definition loadConfig (host : Host) : M unit :=
  try_catch
    (let* response := fetch host {| url := "config.json"; method := "GET";
                                    authorization := None; body := None |} in
     let* parsed := await (json response) in
     let* st := get_state in
     put_state (set_config (match parsed with JNull => None | JObject o => Some o end) st))
    (λ _, let* st := get_state in put_state (set_config (Some default_config) st)).

(** The body of the [switch] in [parseCSV]: one header with its value.  The
    [default] case writes the property named by the lower-cased header; of the
    named properties only [vendor] can be reached that way, and a string
    assigned to [__proto__] creates no property. *)
Definition setField (host : Host) (header value : string) (product : Product) : Product :=
  let h := toLowerCase header in
  if String.eqb h "sku" || String.eqb h "id" then set_id value product
  else if String.eqb h "nama_item" || String.eqb h "name" || String.eqb h "product_name"
  then set_name value product
  else if String.eqb h "harga_jual" || String.eqb h "price"
  then set_price (or_zero (parseFloat host value)) product
  else if String.eqb h "kategori" || String.eqb h "category" then set_category value product
  else if String.eqb h "satuan" || String.eqb h "weight" || String.eqb h "unit"
  then set_weight value product
  else if String.eqb h "image" || String.eqb h "image_url" then set_image value product
  else if String.eqb h "jumlah" || String.eqb h "stock" || String.eqb h "quantity"
  then set_stock (or_zero (parseInt host value)) product
  else if String.eqb h "harga_beli" then set_costPrice (or_zero (parseFloat host value)) product
  else if String.eqb h "nama_vendor" then set_vendor value product
  else if String.eqb h "vendor" then set_vendor value product
  else if String.eqb h "__proto__" then product
  else set_extra h value product.

(** [headers.forEach((header, index) => ...)] with [values[index] || '']. *)
Fixpoint forEach_header (host : Host) (headers : list string) (index : nat)
    (values : list string) (product : Product) : Product :=
  match headers with
  | [] => product
  | header :: rest =>
      forEach_header host rest (S index) values
        (setField host header (nth index values "") product)
  end.

Definition row_product (host : Host) (headers : list string) (line : string) : Product :=
  forEach_header host headers 0 (map trim (split "," line)) empty_object.

(** [product.id && product.name] *)
Definition has_id_and_name (product : Product) : bool :=
  truthy_opt (id product) && truthy_opt (name product).

(** The default image of a product that has none. *)
Definition with_default_image (product : Product) : Product :=
  if truthy_opt (image product) then product
  else set_image ("Asset/assets/img/products/" ++ template (id product) ++ ".png") product.

(** The [for] loop of [parseCSV] over [lines[1..]], pushing onto [products]. *)
Fixpoint parse_rows (host : Host) (headers : list string) (lines : list string)
    (products : list Product) : list Product :=
  match lines with
  | [] => products
  | line :: rest =>
      if truthy (trim line) then
        let product := row_product host headers line in
        if has_id_and_name product
        then parse_rows host headers rest (products ++ [with_default_image product])%list
        else parse_rows host headers rest products
      else parse_rows host headers rest products
  end.

Definition parseCSV (host : Host) (csvText : string) : list Product :=
  let lines := split "010" csvText in
  let headers := map trim (split "," (hd "" lines)) in
  parse_rows host headers (tl lines) [].

Definition fallback_product (i n : string) (p : Z) (c w : string) (s : Z) : Product :=
  {| id := Some i; name := Some n; price := Some (number_of_Z p); category := Some c;
     weight := Some w; image := Some ("Asset/assets/img/products/" ++ i ++ ".png");
     stock := Some (number_of_Z s); costPrice := None; vendor := None; extra := ∅ |}.

Definition getFallbackInventory : list Product :=
  [ fallback_product "semen-padang" "Semen Padang" 165000 "semen" "55Kg / 1 Karung" 50;
    fallback_product "semen-tiga-roda" "Semen Tiga Roda" 135000 "semen" "55Kg / 1 Karung" 30;
    fallback_product "semen-baturaja" "Semen Baturaja" 115000 "semen" "55Kg / 1 Karung" 25;
    fallback_product "semen-rajawali" "Semen Rajawali" 105000 "semen" "55Kg / 1 Karung" 40;
    fallback_product "semen-gresik" "Semen Gresik" 125000 "semen" "55Kg / 1 Karung" 35;
    fallback_product "semen-holcim" "Semen Holcim" 145000 "semen" "55Kg / 1 Karung" 20;
    fallback_product "semen-indocement" "Semen Indocement" 155000 "semen" "55Kg / 1 Karung" 15;
    fallback_product "batu-bata-merah" "Batu Bata Merah" 2500 "batu-bata" "1 Pcs" 1000;
    fallback_product "genteng-beton" "Genteng Beton" 15000 "genteng" "1 Pcs" 200;
    fallback_product "pintu-kayu" "Pintu Kayu" 450000 "pintu" "1 Unit" 10 ].

Definition null_property (prop : string) : JsError :=
  TypeError ("Cannot read properties of null (reading '" ++ prop ++ "')").

Definition http_error (code : Z) : JsError :=
  Error ("HTTP error! status: " ++ pretty code).

Definition inventory_request (cfg : JsonObject) : Request :=
  {| url := template (APPS_SCRIPT_URL cfg) ++ "?action=getInventory&sheetId="
            ++ template (INVENTORY_SHEET_ID cfg);
     method := "GET";
     authorization := Some ("Bearer " ++ template (SECRET_KEY cfg));
     body := None |}.

Definition fetchFromGoogleSheets (host : Host) : M (list Product) :=
  let* st := get_state in
  match config st with
  | None => throw (null_property "APPS_SCRIPT_URL")
  | Some cfg =>
      let* response := fetch host (inventory_request cfg) in
      if negb (ok response) then throw (http_error (http_status response))
      else
        let* parsed := await (json response) in
        match parsed with
        | JNull => throw (null_property "products")
        | JObject o => ret (default [] (products o))
        end
  end.

Definition googleSheetsUrl : string :=
  "https://docs.google.com/spreadsheets/d/e/2PACX-1vQeQzTtU6TzJRvBH3hy2kyedHOa4-sl6LkuEgLSr3qx3awtYZm1_rbzuB5BXJg3h9Oa-ZwWODhkKxfI/pub?gid=0&single=true&output=csv".

Definition plain_get (u : string) : Request :=
  {| url := u; method := "GET"; authorization := None; body := None |}.

Definition fetchFromCSV (host : Host) : M (list Product) :=
  try_catch
    (let* response := fetch host (plain_get googleSheetsUrl) in
     let* csvText := await (text response) in
     ret (parseCSV host csvText))
    (λ _,
     try_catch
       (let* response := fetch host (plain_get "assets/data/inventory.csv") in
        let* csvText := await (text response) in
        ret (parseCSV host csvText))
       (λ _, ret getFallbackInventory)).

Definition getInventory (host : Host) : M (list Product) :=
  try_catch
    (let* st := get_state in
     match config st with
     | None => throw (null_property "INVENTORY_SHEET_ID")
     | Some cfg =>
         if truthy_opt (INVENTORY_SHEET_ID cfg) && truthy_opt (APPS_SCRIPT_URL cfg)
         then fetchFromGoogleSheets host
         else fetchFromCSV host
     end)
    (λ _, ret getFallbackInventory).

(** ** Rendering, search and filter *)

(** [renderProducts]: returns before it stores the list when the page has no
    grid; otherwise the list becomes [this.inventory] and the grid shows it. *)
Definition renderProducts (productList : list Product) (st : State) : State :=
  match productsGrid st with
  | None => st
  | Some _ =>
      {| config := config st; inventory := productList; cart := cart st;
         taxRate := taxRate st; productsGrid := Some productList |}
  end.

(** [Array.prototype.filter] with a callback that may throw. *)
Fixpoint filter_throwing {A} (f : A → outcome bool) (l : list A) : outcome (list A) :=
  match l with
  | [] => Ok []
  | x :: rest =>
      match f x with
      | Throw e => Throw e
      | Ok keep =>
          match filter_throwing f rest with
          | Throw e => Throw e
          | Ok kept => Ok (if keep then x :: kept else kept)
          end
      end
  end.

Definition filterByCategory (c : string) (st : State) : State :=
  renderProducts (List.filter (λ product, strict_eq (category product) c) (inventory st)) st.

(** The callback of [searchProducts]: [toLowerCase] of a missing [name] or
    [category] throws; [||] does not read [category] when the name matches. *)
Definition search_match (query : string) (product : Product) : outcome bool :=
  match name product with
  | None => Throw (TypeError "Cannot read properties of undefined (reading 'toLowerCase')")
  | Some n =>
      if includes (toLowerCase query) (toLowerCase n) then Ok true
      else match category product with
           | None => Throw (TypeError "Cannot read properties of undefined (reading 'toLowerCase')")
           | Some c => Ok (includes (toLowerCase query) (toLowerCase c))
           end
  end.

Definition searchProducts (query : string) (st : State) : outcome unit * State :=
  match filter_throwing (search_match query) (inventory st) with
  | Throw e => (Throw e, st)
  | Ok filteredProducts => (Ok tt, renderProducts filteredProducts st)
  end.

(** ** Cart store *)

(** [item.id === sku] *)
Definition line_has_id (sku : string) (line : CartLine) : bool :=
  strict_eq (id (item line)) sku.

Definition add_quantity (d : Z) (line : CartLine) : CartLine :=
  {| item := item line; quantity := quantity line + d |}.

(** The assignment [found.quantity += d] where [found] is the first line that
    [find] returns: the line is changed in place, inside the array. *)
Fixpoint update_found (sku : string) (d : Z) (lines : list CartLine) : list CartLine :=
  match lines with
  | [] => []
  | line :: rest =>
      if line_has_id sku line then add_quantity d line :: rest
      else line :: update_found sku d rest
  end.

(** [addToCart]: the returned boolean and the state left. *)
Definition addToCart (sku : string) (st : State) : bool * State :=
  match List.find (λ p, strict_eq (id p) sku) (inventory st) with
  | None => (false, st)
  | Some product =>
      match List.find (line_has_id sku) (cart st) with
      | Some existingItem => (true, set_cart (update_found sku 1 (cart st)) st)
      | None => (true, set_cart (cart st ++ [{| item := product; quantity := 1 |}])%list st)
      end
  end.

Definition selectProduct (productId : string) (st : State) : State :=
  (addToCart productId st).2.

(** [updateQuantity]: after [cartItem.quantity -= 1] the test
    [cartItem.quantity <= 0] reads the decreased quantity. *)
Definition updateQuantity (sku action : string) (st : State) : State :=
  match List.find (line_has_id sku) (cart st) with
  | None => st
  | Some cartItem =>
      if String.eqb action "increase" then set_cart (update_found sku 1 (cart st)) st
      else if String.eqb action "decrease" then
        let decreased := update_found sku (-1) (cart st) in
        if quantity cartItem - 1 <=? 0
        then set_cart (List.filter (λ line, negb (line_has_id sku line)) decreased) st
        else set_cart decreased st
      else st
  end.

Definition getCart (st : State) : list CartLine := cart st.

Definition clearCart (st : State) : State := set_cart [] st.

(** ** Order summary *)

(** [item.price * item.quantity] *)
Definition line_total (line : CartLine) : number :=
  js_mul (to_number (price (item line))) (number_of_Z (quantity line)).

Definition updateOrderSummary (st : State) : OrderSummary :=
  let subTotal :=
    fold_left (λ sum line, js_add sum (line_total line)) (cart st) (number_of_Z 0) in
  let taxAmount := Math_round (js_mul subTotal tax_literal) in
  let total := js_add subTotal taxAmount in
  let itemCount :=
    fold_left (λ sum line, js_add sum (number_of_Z (quantity line))) (cart st)
      (number_of_Z 0) in
  {| subTotal := subTotal; taxAmount := taxAmount; totalAmount := total;
     itemCount := itemCount |}.

(** ** Checkout *)

(** The transaction object literal of [checkout]; every total is computed by
    its own [reduce], with [this.taxRate]. *)
Definition build_transaction (host : Host) (st : State) (c : list CartLine) : Transaction :=
  {| timestamp := now host;
     items := map (λ line, {| item_sku := id (item line); item_name := name (item line);
                               item_price := price (item line);
                               item_quantity := quantity line;
                               item_total := js_mul (to_number (price (item line)))
                                               (number_of_Z (quantity line)) |}) c;
     subtotal :=
       fold_left (λ sum line, js_add sum (js_mul (to_number (price (item line)))
                                             (number_of_Z (quantity line)))) c (number_of_Z 0);
     tax :=
       Math_round
         (js_mul (fold_left (λ sum line, js_add sum (js_mul (to_number (price (item line)))
                                                    (number_of_Z (quantity line)))) c
                    (number_of_Z 0))
            (taxRate st));
     total :=
       js_add
         (fold_left (λ sum line, js_add sum (js_mul (to_number (price (item line)))
                                                (number_of_Z (quantity line)))) c
            (number_of_Z 0))
         (Math_round
            (js_mul (fold_left (λ sum line, js_add sum (js_mul (to_number (price (item line)))
                                                       (number_of_Z (quantity line)))) c
                       (number_of_Z 0))
               (taxRate st)));
     status := "pending" |}.

(** The message of the error thrown for a response without the success
    flag: [result.error || 'Checkout failed']. *)
Definition failure_message (o : JsonObject) : string :=
  match error o with
  | Some msg => if truthy msg then msg else "Checkout failed"
  | None => "Checkout failed"
  end.

Definition checkout_request (cfg : JsonObject) (transaction : Transaction) : Request :=
  {| url := template (APPS_SCRIPT_URL cfg);
     method := "POST";
     authorization := Some ("Bearer " ++ template (SECRET_KEY cfg));
     body := Some {| action := "saveTransaction"; data := transaction;
                     sheetId := FINANCE_SHEET_ID cfg |} |}.

(** [checkout(cart)]; the argument may be [null] or [undefined] ([None]).
    The [catch] block logs the error and throws it again. *)
Definition checkout (host : Host) (c : option (list CartLine)) : M JsonObject :=
  match c with
  | None | Some [] => throw (Error "Cart is empty")
  | Some lines =>
      let* st := get_state in
      match config st with
      | None => throw (null_property "APPS_SCRIPT_URL")
      | Some cfg =>
          if negb (truthy_opt (APPS_SCRIPT_URL cfg))
          then throw (Error "Apps Script URL not configured")
          else
            let transaction := build_transaction host st lines in
            try_catch
              (let* response := fetch host (checkout_request cfg transaction) in
               if negb (ok response) then throw (http_error (http_status response))
               else
                 let* parsed := await (json response) in
                 match parsed with
                 | JNull => throw (null_property "success")
                 | JObject o =>
                     if success o then
                       let* st' := get_state in
                       let* _ := put_state (set_cart [] st') in
                       ret o
                     else
                       throw (Error (failure_message o))
                 end)
              (λ e, throw e)
      end
  end.

(** ** The application: class [MiniERP]

    The class that creates the service and drives it from the page.
    [handlePagination], [showLoading] and [hideLoading] touch only the page
    and are left out; [handleSearch], [selectCategory] and [selectProduct]
    pass their argument on to [searchProducts], [filterByCategory] and
    [selectProduct] of the service. *)

(** The controls that [bindEvents] looks up with [getElementById]: whether
    the page has [#searchInput], [#searchBtn] and [#checkoutBtn]. *)
Record Page := {
  searchInput : bool;
  searchBtn : bool;
  checkoutBtn : bool
}.

(** [bindEvents] calls [addEventListener] on what [getElementById] returned,
    which is [null] for a control the page lacks: the search field first,
    then the search button, then the checkout button.  The category items
    and the page buttons come from [querySelectorAll], which returns a list,
    empty at worst.  The listeners it registers are part of the page. *)
Definition bindEvents (page : Page) : M unit :=
  if negb (searchInput page) then throw (null_property "addEventListener")
  else if negb (searchBtn page) then throw (null_property "addEventListener")
  else if negb (checkoutBtn page) then throw (null_property "addEventListener")
  else ret tt.

(** [loadInventory]: the [catch] block only logs. *)
Definition loadInventory (host : Host) : M unit :=
  try_catch
    (let* products := getInventory host in
     let* st := get_state in
     put_state (renderProducts products st))
    (λ _, ret tt).

Definition initializeCart : M unit :=
  λ st, ([], Ok tt, (addToCart "semen-rajawali" st).2).

Definition init (host : Host) (page : Page) : M unit :=
  let* _ := bindEvents page in
  let* _ := loadInventory host in
  initializeCart.

(** A call of an [async] method whose promise is dropped: a rejection
    reaches no handler, and the caller goes on. *)
Definition unawaited {A} (m : M A) : M unit :=
  λ st, let '(tr, _, st') := m st in (tr, Ok tt, st').

(** The constructor of [MiniERP].  [new InventoryService()] calls
    [loadConfig], which sends its request and is suspended at [await fetch];
    then [this.init()] is called and its promise dropped.  With [config]
    still [null], [getInventory] fails on reading it before any request is
    made, so every [await] of [init] is on a promise that is already settled
    and [init] is complete before the answer to [config.json] is handled.
    The run is [init] on the fresh service and then the rest of
    [loadConfig]; the request for [config.json] is the only one sent. *)
Definition new_MiniERP (host : Host) (page : Page) (grid : option (list Product))
  : list Request * outcome unit * State :=
  (let* _ := unawaited (init host page) in loadConfig host) (new_InventoryService grid).

(** What the window supplies to the application: the answer of the user to
    a [confirm] dialog with the given text, and
    [new Intl.NumberFormat('id-ID').format]. *)
Record Browser := {
  confirm : string → bool;
  format_idID : number → string
}.

Definition formatPrice (browser : Browser) (price : number) : string :=
  format_idID browser price.

(** [error.message] *)
Definition message (e : JsError) : string :=
  match e with Error m | TypeError m => m end.

(** [pieces.join(sep)] *)
Fixpoint join (sep : string) (pieces : list string) : string :=
  match pieces with
  | [] => ""
  | [piece] => piece
  | piece :: rest => piece ++ sep ++ join sep rest
  end.

Definition newline : string := String "010" "".

(** The three amounts [handleCheckout] computes for its dialog, with the
    literal [0.11]. *)
Definition confirmation_totals (c : list CartLine) : number * number * number :=
  let subTotal :=
    fold_left (λ sum line, js_add sum (js_mul (to_number (price (item line)))
                                          (number_of_Z (quantity line)))) c (number_of_Z 0) in
  let taxAmount := Math_round (js_mul subTotal tax_literal) in
  let finalTotal := js_add subTotal taxAmount in
  (subTotal, taxAmount, finalTotal).

(** The text of the [confirm] dialog. *)
Definition confirmation_text (browser : Browser) (c : list CartLine) : string :=
  let '(subTotal, taxAmount, finalTotal) := confirmation_totals c in
  let orderSummary :=
    join newline
      (map (λ line, template (name (item line)) ++ " x" ++ pretty (quantity line)
                    ++ " = Rp "
                    ++ formatPrice browser
                         (js_mul (to_number (price (item line)))
                            (number_of_Z (quantity line)))) c) in
  "Konfirmasi Pembayaran:" ++ newline ++ newline ++ orderSummary ++ newline ++ newline
  ++ "Sub Total: Rp " ++ formatPrice browser subTotal ++ newline
  ++ "PPN (11%): Rp " ++ formatPrice browser taxAmount ++ newline
  ++ "Total: Rp " ++ formatPrice browser finalTotal ++ newline ++ newline
  ++ "Lanjutkan pembayaran?".

(** [handleCheckout] of the first version of the application.  Its value is
    the list of the [alert] messages it shows. *)
Definition handleCheckout (host : Host) (browser : Browser) : M (list string) :=
  let* st := get_state in
  let c := getCart st in
  match c with
  | [] => ret ["Keranjang kosong! Silakan pilih produk terlebih dahulu."]
  | _ :: _ =>
      if confirm browser (confirmation_text browser c) then
        try_catch
          (let* _ := checkout host (Some c) in
           ret ["Pembayaran berhasil! Terima kasih atas pembelian Anda."])
          (λ e, ret ["Pembayaran gagal: " ++ message e])
      else ret []
  end.

(** ** The payment dialog

    The helpers of the second version of the application, which opens a
    payment dialog instead of submitting.  The texts they read from the page
    are arguments ([None] for an element that is missing), the text they
    write is the value. *)

(** [Math.floor] *)
Definition Math_floor (x : number) : number :=
  match x with
  | S754_finite s m e =>
      if 0 <=? e then x
      else binary_normalize prec emax (cond_Zopp s (Z.pos m) / 2 ^ (- e)) 0 s
  | _ => x
  end.

(** [Math.max] of two Numbers: [NaN] if either is, and [+0] above [-0]. *)
Definition Math_max (a b : number) : number :=
  match a, b with
  | S754_nan, _ | _, S754_nan => NaN
  | S754_zero sa, S754_zero sb => S754_zero (sa && sb)
  | _, _ => if js_le a b then b else a
  end.

Definition is_digit (c : ascii) : bool :=
  let n := N_of_ascii c in (48 <=? n)%N && (n <=? 57)%N.

(** [text.replace(/[^0-9]/g, '')] *)
Fixpoint keep_digits (s : string) : string :=
  match s with
  | EmptyString => EmptyString
  | String c s' => if is_digit c then String c (keep_digits s') else keep_digits s'
  end.

(** The integer that a string of decimal digits denotes. *)
Fixpoint digits_value (acc : Z) (digits : string) : Z :=
  match digits with
  | EmptyString => acc
  | String c rest => digits_value (10 * acc + Z.of_N (N_of_ascii c - 48)) rest
  end.

(** [Number(digits)] for a non-empty string of decimal digits: the Number
    nearest to the integer it denotes. *)
Definition Number_of_digits (digits : string) : number :=
  number_of_Z (digits_value 0 digits).

(** [parseRupiah], called with strings only. *)
Definition parseRupiah (text : string) : number :=
  let digits := keep_digits text in
  if truthy digits then Number_of_digits digits else number_of_Z 0.

Definition formatRupiahNumberOnly (browser : Browser) (num : number) : string :=
  format_idID browser (Math_max (number_of_Z 0) (Math_floor num)).

Definition formatRupiahWithPrefix (browser : Browser) (num : number) : string :=
  "Rp " ++ formatRupiahNumberOnly browser num.

(** [element?.textContent || d] *)
Definition or_text (v : option string) (d : string) : string :=
  match v with
  | Some s => if truthy s then s else d
  | None => d
  end.

(** [updateChange]: from the text of the total and the value of the cash
    field to the text written to the change field. *)
Definition updateChange (browser : Browser) (totalAmount cashPaid : option string) : string :=
  let totalText := or_text totalAmount "Rp 0" in
  let total := parseRupiah totalText in
  let paid := parseRupiah (or_text cashPaid "0") in
  formatRupiahWithPrefix browser (js_sub paid total).

(** [raw === 0] *)
Definition is_zero (x : number) : bool :=
  match x with S754_zero _ => true | _ => false end.

(** The [input] listener of the cash field: the value it writes back to the
    field, and the change that [updateChange] then shows, reading that
    value. *)
Definition cashInput_oninput (browser : Browser) (totalAmount : option string)
    (value : string) : string * string :=
  let raw := parseRupiah value in
  let value' := "Rp " ++ (if is_zero raw then "0" else formatRupiahNumberOnly browser raw) in
  (value', updateChange browser totalAmount (Some value')).

(** The parts of [new Date()] that [generateTrxNumber] reads. *)
Record Date := {
  getDate : Z;
  getMonth : Z;
  getFullYear : Z
}.

Fixpoint repeat_char (n : nat) (c : ascii) : string :=
  match n with
  | O => EmptyString
  | S n' => String c (repeat_char n' c)
  end.

(** [s.padStart(targetLength, fill)] for a one-character [fill]. *)
Definition padStart (targetLength : nat) (fill : ascii) (s : string) : string :=
  repeat_char (targetLength - String.length s) fill ++ s.

(** [generateTrxNumber]: the number and the session counter left.  The
    counter starts at [0] and moves by [+= 1] only; it is kept as an integer,
    like the quantity of a cart line. *)
Definition generateTrxNumber (today : Date) (trxCounter : Z) : string * Z :=
  let trxCounter' := trxCounter + 1 in
  let dd := padStart 2 "0" (pretty (getDate today)) in
  let mm := padStart 2 "0" (pretty (getMonth today + 1)) in
  let yyyy := pretty (getFullYear today) in
  let seq := padStart 5 "0" (pretty trxCounter') in
  ("TRX-" ++ dd ++ mm ++ yyyy ++ seq, trxCounter').

(** ** States of a running service *)

(** The states a service passes through: it is constructed, and then any of
    its methods runs, with any arguments, on any host. *)
Inductive reachable : State → Prop :=
| reach_new grid : reachable (new_InventoryService grid)
| reach_loadConfig host st : reachable st → reachable (final (loadConfig host st))
| reach_getInventory host st : reachable st → reachable (final (getInventory host st))
| reach_renderProducts productList st :
    reachable st → reachable (renderProducts productList st)
| reach_addToCart s st : reachable st → reachable (addToCart s st).2
| reach_selectProduct s st : reachable st → reachable (selectProduct s st)
| reach_updateQuantity s action st : reachable st → reachable (updateQuantity s action st)
| reach_checkout host c st : reachable st → reachable (final (checkout host c st))
| reach_filterByCategory c st : reachable st → reachable (filterByCategory c st)
| reach_searchProducts query st : reachable st → reachable (searchProducts query st).2
| reach_clearCart st : reachable st → reachable (clearCart st).

(** ** Integer readings of a cart, for the statements *)

(** The integer part of a Number (zero for [NaN] and the infinities). *)
Definition Z_of_number (x : number) : Z :=
  match x with
  | S754_finite s m e =>
      cond_Zopp s (if 0 <=? e then Z.pos m * 2 ^ e else Z.pos m / 2 ^ (- e))
  | _ => 0
  end.

(** A Number that holds an integer: it is the Number of its integer part. *)
Definition is_integer (x : number) : Prop := x = number_of_Z (Z_of_number x).

Definition unit_price (line : CartLine) : Z := Z_of_number (to_number (price (item line))).

(** A line with a non-negative integer unit price and a positive quantity. *)
Definition integer_line (line : CartLine) : Prop :=
  is_integer (to_number (price (item line))) ∧ 0 <= unit_price line ∧ 0 < quantity line.

(** The sums of the specification, over the integers. *)
Definition exact_subtotal (lines : list CartLine) : Z :=
  foldr (λ line acc, unit_price line * quantity line + acc) 0 lines.

Definition exact_item_count (lines : list CartLine) : Z :=
  foldr (λ line acc, quantity line + acc) 0 lines.

(** The largest subtotal [s] for which the Number [s * 0.11] is below [2^47],
    where Numbers are [2^-6] apart: [s * 7926335344172073 < 2^103]. *)
Definition max_exact_subtotal : Z := 1279431712321163.

(** A state that holds the given cart and nothing else. *)
Definition state_with_cart (lines : list CartLine) : State :=
  set_cart lines (new_InventoryService None).

(** A product that has only an identifier and an integer price. *)
Definition priced_product (i : string) (p : Z) : Product :=
  set_price (number_of_Z p) (set_id i empty_object).

(** ** The sources of the catalog, for the statements *)

(** [this.config.INVENTORY_SHEET_ID && this.config.APPS_SCRIPT_URL] *)
Definition api_configured (cfg : JsonObject) : bool :=
  truthy_opt (INVENTORY_SHEET_ID cfg) && truthy_opt (APPS_SCRIPT_URL cfg).

(** The product list of the structured source when it answers: the request
    is fulfilled with an [ok] status and a body that parses to an object. *)
Definition api_products (host : Host) (cfg : JsonObject) : option (list Product) :=
  match network host (inventory_request cfg) with
  | Ok response =>
      if ok response then
        match json response with
        | Ok (JObject o) => Some (default [] (products o))
        | _ => None
        end
      else None
  | Throw _ => None
  end.

(** The text of a flat file when it can be fetched and read. *)
Definition csv_text (host : Host) (u : string) : option string :=
  match network host (plain_get u) with
  | Ok response => match text response with Ok t => Some t | Throw _ => None end
  | Throw _ => None
  end.

(** ** The rows of a flat file, for the statements *)

(** The header names: the first line, split and trimmed. *)
Definition csv_headers (csvText : string) : list string :=
  map trim (split "," (hd "" (split "010" csvText))).

(** The data rows: the lines after the first that are not blank. *)
Definition data_rows (csvText : string) : list string :=
  List.filter (λ line, truthy (trim line)) (tl (split "010" csvText)).

(** The cells of a row: its text split at the commas, each piece trimmed. *)
Definition cells (line : string) : list string := map trim (split "," line).

(** A header that is one of the given names, whatever its case. *)
Definition header_in (names : list string) (header : string) : bool :=
  existsb (String.eqb (toLowerCase header)) names.

Definition is_id_header : string → bool := header_in ["sku"; "id"].
Definition is_name_header : string → bool := header_in ["nama_item"; "name"; "product_name"].
Definition is_price_header : string → bool := header_in ["harga_jual"; "price"].
Definition is_stock_header : string → bool := header_in ["jumlah"; "stock"; "quantity"].
Definition is_cost_header : string → bool := header_in ["harga_beli"].
Definition is_image_header : string → bool := header_in ["image"; "image_url"].

(** The position of the last column whose header satisfies [is_col]. *)
Fixpoint last_index (is_col : string → bool) (headers : list string) : option nat :=
  match headers with
  | [] => None
  | header :: rest =>
      match last_index is_col rest with
      | Some i => Some (S i)
      | None => if is_col header then Some O else None
      end
  end.

(** What a row says in a column of the given meaning: the text of its cell
    under the last such column, the empty text when the row stops before
    that column, nothing when the file has no such column. *)
Definition column_value (is_col : string → bool) (headers values : list string)
  : option string :=
  (λ i, nth i values "") <$> last_index is_col headers.

(** A row that states an identifier and a name, both non-empty. *)
Definition row_has_id_and_name (headers : list string) (line : string) : bool :=
  truthy_opt (column_value is_id_header headers (cells line))
  && truthy_opt (column_value is_name_header headers (cells line)).

(** The Number stored for the text of a numeric cell, given what the parser
    of the host read from it: zero when that is [NaN] or zero. *)
Definition stored_number (parsed : number) : number :=
  if truthy_number parsed then parsed else S754_zero false.

(** A flat file whose second row has an identifier and no name. *)
Definition sample_csv : string :=
  "sku,nama_item,kategori" ++ String "010" "A1,,semen"
  ++ String "010" "B2,Paku Beton,paku" ++ String "010" "".

(** ** The invariant of the cart, for the statements *)

(** At most one line per identifier, and every quantity at least one. *)
Definition cart_inv (lines : list CartLine) : Prop :=
  NoDup (map (λ line, id (item line)) lines) ∧ Forall (λ line, 1 <= quantity line) lines.

(** ** A concrete host and run, for the instances *)

(** A remote end that answers every request with status 200 and a JSON object
    carrying a configuration, no product list and the success flag. *)
Definition demo_object : JsonObject :=
  {| INVENTORY_SHEET_ID := Some "inventory-sheet"; FINANCE_SHEET_ID := Some "finance-sheet";
     APPS_SCRIPT_URL := Some "https://script.example/exec"; SECRET_KEY := Some "secret";
     products := None; success := true; error := None |}.

Definition demo_host : Host :=
  {| parseFloat := λ _, NaN;
     parseInt := λ _, NaN;
     network := λ _, Ok {| ok := true; http_status := 200; text := Ok "";
                           json := Ok (JObject demo_object) |};
     now := "2024-01-01T00:00:00.000Z" |}.

(** A host whose network rejects every request. *)
Definition offline_host : Host :=
  {| parseFloat := λ _, NaN;
     parseInt := λ _, NaN;
     network := λ _, Throw (TypeError "Failed to fetch");
     now := "2024-01-01T00:00:00.000Z" |}.

(** The application as [MiniERP.init] starts it on a page with a grid: the
    configuration is loaded, the built-in catalog is rendered, and
    [initializeCart] adds one Semen Rajawali. *)
Definition demo_catalog_state : State :=
  renderProducts getFallbackInventory
    (final (loadConfig demo_host (new_InventoryService (Some [])))).

Definition demo_state : State := (addToCart "semen-rajawali" demo_catalog_state).2.

(** ** More readings of the code, for the statements *)

(** A flat file with the characters of its first line in lower case. *)
Fixpoint lower_first_line (s : string) : string :=
  match s with
  | EmptyString => EmptyString
  | String c s' =>
      if Ascii.eqb c "010" then s else String (lower_ascii c) (lower_first_line s')
  end.

(** A numeric property that is missing, truthy, or zero. *)
Definition clean_number (v : option number) : Prop :=
  match v with
  | None => True
  | Some x => truthy_number x = true ∨ x = number_of_Z 0
  end.

Definition clean_numbers (product : Product) : Prop :=
  clean_number (price product) ∧ clean_number (stock product)
  ∧ clean_number (costPrice product).

(** [config.json] cannot be fetched, or its body cannot be parsed. *)
Definition config_unreadable (host : Host) : bool :=
  match network host (plain_get "config.json") with
  | Throw _ => true
  | Ok response => match json response with Throw _ => true | Ok _ => false end
  end.

(** The error of calling [toLowerCase] on a missing [name] or [category]. *)
Definition undefined_toLowerCase : JsError :=
  TypeError "Cannot read properties of undefined (reading 'toLowerCase')".

(** The unit price that one more [addToCart] adds to the subtotal: that of
    the line already in the cart, else that of the product in the catalog. *)
Definition added_price (sku : string) (product : Product) (lines : list CartLine) : Z :=
  match List.find (line_has_id sku) lines with
  | Some line => unit_price line
  | None => Z_of_number (to_number (price product))
  end.

(** A page with the three controls that [bindEvents] binds. *)
Definition has_controls (page : Page) : bool :=
  searchInput page && searchBtn page && checkoutBtn page.

(** The state [init] leaves of a fresh service when it completes: untouched
    on a page without a grid, otherwise the built-in catalog with one Semen
    Rajawali in the cart. *)
Definition started_state (grid : option (list Product)) : State :=
  match grid with
  | None => new_InventoryService None
  | Some _ =>
      {| config := None; inventory := getFallbackInventory;
         cart := [{| item := fallback_product "semen-rajawali" "Semen Rajawali" 105000
                               "semen" "55Kg / 1 Karung" 40;
                     quantity := 1 |}];
         taxRate := tax_literal; productsGrid := Some getFallbackInventory |}
  end.

Definition empty_cart_alert : string :=
  "Keranjang kosong! Silakan pilih produk terlebih dahulu.".

Definition success_alert : string :=
  "Pembayaran berhasil! Terima kasih atas pembelian Anda.".

(** The amount a text field holds: the integer its digits denote, [0] for a
    field that is missing or has no digit. *)
Definition amount_of (field : option string) : Z :=
  digits_value 0 (keep_digits (default "" field)).

(** A date of the calendar with a year of four digits. *)
Definition calendar_date (d : Date) : Prop :=
  1 <= getDate d <= 31 ∧ 0 <= getMonth d <= 11 ∧ 1000 <= getFullYear d <= 9999.

(** The part of a transaction number before the sequence number. *)
Definition date_prefix (d : Date) : string :=
  "TRX-" ++ padStart 2 "0" (pretty (getDate d)) ++ padStart 2 "0" (pretty (getMonth d + 1))
  ++ pretty (getFullYear d).

Definition head_is_not_zero (s : string) : Prop :=
  match s with
  | String c _ => c ≠ "0"%char
  | EmptyString => False
  end.

(** ** More hosts and states, for the instances *)

(** A remote end that answers every request with an error page. *)
Definition not_found_host : Host :=
  {| parseFloat := λ _, NaN;
     parseInt := λ _, NaN;
     network := λ _, Ok {| ok := false; http_status := 404; text := Ok "Not Found";
                           json := Throw (Error "Unexpected token N in JSON") |};
     now := "2024-01-01T00:00:00.000Z" |}.

(** A service on a page without a product grid, after the calls of [init]. *)
Definition gridless_state : State :=
  (addToCart "semen-rajawali"
     (renderProducts getFallbackInventory (new_InventoryService None))).2.

(** A page with every control. *)
Definition full_page : Page :=
  {| searchInput := true; searchBtn := true; checkoutBtn := true |}.

(** A user who confirms every dialog. *)
Definition confirming_browser : Browser :=
  {| confirm := λ _, true; format_idID := λ _, "" |}.

(** A window that prints a Number as the digits of its integer part. *)
Definition plain_browser : Browser :=
  {| confirm := λ _, true; format_idID := λ x, pretty (Z_of_number x) |}.

(** ** Auxiliary definitions for the binary64 proofs *)

(** What [k] steps of [shr_1] leave of a mantissa [m]: the quotient, a round
    bit that is set only when the remainder is at least half, and no bit set
    when the remainder is zero. *)
Definition shr_inv (m k : Z) (mrs : shr_record) : Prop :=
  shr_m mrs = m / 2 ^ k ∧
  (shr_r mrs = true → 2 ^ k <= 2 * (m mod 2 ^ k)) ∧
  (m mod 2 ^ k = 0 → shr_r mrs = false ∧ shr_s mrs = false).

(** The result of rounding to a mantissa [rn] in [[2^52, 2^53]] at exponent
    [e]: a carry into [2^53] moves to the next exponent. *)
Definition normal (rn e : Z) : spec_float :=
  if rn =? 2 ^ 53 then S754_finite false (2 ^ 52)%positive (e + 1)
  else S754_finite false (Z.to_pos rn) e.

(** Canonical binary64 form of an integer [0 < n < 2^53]. *)
Definition canon (n : Z) : spec_float :=
  S754_finite false (Z.to_pos (n * 2 ^ (53 - Zdigits2 n))) (Zdigits2 n - 53).

(** The mantissa of [tax_literal]: [100 * tax_mantissa = 11 * 2^56 + 4]. *)
Abbreviation tax_mantissa := 7926335344172073 (only parsing).

(** * Proofs *)

(** ** Binary64 arithmetic on integers *)

(** [digits2_pos p] is the bit length of [p]. *)
Lemma digits2_pos_bounds (p : positive) :
  2 ^ (Z.pos (digits2_pos p) - 1) <= Z.pos p < 2 ^ Z.pos (digits2_pos p).
Proof.
  induction p as [p IH|p IH|]; simpl digits2_pos.
  - rewrite Pos2Z.inj_succ.
    replace (Z.succ (Z.pos (digits2_pos p)) - 1) with (Z.succ (Z.pos (digits2_pos p) - 1)) by lia.
    rewrite !Z.pow_succ_r by lia. lia.
  - rewrite Pos2Z.inj_succ.
    replace (Z.succ (Z.pos (digits2_pos p)) - 1) with (Z.succ (Z.pos (digits2_pos p) - 1)) by lia.
    rewrite !Z.pow_succ_r by lia. lia.
  - simpl. lia.
Qed.

Lemma digits2_pos_unique (p : positive) (d : Z) :
  2 ^ (d - 1) <= Z.pos p < 2 ^ d -> Z.pos (digits2_pos p) = d.
Proof.
  intros [Hl Hu]. pose proof (digits2_pos_bounds p) as [Hl' Hu'].
  assert (0 < d).
  { destruct (Z_lt_le_dec 0 d) as [|Hd]; [done|].
    destruct (Z.eq_dec d 0) as [->|]; [simpl in Hu; lia|].
    rewrite Z.pow_neg_r in Hu by lia. lia. }
  destruct (Z_lt_le_dec (Z.pos (digits2_pos p)) d) as [Hlt|Hge].
  - assert (2 ^ Z.pos (digits2_pos p) <= 2 ^ (d - 1)) by (apply Z.pow_le_mono_r; lia). lia.
  - destruct (Z.eq_dec (Z.pos (digits2_pos p)) d) as [|Hne]; [done|].
    assert (2 ^ d <= 2 ^ (Z.pos (digits2_pos p) - 1)) by (apply Z.pow_le_mono_r; lia). lia.
Qed.

Lemma Pos_iter_xO (m d : positive) : Z.pos (Pos.iter xO m d) = Z.pos m * 2 ^ Z.pos d.
Proof.
  induction d as [|d IH] using Pos.peano_ind.
  - simpl. lia.
  - rewrite Pos.iter_succ, Pos2Z.inj_xO, IH, Pos2Z.inj_succ, Z.pow_succ_r by lia. lia.
Qed.

(** The iterator of [SpecFloat] is the one of [Pos]. *)
Lemma iter_pos_Pos_iter {A} (f : A -> A) (p : positive) (x : A) :
  SpecFloat.iter_pos f p x = Pos.iter f x p.
Proof.
  revert x. induction p as [p IH|p IH|]; intros x; simpl.
  - rewrite !IH. rewrite <- !Pos.iter_swap. reflexivity.
  - rewrite !IH. reflexivity.
  - reflexivity.
Qed.

Lemma shr_1_nonneg (M : Z) (r s : bool) :
  0 <= M →
  shr_1 (Build_shr_record M r s) = Build_shr_record (M / 2) (Z.odd M) (r || s).
Proof.
  intros HM. destruct M as [|[p|p|]|]; try lia; simpl shr_1; f_equal.
  - apply Z.div_unique with 1; lia.
  - apply Z.div_unique with 0; lia.
Qed.

(** One more step of [shr_1] keeps [shr_inv]. *)
Lemma shr_inv_step (m k : Z) (mrs : shr_record) :
  0 <= m → 0 <= k → shr_inv m k mrs → shr_inv m (k + 1) (shr_1 mrs).
Proof.
  intros Hm Hk (HM & Hr & Hz). destruct mrs as [M r s]. cbn [shr_m shr_r shr_s] in *.
  assert (Hpow : 0 < 2 ^ k) by (apply Z.pow_pos_nonneg; lia).
  assert (HM0 : 0 <= M) by (subst M; apply Z.div_pos; lia).
  rewrite shr_1_nonneg by done. unfold shr_inv.
  rewrite Z.pow_add_r, Z.pow_1_r by lia.
  pose proof (Z.rem_mul_r m (2 ^ k) 2 ltac:(lia) ltac:(lia)) as Hrem.
  pose proof (Z.mod_pos_bound m (2 ^ k) Hpow) as Hb.
  rewrite <- HM, Zmod_odd in Hrem.
  split; [|split]; cbn [shr_m shr_r shr_s].
  - rewrite HM. apply Z.div_div; lia.
  - intros Hodd. rewrite Hodd in Hrem. lia.
  - intros H0. destruct (Z.odd M); [lia|].
    destruct Hz as [-> ->]; [lia|done].
Qed.

Lemma shr_inv_iter (m : Z) (p : positive) :
  0 <= m →
  shr_inv m (Z.pos p) (SpecFloat.iter_pos shr_1 p (Build_shr_record m false false)).
Proof.
  intros Hm. rewrite iter_pos_Pos_iter.
  induction p as [|p IH] using Pos.peano_ind.
  - change (Pos.iter shr_1 ?x 1) with (shr_1 x). change (Z.pos 1) with (0 + 1).
    apply shr_inv_step; [done|done|].
    unfold shr_inv; cbn [shr_m shr_r shr_s]. rewrite Z.pow_0_r, Z.div_1_r. done.
  - rewrite Pos.iter_succ, Pos2Z.inj_succ. apply shr_inv_step; [done|lia|done].
Qed.

Lemma shr_nonpos (r : shr_record) (e n : Z) : n <= 0 → shr r e n = (r, e).
Proof. intros Hn. unfold shr. destruct n; [reflexivity|lia|reflexivity]. Qed.

(** A mantissa of at most 53 bits is not rounded. *)
Lemma binary_round_aux_exact (m : positive) (e : Z) :
  Z.pos (digits2_pos m) <= 53 → -1074 <= e <= 971 →
  binary_round_aux prec emax false (Z.pos m) e loc_Exact = S754_finite false m e.
Proof.
  intros Hd He. unfold binary_round_aux, shr_fexp, fexp, emin, prec, emax.
  simpl Zdigits2. simpl shr_record_of_loc.
  rewrite shr_nonpos by lia.
  cbn [shr_m shr_r shr_s loc_of_shr_record round_nearest_even Zdigits2].
  rewrite shr_nonpos by lia. cbn [shr_m].
  destruct (Z.leb_spec e (1024 - 53)); [reflexivity|lia].
Qed.

Lemma round_nearest_even_inv (m n : Z) (mrs : shr_record) :
  shr_inv m n mrs →
  let rn := round_nearest_even (shr_m mrs) (loc_of_shr_record mrs) in
  m / 2 ^ n <= rn <= m / 2 ^ n + 1 ∧
  (rn = m / 2 ^ n + 1 → 2 ^ n <= 2 * (m mod 2 ^ n)) ∧
  (m mod 2 ^ n = 0 → rn = m / 2 ^ n).
Proof.
  intros (HM & Hr & Hz). destruct mrs as [M r s]. cbn [shr_m shr_r shr_s] in *.
  subst M. cbv zeta.
  destruct r, s; cbn [loc_of_shr_record round_nearest_even];
    try destruct (Z.even _); repeat split; try lia;
    intros H; try (destruct (Hz H); discriminate); try (apply Hr; reflexivity); lia.
Qed.

(** A mantissa of [d > 53] bits loses its [d - 53] low bits: the result is the
    quotient or the quotient plus one, the latter only when the remainder is
    at least half, and the quotient itself when the remainder is zero. *)
Lemma binary_round_aux_shift (m : positive) (e : Z) :
  let d := Z.pos (digits2_pos m) in
  53 < d → -1021 <= d + e <= 1023 →
  ∃ rn, binary_round_aux prec emax false (Z.pos m) e loc_Exact = normal rn (e + (d - 53))
    ∧ Z.pos m / 2 ^ (d - 53) <= rn <= Z.pos m / 2 ^ (d - 53) + 1
    ∧ (rn = Z.pos m / 2 ^ (d - 53) + 1 → 2 ^ (d - 53) <= 2 * (Z.pos m mod 2 ^ (d - 53)))
    ∧ (Z.pos m mod 2 ^ (d - 53) = 0 → rn = Z.pos m / 2 ^ (d - 53)).
Proof.
  intros d Hd He.
  pose proof (digits2_pos_bounds m) as Hm. fold d in Hm.
  destruct (d - 53) as [|p|p] eqn:Hn; try lia.
  assert (Hpow : 0 < 2 ^ Z.pos p) by (apply Z.pow_pos_nonneg; lia).
  assert (Hsplit : 2 ^ (d - 1) = 2 ^ 52 * 2 ^ Z.pos p /\ 2 ^ d = 2 ^ 53 * 2 ^ Z.pos p).
  { rewrite <- !Z.pow_add_r by lia. split; f_equal; lia. }
  destruct Hsplit as [Hs1 Hs2].
  assert (Hm0 : 2 ^ 52 <= Z.pos m / 2 ^ Z.pos p < 2 ^ 53).
  { split; [apply Z.div_le_lower_bound; lia | apply Z.div_lt_upper_bound; lia]. }
  pose proof (shr_inv_iter (Z.pos m) p ltac:(lia)) as Hinv.
  pose proof (round_nearest_even_inv _ _ _ Hinv) as Hrn.
  set (mrs := SpecFloat.iter_pos shr_1 p _) in *.
  set (rn := round_nearest_even (shr_m mrs) (loc_of_shr_record mrs)) in *.
  cbv zeta in Hrn. exists rn. split; [|exact Hrn].
  unfold binary_round_aux, shr_fexp, fexp, emin, prec, emax.
  cbn [Zdigits2 shr_record_of_loc]. fold d.
  replace (Z.max (d + e - 53) (3 - 1024 - 53) - e) with (Z.pos p) by lia.
  cbn [shr]. fold mrs. fold rn. unfold normal.
  destruct (Z.eqb_spec rn (2 ^ 53)) as [Heq|Hne].
  - rewrite Heq. change (Zdigits2 (2 ^ 53)) with 54.
    replace (Z.max (54 + (e + Z.pos p) - 53) (3 - 1024 - 53) - (e + Z.pos p)) with 1 by lia.
    change (shr (Build_shr_record (2 ^ 53) false false) (e + Z.pos p) 1)
      with (Build_shr_record (Z.pos (2 ^ 52)) false false, e + Z.pos p + 1).
    cbn [shr_m]. destruct (Z.leb_spec (e + Z.pos p + 1) (1024 - 53)); [reflexivity|lia].
  - destruct rn as [|q|q] eqn:Hq; try lia.
    assert (Hdq : Z.pos (digits2_pos q) = 53) by (apply digits2_pos_unique; lia).
    cbn [Zdigits2]. rewrite Hdq. rewrite shr_nonpos by lia. cbn [shr_m Z.to_pos].
    destruct (Z.leb_spec (e + Z.pos p) (1024 - 53)); [reflexivity|lia].
Qed.

Lemma Zdigits2_bounds (n : Z) : 0 < n → 2 ^ (Zdigits2 n - 1) <= n < 2 ^ Zdigits2 n.
Proof. destruct n as [|q|q]; try lia. intros _. apply digits2_pos_bounds. Qed.

Lemma Zdigits2_le_53 (n : Z) : 0 < n < 2 ^ 53 → 1 <= Zdigits2 n <= 53.
Proof.
  intros Hn. pose proof (Zdigits2_bounds n ltac:(lia)) as Hb.
  split; [destruct n; simpl; lia|].
  destruct (Z_le_gt_dec (Zdigits2 n) 53) as [|Hgt]; [done|].
  assert (2 ^ 53 <= 2 ^ (Zdigits2 n - 1)) by (apply Z.pow_le_mono_r; lia). lia.
Qed.

Lemma digits2_pos_shift (m : positive) (n k : Z) :
  Z.pos m = n * 2 ^ k → 0 < n → 0 <= k → Z.pos (digits2_pos m) = Zdigits2 n + k.
Proof.
  intros Hm Hn Hk. pose proof (Zdigits2_bounds n Hn) as Hb.
  assert (1 <= Zdigits2 n) by (destruct n; simpl; lia).
  assert (0 < 2 ^ k) by (apply Z.pow_pos_nonneg; lia).
  apply digits2_pos_unique. rewrite Hm.
  replace (Zdigits2 n + k - 1) with (Zdigits2 n - 1 + k) by lia.
  rewrite !Z.pow_add_r by lia. nia.
Qed.

(** An integer below [2^53], written with [k] extra zero bits, rounds to its
    canonical form. *)
Lemma binary_round_aux_int (m : positive) (n k : Z) :
  Z.pos m = n * 2 ^ k → 0 < n < 2 ^ 53 → 0 <= k → 53 <= Zdigits2 n + k →
  binary_round_aux prec emax false (Z.pos m) (- k) loc_Exact = canon n.
Proof.
  intros Hm Hn Hk Hd.
  pose proof (Zdigits2_le_53 n Hn) as Hdn.
  pose proof (digits2_pos_shift m n k Hm ltac:(lia) Hk) as Hdm.
  destruct (Z.eq_dec (Zdigits2 n + k) 53) as [Heq|Hne].
  - rewrite binary_round_aux_exact by lia. unfold canon.
    replace (53 - Zdigits2 n) with k by lia. rewrite <- Hm.
    cbn [Z.to_pos]. f_equal. lia.
  - destruct (binary_round_aux_shift m (- k)) as (rn & -> & Hrn & _ & Hex); [lia|lia|].
    rewrite Hdm in *.
    set (s := Zdigits2 n + k - 53) in *.
    assert (Hs : 0 < s <= k) by (unfold s; lia).
    assert (Hpk : 2 ^ k = 2 ^ (k - s) * 2 ^ s) by (rewrite <- Z.pow_add_r by lia; f_equal; lia).
    assert (0 < 2 ^ s) by (apply Z.pow_pos_nonneg; lia).
    assert (Hmod : Z.pos m mod 2 ^ s = 0).
    { rewrite Hm, Hpk, Z.mul_assoc. apply Z.mod_mul; lia. }
    assert (Hdiv : Z.pos m / 2 ^ s = n * 2 ^ (k - s)).
    { rewrite Hm, Hpk, Z.mul_assoc. apply Z.div_mul; lia. }
    rewrite (Hex Hmod), Hdiv. unfold normal, canon.
    replace (k - s) with (53 - Zdigits2 n) by (unfold s; lia).
    pose proof (Zdigits2_bounds n ltac:(lia)) as Hb.
    assert (2 ^ 53 = 2 ^ Zdigits2 n * 2 ^ (53 - Zdigits2 n))
      by (rewrite <- Z.pow_add_r by lia; f_equal; lia).
    assert (0 < 2 ^ (53 - Zdigits2 n)) by (apply Z.pow_pos_nonneg; lia).
    destruct (Z.eqb_spec (n * 2 ^ (53 - Zdigits2 n)) (2 ^ 53)); [nia|].
    f_equal. unfold s. lia.
Qed.

Lemma shl_align_fst (m : positive) (e e' : Z) :
  e' <= e → Z.pos (fst (shl_align m e e')) = Z.pos m * 2 ^ (e - e').
Proof.
  intros He. unfold shl_align. destruct (e' - e) as [|p|p] eqn:Hd; try lia; simpl fst.
  - replace (e - e') with 0 by lia. lia.
  - rewrite Pos_iter_xO. f_equal. f_equal. lia.
Qed.

Lemma shl_align_snd (m : positive) (e e' : Z) :
  snd (shl_align m e e') = Z.min e e'.
Proof. unfold shl_align. destruct (e' - e) as [|p|p] eqn:Hd; simpl snd; lia. Qed.

Lemma binary_round_int (m : positive) (n k : Z) :
  Z.pos m = n * 2 ^ k → 0 < n < 2 ^ 53 → 0 <= k →
  binary_round prec emax false m (- k) = canon n.
Proof.
  intros Hm Hn Hk. unfold binary_round.
  pose proof (Zdigits2_le_53 n Hn) as Hdn.
  rewrite (digits2_pos_shift m n k Hm ltac:(lia) Hk).
  replace (fexp prec emax (Zdigits2 n + k + - k)) with (Zdigits2 n - 53)
    by (unfold fexp, emin, prec, emax; lia).
  destruct (shl_align m (- k) (Zdigits2 n - 53)) as [mz ez] eqn:Hal.
  pose proof (shl_align_snd m (- k) (Zdigits2 n - 53)) as Hsnd.
  rewrite Hal in Hsnd. simpl in Hsnd. subst ez.
  destruct (Z_le_gt_dec (Zdigits2 n - 53) (- k)) as [Hle|Hgt].
  - pose proof (shl_align_fst m (- k) (Zdigits2 n - 53) Hle) as Hfst.
    rewrite Hal in Hfst. simpl in Hfst.
    rewrite Z.min_r by lia.
    replace (Zdigits2 n - 53) with (- (53 - Zdigits2 n)) by lia.
    apply binary_round_aux_int; [|lia|lia|lia].
    rewrite Hfst, Hm, <- Z.mul_assoc, <- Z.pow_add_r by lia. f_equal. f_equal. lia.
  - assert (mz = m).
    { unfold shl_align in Hal. destruct (Zdigits2 n - 53 - - k) eqn:Hd; try lia; congruence. }
    subst mz. rewrite Z.min_l by lia.
    apply binary_round_aux_int; [done|lia|lia|lia].
Qed.

(** The Number of an integer below [2^53] is its canonical form. *)
Lemma number_of_Z_canon (n : Z) : 0 < n < 2 ^ 53 → number_of_Z n = canon n.
Proof.
  intros Hn. unfold number_of_Z. destruct n as [|q|q]; try lia.
  cbn [binary_normalize]. apply (binary_round_int q (Z.pos q) 0); [simpl; lia|done|done].
Qed.

Lemma canon_mantissa (n : Z) :
  0 < n < 2 ^ 53 →
  Z.pos (Z.to_pos (n * 2 ^ (53 - Zdigits2 n))) = n * 2 ^ (53 - Zdigits2 n).
Proof.
  intros Hn. pose proof (Zdigits2_le_53 n Hn).
  assert (0 < 2 ^ (53 - Zdigits2 n)) by (apply Z.pow_pos_nonneg; lia).
  apply Z2Pos.id. nia.
Qed.

(** Addition and multiplication of small integers are exact. *)
Lemma js_add_int (a b : Z) :
  0 <= a → 0 <= b → a + b < 2 ^ 53 →
  js_add (number_of_Z a) (number_of_Z b) = number_of_Z (a + b).
Proof.
  intros Ha Hb Hab.
  destruct (Z.eq_dec a 0) as [->|Ha0].
  { destruct (Z.eq_dec b 0) as [->|Hb0]; [reflexivity|].
    rewrite Z.add_0_l, (number_of_Z_canon b) by lia. reflexivity. }
  destruct (Z.eq_dec b 0) as [->|Hb0].
  { rewrite Z.add_0_r, (number_of_Z_canon a) by lia. reflexivity. }
  rewrite !number_of_Z_canon by lia.
  pose proof (Zdigits2_le_53 a ltac:(lia)) as Hda.
  pose proof (Zdigits2_le_53 b ltac:(lia)) as Hdb.
  pose proof (canon_mantissa a ltac:(lia)) as Hma.
  pose proof (canon_mantissa b ltac:(lia)) as Hmb.
  unfold js_add, canon at 1 2, SFadd.
  set (ma := Z.to_pos (a * _)) in *. set (mb := Z.to_pos (b * _)) in *.
  set (ez := Z.min (Zdigits2 a - 53) (Zdigits2 b - 53)).
  cbn [cond_Zopp].
  pose proof (shl_align_fst ma (Zdigits2 a - 53) ez ltac:(unfold ez; lia)) as Hfa.
  pose proof (shl_align_fst mb (Zdigits2 b - 53) ez ltac:(unfold ez; lia)) as Hfb.
  assert (Hez : ez <= 0) by (unfold ez; lia).
  assert (Hfa' : Z.pos (fst (shl_align ma (Zdigits2 a - 53) ez)) = a * 2 ^ (- ez)).
  { rewrite Hfa, Hma, <- Z.mul_assoc, <- Z.pow_add_r by (unfold ez; lia). f_equal. f_equal. lia. }
  assert (Hfb' : Z.pos (fst (shl_align mb (Zdigits2 b - 53) ez)) = b * 2 ^ (- ez)).
  { rewrite Hfb, Hmb, <- Z.mul_assoc, <- Z.pow_add_r by (unfold ez; lia). f_equal. f_equal. lia. }
  cbn [Z.add binary_normalize].
  replace ez with (- - ez) at 3 by lia.
  apply binary_round_int; [|lia|lia].
  rewrite Pos2Z.inj_add, Hfa', Hfb'. lia.
Qed.

Lemma Zdigits2_mul_lower (a b : Z) :
  0 < a → 0 < b → Zdigits2 a + Zdigits2 b - 1 <= Zdigits2 (a * b).
Proof.
  intros Ha Hb.
  pose proof (Zdigits2_bounds a Ha) as Ba. pose proof (Zdigits2_bounds b Hb) as Bb.
  pose proof (Zdigits2_bounds (a * b) ltac:(nia)) as Bab.
  assert (1 <= Zdigits2 a) by (destruct a; simpl; lia).
  assert (1 <= Zdigits2 b) by (destruct b; simpl; lia).
  destruct (Z_le_gt_dec (Zdigits2 a + Zdigits2 b - 1) (Zdigits2 (a * b))) as [|Hgt]; [done|].
  assert (2 ^ Zdigits2 (a * b) <= 2 ^ (Zdigits2 a - 1 + (Zdigits2 b - 1)))
    by (apply Z.pow_le_mono_r; lia).
  rewrite Z.pow_add_r in * by lia. nia.
Qed.

Lemma js_mul_int (a b : Z) :
  0 <= a < 2 ^ 53 → 0 <= b < 2 ^ 53 → a * b < 2 ^ 53 →
  js_mul (number_of_Z a) (number_of_Z b) = number_of_Z (a * b).
Proof.
  intros Ha Hb Hab.
  destruct (Z.eq_dec a 0) as [->|Ha0].
  { destruct (Z.eq_dec b 0) as [->|Hb0]; [reflexivity|].
    rewrite Z.mul_0_l, (number_of_Z_canon b) by lia. reflexivity. }
  destruct (Z.eq_dec b 0) as [->|Hb0].
  { rewrite Z.mul_0_r, (number_of_Z_canon a) by lia. reflexivity. }
  rewrite !number_of_Z_canon by nia.
  pose proof (Zdigits2_le_53 a ltac:(lia)) as Hda.
  pose proof (Zdigits2_le_53 b ltac:(lia)) as Hdb.
  pose proof (canon_mantissa a ltac:(lia)) as Hma.
  pose proof (canon_mantissa b ltac:(lia)) as Hmb.
  pose proof (Zdigits2_mul_lower a b ltac:(lia) ltac:(lia)) as Hdab.
  unfold js_mul, canon at 1 2, SFmul.
  set (ma := Z.to_pos (a * _)) in *. set (mb := Z.to_pos (b * _)) in *.
  cbn [xorb].
  replace (Zdigits2 a - 53 + (Zdigits2 b - 53))
    with (- (53 - Zdigits2 a + (53 - Zdigits2 b))) by lia.
  apply binary_round_aux_int; [|nia|lia|lia].
  rewrite Pos2Z.inj_mul, Hma, Hmb, Z.pow_add_r by lia. lia.
Qed.

(** The integer core of [Math.round(s * 0.11)]: [D] is the power of two the
    product [s * tax_mantissa] is divided by when it is rounded to 53 bits,
    [m0] and [R] its quotient and remainder, [rn] the rounded mantissa and
    [2 * H] the weight of one unit in it. *)
Lemma tax_round_arith (s m0 R rn D H : Z) :
  0 < s <= max_exact_subtotal → 0 < D <= 2 ^ 50 → 0 < H → D * H = 2 ^ 55 →
  s * tax_mantissa = D * m0 + R → 0 <= R < D →
  D * 2 ^ 52 <= s * tax_mantissa →
  m0 <= rn <= m0 + 1 → (rn = m0 + 1 → D <= 2 * R) →
  (rn + H) / (2 * H) = (11 * s + 50) / 100.
Proof.
  intros Hs HD HH HDH HsM HR Hlow Hrn Hup.
  set (q := (11 * s + 50) / 100).
  pose proof (Z.div_mod (11 * s + 50) 100 ltac:(lia)) as Hq.
  pose proof (Z.mod_pos_bound (11 * s + 50) 100 ltac:(lia)) as Hqr.
  fold q in Hq.
  change (2 ^ 55) with 36028797018963968 in HDH.
  change (2 ^ 52) with 4503599627370496 in Hlow.
  change (2 ^ 50) with 1125899906842624 in HD.
  unfold max_exact_subtotal in Hs.
  assert (Hlo : (2 * q - 1) * H <= m0).
  { assert (Hle : D * ((2 * q - 1) * H) <= D * m0 + R) by nia.
    assert (Hlt : D * ((2 * q - 1) * H) < D * (m0 + 1)) by nia.
    apply Z.mul_lt_mono_pos_l in Hlt; lia. }
  assert (Hhi : rn < (2 * q + 1) * H).
  { destruct (Z_lt_le_dec rn ((2 * q + 1) * H)) as [|Hge]; [done|exfalso].
    destruct (Z.eq_dec rn m0) as [Heq|Hne].
    - assert (Hmul : D * ((2 * q + 1) * H) <= D * m0)
        by (apply Z.mul_le_mono_nonneg_l; lia).
      nia.
    - assert (Hrn1 : rn = m0 + 1) by lia. specialize (Hup Hrn1).
      assert (Hmul : D * ((2 * q + 1) * H) <= D * (m0 + 1))
        by (apply Z.mul_le_mono_nonneg_l; lia).
      nia. }
  symmetry. apply Z.div_unique with (rn + H - 2 * H * q); nia.
Qed.

(** [Math.round(s * 0.11)] in binary64 is the exact rounding half up of
    [11 s / 100] for every integer subtotal up to [max_exact_subtotal]. *)
Lemma Math_round_tax (s : Z) :
  0 <= s <= max_exact_subtotal →
  Math_round (js_mul (number_of_Z s) tax_literal) = number_of_Z ((11 * s + 50) / 100).
Proof.
  intros Hs. destruct (Z.eq_dec s 0) as [->|Hs0]; [reflexivity|].
  pose proof Hs as Hs'. unfold max_exact_subtotal in Hs'.
  assert (Hs53 : 0 < s < 2 ^ 53) by (change (2 ^ 53) with 9007199254740992; lia).
  rewrite number_of_Z_canon by done.
  pose proof (Zdigits2_le_53 s Hs53) as Hds.
  pose proof (canon_mantissa s Hs53) as Hms.
  pose proof (Zdigits2_mul_lower s tax_mantissa ltac:(lia) ltac:(done)) as Hdlow.
  change (Zdigits2 tax_mantissa) with 53 in Hdlow.
  pose proof (Zdigits2_bounds (s * tax_mantissa) ltac:(lia)) as HdsM.
  unfold js_mul, canon, tax_literal, SFmul. cbn [xorb].
  remember (53 - Zdigits2 s) as k eqn:Hk.
  remember (Z.to_pos (s * 2 ^ k)) as ms eqn:Hmsdef. clear Hmsdef.
  remember (Zdigits2 (s * tax_mantissa) - 53) as t eqn:Htdef.
  assert (HP : Z.pos (ms * 7926335344172073) = s * tax_mantissa * 2 ^ k).
  { rewrite Pos2Z.inj_mul, Hms. lia. }
  pose proof (digits2_pos_shift _ _ _ HP ltac:(lia) ltac:(lia)) as HdP.
  assert (Ht : 0 <= t <= 50).
  { split; [lia|].
    destruct (Z_le_gt_dec t 50) as [|Hgt]; [done|].
    assert (2 ^ 103 <= 2 ^ (Zdigits2 (s * tax_mantissa) - 1)) by (apply Z.pow_le_mono_r; lia).
    change (2 ^ 103) with 10141204801825835211973625643008 in *. lia. }
  destruct (binary_round_aux_shift (ms * 7926335344172073) (Zdigits2 s - 53 + -56))
    as (rn & -> & Hrn & Hup & _); [lia|lia|].
  rewrite HdP in *.
  replace (Zdigits2 (s * tax_mantissa) + k - 53) with (t + k) in * by lia.
  replace (Zdigits2 s - 53 + -56 + (t + k)) with (t - 56) by lia.
  assert (HD : 0 < 2 ^ t) by (apply Z.pow_pos_nonneg; lia).
  assert (HD50 : 2 ^ t <= 2 ^ 50) by (apply Z.pow_le_mono_r; lia).
  assert (HK : 0 < 2 ^ k) by (apply Z.pow_pos_nonneg; lia).
  assert (HH : 0 < 2 ^ (55 - t)) by (apply Z.pow_pos_nonneg; lia).
  assert (HDH : 2 ^ t * 2 ^ (55 - t) = 2 ^ 55) by (rewrite <- Z.pow_add_r by lia; f_equal; lia).
  rewrite HP, Z.pow_add_r in * by lia.
  rewrite Z.div_mul_cancel_r in Hrn, Hup by lia.
  rewrite Z.mul_mod_distr_r in Hup by lia.
  assert (Hlow : 2 ^ t * 2 ^ 52 <= s * tax_mantissa).
  { rewrite <- Z.pow_add_r by lia. replace (t + 52) with (Zdigits2 (s * tax_mantissa) - 1) by lia. lia. }
  pose proof (Z.div_mod (s * tax_mantissa) (2 ^ t) ltac:(lia)) as Hdm.
  pose proof (Z.mod_pos_bound (s * tax_mantissa) (2 ^ t) HD) as Hmb.
  assert (Hq : (rn + 2 ^ (55 - t)) / (2 * 2 ^ (55 - t)) = (11 * s + 50) / 100).
  { apply (tax_round_arith s ((s * tax_mantissa) / 2 ^ t) ((s * tax_mantissa) mod 2 ^ t) rn (2 ^ t));
      [lia|done|done|done|exact Hdm|done|done|done|].
    intros Heq. specialize (Hup Heq). nia. }
  unfold number_of_Z. rewrite <- Hq. unfold normal.
  destruct (Z.eqb_spec rn (2 ^ 53)) as [->|Hne].
  - unfold Math_round. destruct (Z.leb_spec 0 (t - 56 + 1)); [lia|].
    cbn [cond_Zopp]. f_equal.
    replace (- (t - 56 + 1) - 1) with (54 - t) by lia.
    replace (- (t - 56 + 1)) with (55 - t) by lia.
    replace (55 - t) with (1 + (54 - t)) by lia.
    rewrite Z.pow_add_r by lia. change (2 ^ 1) with 2.
    change (Z.pos (2 ^ 52)) with (2 ^ 52). change (2 ^ 53) with (2 * 2 ^ 52).
    rewrite <- Z.mul_add_distr_l. rewrite Z.div_mul_cancel_l; [reflexivity| |lia].
    assert (0 < 2 ^ (54 - t)) by (apply Z.pow_pos_nonneg; lia). lia.
  - unfold Math_round. destruct (Z.leb_spec 0 (t - 56)); [lia|].
    cbn [cond_Zopp]. f_equal.
    replace (- (t - 56) - 1) with (55 - t) by lia.
    replace (- (t - 56)) with (1 + (55 - t)) by lia.
    rewrite (Z.pow_add_r 2 1) by lia. change (2 ^ 1) with 2.
    rewrite Z2Pos.id; [reflexivity|].
    assert (0 < (s * tax_mantissa) / 2 ^ t); [|lia].
    apply Z.div_str_pos. split; [lia|].
    change (2 ^ 52) with 4503599627370496 in Hlow. nia.
Qed.

(** ** The quantity counter

    The cart keeps [quantity] as an integer.  On the Numbers that hold the
    integers from 0 to [2^53 - 1], the three operations the program applies
    to a quantity, [+= 1], [-= 1] and [<= 0], are the integer ones. *)

Lemma js_sub_int (a b : Z) :
  0 < b → b <= a → a < 2 ^ 53 →
  js_sub (number_of_Z a) (number_of_Z b) = number_of_Z (a - b).
Proof.
  intros Hb Hba Ha.
  rewrite (number_of_Z_canon a), (number_of_Z_canon b) by lia.
  pose proof (Zdigits2_le_53 a ltac:(lia)) as Hda.
  pose proof (Zdigits2_le_53 b ltac:(lia)) as Hdb.
  pose proof (canon_mantissa a ltac:(lia)) as Hma.
  pose proof (canon_mantissa b ltac:(lia)) as Hmb.
  unfold js_sub, canon, SFsub.
  remember (Z.to_pos (a * 2 ^ (53 - Zdigits2 a))) as ma eqn:Ema. clear Ema.
  remember (Z.to_pos (b * 2 ^ (53 - Zdigits2 b))) as mb eqn:Emb. clear Emb.
  remember (Z.min (Zdigits2 a - 53) (Zdigits2 b - 53)) as ez eqn:Hez.
  cbv zeta. cbn [cond_Zopp].
  pose proof (shl_align_fst ma (Zdigits2 a - 53) ez ltac:(lia)) as Hfa.
  pose proof (shl_align_fst mb (Zdigits2 b - 53) ez ltac:(lia)) as Hfb.
  assert (Hfa' : Z.pos (fst (shl_align ma (Zdigits2 a - 53) ez)) = a * 2 ^ (- ez)).
  { rewrite Hfa, Hma, <- Z.mul_assoc, <- Z.pow_add_r by lia. f_equal. f_equal. lia. }
  assert (Hfb' : Z.pos (fst (shl_align mb (Zdigits2 b - 53) ez)) = b * 2 ^ (- ez)).
  { rewrite Hfb, Hmb, <- Z.mul_assoc, <- Z.pow_add_r by lia. f_equal. f_equal. lia. }
  assert (Hpow : 0 < 2 ^ (- ez)) by (apply Z.pow_pos_nonneg; lia).
  destruct (Z.pos (fst (shl_align ma (Zdigits2 a - 53) ez))
            - Z.pos (fst (shl_align mb (Zdigits2 b - 53) ez))) as [|p|p] eqn:Hdiff.
  - assert (a = b) by nia. subst b. by rewrite Z.sub_diag.
  - cbn [binary_normalize]. rewrite number_of_Z_canon by nia.
    replace ez with (- - ez) at 1 by lia.
    apply binary_round_int; [|nia|lia]. rewrite <- Hdiff, Hfa', Hfb'. lia.
  - exfalso. nia.
Qed.

Lemma quantity_increment_exact (q : Z) :
  0 <= q < 2 ^ 53 - 1 →
  js_add (number_of_Z q) (number_of_Z 1) = number_of_Z (q + 1).
Proof. intros Hq. apply js_add_int; lia. Qed.

Lemma quantity_decrement_exact (q : Z) :
  1 <= q < 2 ^ 53 →
  js_sub (number_of_Z q) (number_of_Z 1) = number_of_Z (q - 1).
Proof. intros Hq. apply js_sub_int; lia. Qed.

Lemma quantity_le_zero_exact (q : Z) :
  0 <= q < 2 ^ 53 →
  js_le (number_of_Z q) (number_of_Z 0) = (q <=? 0).
Proof.
  intros Hq. destruct (Z.eq_dec q 0) as [->|Hq0]; [reflexivity|].
  rewrite number_of_Z_canon by lia.
  destruct (Z.leb_spec q 0); [lia|]. reflexivity.
Qed.

(** ** Order summary (claim C1) *)

Lemma round_half_up_11_percent (s : Z) :
  round_half_up (inject_Z s * (11 # 100)) = (11 * s + 50) / 100.
Proof.
  unfold round_half_up, Qfloor, Qplus, Qmult, inject_Z. cbn [Qnum Qden].
  change (Z.pos (1 * 100 * 2)) with (100 * 2).
  change (Z.pos (1 * 100)) with 100.
  replace (s * 11 * 2 + 1 * 100) with ((11 * s + 50) * 2) by lia.
  apply Z.div_mul_cancel_r; lia.
Qed.

Lemma exact_subtotal_nonneg (lines : list CartLine) :
  Forall integer_line lines → 0 <= exact_subtotal lines.
Proof.
  induction 1 as [|line rest (_ & Hp & Hq) _ IH]; simpl; [lia|]. nia.
Qed.

Lemma exact_item_count_nonneg (lines : list CartLine) :
  Forall integer_line lines → 0 <= exact_item_count lines.
Proof.
  induction 1 as [|line rest (_ & Hp & Hq) _ IH]; simpl; [lia|]. lia.
Qed.

Lemma line_total_exact (line : CartLine) :
  integer_line line → unit_price line * quantity line < 2 ^ 53 → quantity line < 2 ^ 53 →
  line_total line = number_of_Z (unit_price line * quantity line).
Proof.
  intros (Hint & Hp & Hq) Hpq Hq53. unfold line_total. rewrite Hint. fold (unit_price line).
  apply js_mul_int; [nia|lia|done].
Qed.

Lemma fold_subtotal_exact (lines : list CartLine) (acc : Z) :
  Forall integer_line lines → 0 <= acc →
  acc + exact_subtotal lines < 2 ^ 53 → exact_item_count lines < 2 ^ 53 →
  fold_left (λ sum line, js_add sum (line_total line)) lines (number_of_Z acc)
  = number_of_Z (acc + exact_subtotal lines).
Proof.
  intros Hall. revert acc.
  induction Hall as [|line rest Hline Hrest IH]; intros acc Hacc Hsum Hcount; simpl.
  - f_equal. lia.
  - pose proof (exact_subtotal_nonneg rest Hrest) as Hs0.
    pose proof (exact_item_count_nonneg rest Hrest) as Hc0.
    simpl in Hsum, Hcount. destruct Hline as (Hint & Hp & Hq).
    assert (0 <= unit_price line * quantity line) by nia.
    rewrite line_total_exact; [|done|lia|lia].
    rewrite js_add_int by lia.
    rewrite IH by lia. f_equal. lia.
Qed.

Lemma fold_item_count_exact (lines : list CartLine) (acc : Z) :
  Forall integer_line lines → 0 <= acc → acc + exact_item_count lines < 2 ^ 53 →
  fold_left (λ sum line, js_add sum (number_of_Z (quantity line))) lines (number_of_Z acc)
  = number_of_Z (acc + exact_item_count lines).
Proof.
  intros Hall. revert acc.
  induction Hall as [|line rest Hline Hrest IH]; intros acc Hacc Hsum; simpl.
  - f_equal. lia.
  - pose proof (exact_item_count_nonneg rest Hrest) as Hc0.
    simpl in Hsum. destruct Hline as (Hint & Hp & Hq).
    rewrite js_add_int by lia.
    rewrite IH by lia. f_equal. lia.
Qed.

(** C1, as amended.  For every cart whose lines have non-negative integer unit
    prices and positive integer quantities, whose exact subtotal is at most
    [max_exact_subtotal] and whose item count is below [2^53], the binary64
    computation of
    [updateOrderSummary] yields exactly subtotal = sum of price x quantity,
    tax = round-half-up of subtotal x 11/100, total = subtotal + tax and
    itemCount = sum of the quantities. *)
Theorem updateOrderSummary_exact (st : State) :
  Forall integer_line (cart st) →
  exact_subtotal (cart st) <= max_exact_subtotal →
  exact_item_count (cart st) < 2 ^ 53 →
  updateOrderSummary st =
    {| subTotal := number_of_Z (exact_subtotal (cart st));
       taxAmount :=
         number_of_Z (round_half_up (inject_Z (exact_subtotal (cart st)) * (11 # 100)));
       totalAmount :=
         number_of_Z (exact_subtotal (cart st)
                      + round_half_up (inject_Z (exact_subtotal (cart st)) * (11 # 100)));
       itemCount := number_of_Z (exact_item_count (cart st)) |}.
Proof.
  intros Hall Hs Hc.
  pose proof (exact_subtotal_nonneg _ Hall) as Hs0.
  rewrite round_half_up_11_percent.
  unfold updateOrderSummary.
  pose proof Hs as Hs'. unfold max_exact_subtotal in Hs'.
  rewrite (fold_subtotal_exact _ 0 Hall) by (change (2 ^ 53) with 9007199254740992; lia).
  rewrite (fold_item_count_exact _ 0 Hall) by lia.
  rewrite !Z.add_0_l.
  rewrite Math_round_tax by lia.
  pose proof (Z.div_pos (11 * exact_subtotal (cart st) + 50) 100 ltac:(lia) ltac:(lia)).
  assert ((11 * exact_subtotal (cart st) + 50) / 100 < 562949953421312)
    by (apply Z.div_lt_upper_bound; lia).
  rewrite js_add_int by (change (2 ^ 53) with 9007199254740992; lia).
  reflexivity.
Qed.

(** The scenario of the specification: one line of price 165000 and quantity
    1 gives subtotal 165000, tax 18150 and total 183150. *)
Lemma updateOrderSummary_scenario :
  updateOrderSummary
    (state_with_cart [{| item := priced_product "semen-padang" 165000; quantity := 1 |}])
  = {| subTotal := number_of_Z 165000; taxAmount := number_of_Z 18150;
       totalAmount := number_of_Z 183150; itemCount := number_of_Z 1 |}.
Proof.
  apply (updateOrderSummary_exact
           (state_with_cart
              [{| item := priced_product "semen-padang" 165000; quantity := 1 |}])).
  - constructor; [|constructor].
    split; [vm_compute; reflexivity|].
    split; [vm_compute; discriminate|vm_compute; reflexivity].
  - vm_compute. discriminate.
  - vm_compute. reflexivity.
Defined.

(** C1 as the specification states it, for every such cart, fails where the
    product by the binary64 literal [0.11] is no longer fine enough: with a
    subtotal of 1279431712321259, which is 96 above [max_exact_subtotal] and
    below [2^53], so that the subtotal itself is exact, the code computes the
    tax 140737488355339, and rounding half up 11 percent of the subtotal
    gives 140737488355338. *)
Lemma updateOrderSummary_tax_drifts :
  let st := state_with_cart
              [{| item := priced_product "bulk-order" 1279431712321259; quantity := 1 |}] in
  Forall integer_line (cart st)
  ∧ subTotal (updateOrderSummary st) = number_of_Z (exact_subtotal (cart st))
  ∧ exact_subtotal (cart st) = max_exact_subtotal + 96
  ∧ exact_subtotal (cart st) < 2 ^ 53
  ∧ round_half_up (inject_Z (exact_subtotal (cart st)) * (11 # 100)) = 140737488355338
  ∧ taxAmount (updateOrderSummary st) = number_of_Z 140737488355339
  ∧ taxAmount (updateOrderSummary st)
    ≠ number_of_Z (round_half_up (inject_Z (exact_subtotal (cart st)) * (11 # 100))).
Proof.
  cbv zeta. split; [|split; [|split; [|split; [|split; [|split]]]]].
  - constructor; [|constructor].
    split; [vm_compute; reflexivity|].
    split; [vm_compute; discriminate|vm_compute; reflexivity].
  - vm_compute. reflexivity.
  - vm_compute. reflexivity.
  - vm_compute. reflexivity.
  - vm_compute. reflexivity.
  - vm_compute. reflexivity.
  - vm_compute. discriminate.
Qed.

(** ** Running the methods: what each leaves of the state *)

Ltac unfold_M :=
  unfold try_catch, bind, fetch, await, get_state, put_state, ret, throw,
    trace, result, final in *.

Ltac case_match_goal :=
  match goal with
  | |- context [match ?x with _ => _ end] => destruct x eqn:?
  | |- context [if ?b then _ else _] => destruct b eqn:?
  end.

Lemma strict_eq_true (v : option string) (s : string) :
  strict_eq v s = true ↔ v = Some s.
Proof.
  destruct v as [x|]; simpl; [|split; discriminate].
  rewrite String.eqb_eq. split; congruence.
Qed.

Lemma strict_eq_false (v : option string) (s : string) :
  strict_eq v s = false ↔ v ≠ Some s.
Proof.
  rewrite <- strict_eq_true. destruct (strict_eq v s); split; congruence.
Qed.

Lemma loadConfig_final (host : Host) (st : State) :
  ∃ c, final (loadConfig host st) = set_config c st.
Proof.
  unfold loadConfig. unfold_M. cbn.
  destruct (network host _) as [r|e]; cbn; [|eauto].
  destruct (json r) as [[|o]|e]; cbn; eauto.
Qed.

Lemma fetchFromGoogleSheets_final (host : Host) (st : State) :
  final (fetchFromGoogleSheets host st) = st.
Proof.
  unfold fetchFromGoogleSheets. unfold_M. cbn.
  destruct (config st) as [cfg|]; cbn; [|done].
  destruct (network host _) as [r|e]; cbn; [|done].
  destruct (ok r); cbn; [|done].
  destruct (json r) as [[|o]|e]; cbn; done.
Qed.

Lemma fetchFromCSV_final (host : Host) (st : State) :
  final (fetchFromCSV host st) = st.
Proof.
  unfold fetchFromCSV. unfold_M. cbn.
  destruct (network host (plain_get googleSheetsUrl)) as [r|e]; cbn.
  - destruct (text r) as [t|e]; cbn; [done|].
    destruct (network host (plain_get "assets/data/inventory.csv")) as [r'|e']; cbn; [|done].
    destruct (text r') as [t'|e']; cbn; done.
  - destruct (network host (plain_get "assets/data/inventory.csv")) as [r'|e']; cbn; [|done].
    destruct (text r') as [t'|e']; cbn; done.
Qed.

Lemma getInventory_final (host : Host) (st : State) :
  final (getInventory host st) = st.
Proof.
  pose proof (fetchFromGoogleSheets_final host st) as Hg.
  pose proof (fetchFromCSV_final host st) as Hc.
  unfold getInventory. unfold_M. cbn.
  destruct (config st) as [cfg|]; cbn; [|done].
  destruct (truthy_opt (INVENTORY_SHEET_ID cfg) && truthy_opt (APPS_SCRIPT_URL cfg)).
  - destruct (fetchFromGoogleSheets host st) as [[tr [a|e]] st']; cbn in *; congruence.
  - destruct (fetchFromCSV host st) as [[tr [a|e]] st']; cbn in *; congruence.
Qed.

(** [checkout] leaves the state as it was, or, when it returns, with an
    empty cart. *)
Lemma checkout_final (host : Host) (c : option (list CartLine)) (st : State) :
  match result (checkout host c st) with
  | Ok _ => final (checkout host c st) = set_cart [] st
  | Throw _ => final (checkout host c st) = st
  end.
Proof.
  unfold checkout. destruct c as [[|line rest]|]; [done| |done].
  unfold_M. cbn.
  destruct (config st) as [cfg|]; cbn; [|done].
  destruct (truthy_opt (APPS_SCRIPT_URL cfg)); cbn; [|done].
  destruct (network host _) as [r|e]; cbn; [|done].
  destruct (ok r); cbn; [|done].
  destruct (json r) as [[|o]|e]; cbn; try done.
  destruct (success o); cbn; done.
Qed.

Lemma renderProducts_cart (productList : list Product) (st : State) :
  cart (renderProducts productList st) = cart st
  ∧ taxRate (renderProducts productList st) = taxRate st
  ∧ config (renderProducts productList st) = config st.
Proof. unfold renderProducts. destruct (productsGrid st); done. Qed.

Lemma searchProducts_cart (query : string) (st : State) :
  cart (searchProducts query st).2 = cart st
  ∧ taxRate (searchProducts query st).2 = taxRate st.
Proof.
  unfold searchProducts. destruct (filter_throwing _ _); cbn; [|done].
  pose proof (renderProducts_cart a st). tauto.
Qed.

Lemma addToCart_frame (s : string) (st : State) :
  taxRate (addToCart s st).2 = taxRate st
  ∧ config (addToCart s st).2 = config st
  ∧ inventory (addToCart s st).2 = inventory st.
Proof.
  unfold addToCart. destruct (List.find _ (inventory st)); [|done].
  destruct (List.find _ (cart st)); done.
Qed.

Lemma updateQuantity_frame (s action : string) (st : State) :
  taxRate (updateQuantity s action st) = taxRate st
  ∧ config (updateQuantity s action st) = config st
  ∧ inventory (updateQuantity s action st) = inventory st.
Proof.
  unfold updateQuantity. destruct (List.find _ (cart st)); [|done].
  repeat case_match_goal; done.
Qed.

(** The constructor sets [taxRate] to [0.11] and no method assigns it. *)
Lemma reachable_taxRate (st : State) : reachable st → taxRate st = tax_literal.
Proof.
  induction 1 as [grid|host st _ IH|host st _ IH|pl st _ IH|s st _ IH|s st _ IH
                 |s action st _ IH|host c st _ IH|c st _ IH|query st _ IH|st _ IH].
  - done.
  - destruct (loadConfig_final host st) as [c ->]. done.
  - rewrite getInventory_final. done.
  - destruct (renderProducts_cart pl st) as (_ & -> & _). done.
  - destruct (addToCart_frame s st) as (-> & _). done.
  - unfold selectProduct. destruct (addToCart_frame s st) as (-> & _). done.
  - destruct (updateQuantity_frame s action st) as (-> & _). done.
  - pose proof (checkout_final host c st) as Hf.
    destruct (result (checkout host c st)); rewrite Hf; done.
  - unfold filterByCategory. destruct (renderProducts_cart
      (List.filter (λ product, strict_eq (category product) c) (inventory st)) st)
      as (_ & -> & _). done.
  - destruct (searchProducts_cart query st) as (_ & ->). done.
  - done.
Qed.

(** ** Display and submission totals (claim C2) *)

Lemma build_transaction_totals (host : Host) (st : State) :
  taxRate st = tax_literal →
  subtotal (build_transaction host st (cart st)) = subTotal (updateOrderSummary st)
  ∧ tax (build_transaction host st (cart st)) = taxAmount (updateOrderSummary st)
  ∧ total (build_transaction host st (cart st)) = totalAmount (updateOrderSummary st).
Proof.
  intros Hrate. unfold build_transaction, updateOrderSummary, line_total.
  cbn [subtotal tax total subTotal taxAmount totalAmount]. rewrite Hrate. done.
Qed.

(** [checkout] sends nothing, or the one request that carries the
    transaction built from its argument. *)
Lemma checkout_trace (host : Host) (c : option (list CartLine)) (st : State) :
  trace (checkout host c st) = []
  ∨ ∃ lines cfg, c = Some lines ∧ lines ≠ [] ∧ config st = Some cfg
      ∧ truthy_opt (APPS_SCRIPT_URL cfg) = true
      ∧ trace (checkout host c st)
        = [checkout_request cfg (build_transaction host st lines)].
Proof.
  unfold checkout. destruct c as [[|line rest]|]; [by left| |by left].
  unfold_M. cbn.
  destruct (config st) as [cfg|] eqn:Hcfg; cbn; [|by left].
  destruct (truthy_opt (APPS_SCRIPT_URL cfg)) eqn:Hurl; cbn; [|by left].
  right. exists (line :: rest), cfg. repeat split; try done.
  destruct (network host _) as [r|e]; cbn; [|done].
  destruct (ok r); cbn; [|done].
  destruct (json r) as [[|o]|e]; cbn; try done.
  destruct (success o); cbn; done.
Qed.

(** C2.  In every state of a running service, the transaction that
    [checkout] sends for the cart of the service records the subtotal, tax
    and total that [updateOrderSummary] displays for that cart; and for a
    non-empty cart with a configured endpoint such a transaction is sent. *)
Theorem checkout_totals_match_display (host : Host) (st : State) :
  reachable st →
  (∀ req, In req (trace (checkout host (Some (cart st)) st)) →
     ∃ payload, body req = Some payload
       ∧ subtotal (data payload) = subTotal (updateOrderSummary st)
       ∧ tax (data payload) = taxAmount (updateOrderSummary st)
       ∧ total (data payload) = totalAmount (updateOrderSummary st))
  ∧ (∀ cfg, cart st ≠ [] → config st = Some cfg →
       truthy_opt (APPS_SCRIPT_URL cfg) = true →
       trace (checkout host (Some (cart st)) st)
       = [checkout_request cfg (build_transaction host st (cart st))]).
Proof.
  intros Hreach. pose proof (reachable_taxRate st Hreach) as Hrate.
  pose proof (build_transaction_totals host st Hrate) as Htotals.
  destruct (checkout_trace host (Some (cart st)) st)
    as [Hnil|(lines & cfg & Hc & Hne & Hcfg & Hurl & Htr)].
  - split.
    + rewrite Hnil. intros req [].
    + intros cfg Hne Hcfg Hurl. exfalso. revert Hnil.
      unfold checkout. destruct (cart st) as [|line rest]; [done|].
      unfold_M. cbn. rewrite Hcfg. cbn. rewrite Hurl. cbn.
      destruct (network host _) as [r|e]; cbn; [|done].
      destruct (ok r); cbn; [|done].
      destruct (json r) as [[|o]|e]; cbn; try done.
      destruct (success o); cbn; done.
  - injection Hc as <-. split.
    + rewrite Htr. intros req [<-|[]]. eexists. split; [reflexivity|]. exact Htotals.
    + intros cfg' _ Hcfg' _. rewrite Htr. congruence.
Qed.

Lemma demo_state_reachable : reachable demo_state.
Proof.
  unfold demo_state, demo_catalog_state.
  apply reach_addToCart, reach_renderProducts, reach_loadConfig, reach_new.
Defined.

(** The started application has one line in its cart, and its [checkout]
    sends one request. *)
Example demo_state_cart :
  map (λ line, (id (item line), quantity line)) (cart demo_state)
  = [(Some "semen-rajawali", 1)].
Proof. vm_compute. reflexivity. Qed.

Example demo_state_checkout_sends :
  map url (trace (checkout demo_host (Some (cart demo_state)) demo_state))
  = ["https://script.example/exec"].
Proof. vm_compute. reflexivity. Qed.

(** C2 on the started application: one Semen Rajawali in the cart. *)
Lemma checkout_totals_match_display_demo :
  (∀ req, In req (trace (checkout demo_host (Some (cart demo_state)) demo_state)) →
     ∃ payload, body req = Some payload
       ∧ subtotal (data payload) = subTotal (updateOrderSummary demo_state)
       ∧ tax (data payload) = taxAmount (updateOrderSummary demo_state)
       ∧ total (data payload) = totalAmount (updateOrderSummary demo_state))
  ∧ (∀ cfg, cart demo_state ≠ [] → config demo_state = Some cfg →
       truthy_opt (APPS_SCRIPT_URL cfg) = true →
       trace (checkout demo_host (Some (cart demo_state)) demo_state)
       = [checkout_request cfg (build_transaction demo_host demo_state (cart demo_state))]).
Proof.
  apply (checkout_totals_match_display demo_host demo_state). exact demo_state_reachable.
Defined.

(** ** Catalog fallback chain (claim C3) *)

Lemma fetchFromCSV_run (host : Host) (st : State) :
  fetchFromCSV host st =
  match csv_text host googleSheetsUrl with
  | Some t => ([plain_get googleSheetsUrl], Ok (parseCSV host t), st)
  | None =>
      ([plain_get googleSheetsUrl; plain_get "assets/data/inventory.csv"],
       match csv_text host "assets/data/inventory.csv" with
       | Some t => Ok (parseCSV host t)
       | None => Ok getFallbackInventory
       end, st)
  end.
Proof.
  unfold fetchFromCSV, csv_text. unfold_M. cbn.
  destruct (network host (plain_get googleSheetsUrl)) as [r|e]; cbn.
  - destruct (text r) as [t|e]; cbn; [done|].
    destruct (network host (plain_get "assets/data/inventory.csv")) as [r'|e']; cbn; [|done].
    destruct (text r') as [t'|e']; cbn; done.
  - destruct (network host (plain_get "assets/data/inventory.csv")) as [r'|e']; cbn; [|done].
    destruct (text r') as [t'|e']; cbn; done.
Qed.

Lemma getInventory_api_run (host : Host) (st : State) (cfg : JsonObject) :
  config st = Some cfg → api_configured cfg = true →
  getInventory host st =
  ([inventory_request cfg], Ok (default getFallbackInventory (api_products host cfg)), st).
Proof.
  unfold api_configured. intros Hcfg Hapi.
  unfold getInventory, fetchFromGoogleSheets, api_products. unfold_M. cbn.
  rewrite Hcfg. cbn. rewrite Hapi. rewrite Hcfg. cbn.
  destruct (network host (inventory_request cfg)) as [r|e]; cbn; [|done].
  destruct (ok r); cbn; [|done].
  destruct (json r) as [[|o]|e]; cbn; done.
Qed.

(** C3, as amended.  [getInventory] never raises and leaves the state alone.
    What it tries depends on the configuration at the time of the call.
    While the configuration is not loaded ([config] is [null], as at the
    call of the application at start-up) it sends no request and returns the
    built-in list.  With the configuration loaded and the structured source
    configured it asks that source only, and when the source fails it
    returns the built-in list at once, with no attempt on a flat file.  With
    the configuration loaded and the structured source not configured it
    tries the remote flat file, then the local flat file, then returns the
    built-in list.  The built-in list has ten products. *)
Theorem getInventory_fallback_chain (host : Host) (st : State) :
  (∃ tr productList, getInventory host st = (tr, Ok productList, st))
  ∧ (config st = None → getInventory host st = ([], Ok getFallbackInventory, st))
  ∧ (∀ cfg, config st = Some cfg → api_configured cfg = true →
       getInventory host st =
       ([inventory_request cfg],
        Ok (default getFallbackInventory (api_products host cfg)), st))
  ∧ (∀ cfg, config st = Some cfg → api_configured cfg = false →
       getInventory host st =
       match csv_text host googleSheetsUrl with
       | Some t => ([plain_get googleSheetsUrl], Ok (parseCSV host t), st)
       | None =>
           ([plain_get googleSheetsUrl; plain_get "assets/data/inventory.csv"],
            match csv_text host "assets/data/inventory.csv" with
            | Some t => Ok (parseCSV host t)
            | None => Ok getFallbackInventory
            end, st)
       end)
  ∧ length getFallbackInventory = 10%nat.
Proof.
  assert (Hnone : config st = None →
                  getInventory host st = ([], Ok getFallbackInventory, st)).
  { intros Hcfg. unfold getInventory. unfold_M. cbn. rewrite Hcfg. done. }
  assert (Hcsv : ∀ cfg, config st = Some cfg → api_configured cfg = false →
                 getInventory host st = fetchFromCSV host st).
  { unfold api_configured. intros cfg Hcfg Hapi.
    unfold getInventory. unfold_M. cbn. rewrite Hcfg. cbn. rewrite Hapi.
    rewrite fetchFromCSV_run.
    destruct (csv_text host googleSheetsUrl); [done|].
    destruct (csv_text host "assets/data/inventory.csv"); done. }
  split; [|split; [exact Hnone|split; [|split; [|reflexivity]]]].
  - destruct (config st) as [cfg|] eqn:Hcfg; [|rewrite Hnone by done; eauto].
    destruct (api_configured cfg) eqn:Hapi.
    + rewrite (getInventory_api_run host st cfg Hcfg Hapi). eauto.
    + rewrite (Hcsv cfg eq_refl Hapi), fetchFromCSV_run.
      destruct (csv_text host googleSheetsUrl); [eauto|].
      destruct (csv_text host "assets/data/inventory.csv"); eauto.
  - intros cfg Hcfg Hapi. exact (getInventory_api_run host st cfg Hcfg Hapi).
  - intros cfg Hcfg Hapi. rewrite (Hcsv cfg Hcfg Hapi). apply fetchFromCSV_run.
Qed.

(** With nothing configured and the network down, both flat files are
    tried, in order, before the built-in list is returned. *)
Example getInventory_offline_unconfigured :
  getInventory offline_host
    (set_config (Some default_config) (new_InventoryService None))
  = ([plain_get googleSheetsUrl; plain_get "assets/data/inventory.csv"],
     Ok getFallbackInventory,
     set_config (Some default_config) (new_InventoryService None)).
Proof. reflexivity. Qed.

(** C3 as the specification states it fails: with the structured source
    configured and unreachable, [getInventory] sends the one request to that
    source and returns the built-in list; the remote flat file is never
    asked. *)
Lemma getInventory_api_failure_skips_flat_files :
  let st := set_config (Some demo_object) (new_InventoryService None) in
  api_configured demo_object = true
  ∧ network offline_host (inventory_request demo_object)
    = Throw (TypeError "Failed to fetch")
  ∧ trace (getInventory offline_host st) = [inventory_request demo_object]
  ∧ ¬ In (plain_get googleSheetsUrl) (trace (getInventory offline_host st))
  ∧ result (getInventory offline_host st) = Ok getFallbackInventory.
Proof.
  cbv zeta. split; [reflexivity|]. split; [reflexivity|].
  split; [reflexivity|]. split; [|reflexivity].
  intros [H|[]]. discriminate H.
Qed.

(** ** Checkout failures and success (claims C4 and C5) *)

Lemma checkout_run (host : Host) (st : State) (line : CartLine) (rest : list CartLine)
    (cfg : JsonObject) :
  config st = Some cfg → truthy_opt (APPS_SCRIPT_URL cfg) = true →
  checkout host (Some (line :: rest)) st =
  let req := checkout_request cfg (build_transaction host st (line :: rest)) in
  match network host req with
  | Throw e => ([req], Throw e, st)
  | Ok response =>
      if ok response then
        match json response with
        | Throw e => ([req], Throw e, st)
        | Ok JNull => ([req], Throw (null_property "success"), st)
        | Ok (JObject o) =>
            if success o then ([req], Ok o, set_cart [] st)
            else ([req], Throw (Error (failure_message o)), st)
        end
      else ([req], Throw (http_error (http_status response)), st)
  end.
Proof.
  intros Hcfg Hurl. unfold checkout. unfold_M. cbn. rewrite Hcfg. cbn. rewrite Hurl. cbn.
  destruct (network host _) as [r|e]; cbn; [|done].
  destruct (ok r); cbn; [|done].
  destruct (json r) as [[|o]|e]; cbn; try done.
  destruct (success o); cbn; done.
Qed.

(** C4.  [checkout] throws [Cart is empty] for a missing or empty cart and
    [Apps Script URL not configured] for an empty endpoint, and it throws the
    [TypeError] of reading a property of [null] when the configuration has
    not been loaded; in these three cases no request is sent.  Otherwise it
    sends one request, and each failure surfaces with the message that tells
    most about it: the error of the network as it is; for a status that is
    not ok, [HTTP error! status: ] followed by the status; the error of
    reading the body as it is; for a body without the success flag, the error
    text of the remote end when it gives a non-empty one and [Checkout
    failed] when it gives none.  Whenever [checkout] throws, the state, and
    with it the cart, is the one it started from. *)
Theorem checkout_failure_reporting (host : Host) (c : option (list CartLine)) (st : State) :
  (c = None ∨ c = Some [] →
     checkout host c st = ([], Throw (Error "Cart is empty"), st))
  ∧ (∀ line rest, c = Some (line :: rest) → config st = None →
       checkout host c st
       = ([], Throw (TypeError "Cannot read properties of null (reading 'APPS_SCRIPT_URL')"),
          st))
  ∧ (∀ line rest cfg, c = Some (line :: rest) → config st = Some cfg →
       APPS_SCRIPT_URL cfg = None ∨ APPS_SCRIPT_URL cfg = Some "" →
       checkout host c st = ([], Throw (Error "Apps Script URL not configured"), st))
  ∧ (∀ line rest cfg, c = Some (line :: rest) → config st = Some cfg →
       truthy_opt (APPS_SCRIPT_URL cfg) = true →
       let req := checkout_request cfg (build_transaction host st (line :: rest)) in
       (∀ e, network host req = Throw e → checkout host c st = ([req], Throw e, st))
       ∧ (∀ r, network host req = Ok r → ok r = false →
            checkout host c st
            = ([req], Throw (Error ("HTTP error! status: " ++ pretty (http_status r))), st))
       ∧ (∀ r e, network host req = Ok r → ok r = true → json r = Throw e →
            checkout host c st = ([req], Throw e, st))
       ∧ (∀ r, network host req = Ok r → ok r = true → json r = Ok JNull →
            checkout host c st
            = ([req], Throw (TypeError "Cannot read properties of null (reading 'success')"),
               st))
       ∧ (∀ r o msg, network host req = Ok r → ok r = true → json r = Ok (JObject o) →
            success o = false → error o = Some msg → msg ≠ "" →
            checkout host c st = ([req], Throw (Error msg), st))
       ∧ (∀ r o, network host req = Ok r → ok r = true → json r = Ok (JObject o) →
            success o = false → error o = None ∨ error o = Some "" →
            checkout host c st = ([req], Throw (Error "Checkout failed"), st)))
  ∧ (∀ e, result (checkout host c st) = Throw e →
       final (checkout host c st) = st
       ∧ cart (final (checkout host c st)) = cart st
       ∧ (length (trace (checkout host c st)) <= 1)%nat).
Proof.
  split; [|split; [|split; [|split]]].
  - intros [->| ->]; reflexivity.
  - intros line rest -> Hcfg. unfold checkout. unfold_M. cbn. rewrite Hcfg. reflexivity.
  - intros line rest cfg -> Hcfg Hurl. unfold checkout. unfold_M. cbn.
    rewrite Hcfg. cbn. by destruct Hurl as [-> | ->].
  - intros line rest cfg -> Hcfg Hurl. cbv zeta.
    rewrite (checkout_run host st line rest cfg Hcfg Hurl). cbv zeta.
    repeat split.
    + intros e ->. reflexivity.
    + intros r -> ->. reflexivity.
    + intros r e -> -> ->. reflexivity.
    + intros r -> -> ->. reflexivity.
    + intros r o msg -> -> -> -> Hmsg Hne. unfold failure_message. rewrite Hmsg.
      unfold truthy. destruct (String.eqb_spec msg ""); [done|reflexivity].
    + intros r o -> -> -> -> Hmsg. unfold failure_message.
      by destruct Hmsg as [-> | ->].
  - intros e He. pose proof (checkout_final host c st) as Hfin. rewrite He in Hfin.
    rewrite Hfin. split; [done|]. split; [done|].
    destruct (checkout_trace host c st) as [->|(? & ? & _ & _ & _ & _ & ->)]; simpl; lia.
Qed.

(** C4 on a remote end that answers every request with status 404: the
    message names the status. *)
Example checkout_not_found :
  checkout not_found_host (Some (cart demo_state)) demo_state
  = ([checkout_request demo_object
        (build_transaction not_found_host demo_state (cart demo_state))],
     Throw (Error "HTTP error! status: 404"), demo_state).
Proof. reflexivity. Qed.

(** C5, as amended.  When [checkout] returns, which it does only for a
    response that carries the success flag, it has itself emptied the cart of
    the service and changed nothing else. *)
Theorem checkout_success_clears_cart (host : Host) (c : option (list CartLine))
    (st : State) (o : JsonObject) :
  result (checkout host c st) = Ok o →
  success o = true
  ∧ cart (final (checkout host c st)) = []
  ∧ final (checkout host c st) = clearCart st.
Proof.
  intros Hres. pose proof (checkout_final host c st) as Hfin. rewrite Hres in Hfin.
  rewrite Hfin. split; [|done].
  revert Hres. unfold checkout. destruct c as [[|line rest]|]; [done| |done].
  unfold_M. cbn.
  destruct (config st) as [cfg|]; cbn; [|done].
  destruct (truthy_opt (APPS_SCRIPT_URL cfg)); cbn; [|done].
  destruct (network host _) as [r|e]; cbn; [|done].
  destruct (ok r); cbn; [|done].
  destruct (json r) as [[|o']|e]; cbn; try done.
  destruct (success o') eqn:Hs; cbn; [|done]. congruence.
Qed.

(** C5 on the started application: the remote end acknowledges, and the one
    line of the cart is gone when [checkout] returns. *)
Lemma checkout_success_clears_cart_demo :
  success demo_object = true
  ∧ cart (final (checkout demo_host (Some (cart demo_state)) demo_state)) = []
  ∧ final (checkout demo_host (Some (cart demo_state)) demo_state) = clearCart demo_state.
Proof.
  apply (checkout_success_clears_cart demo_host (Some (cart demo_state)) demo_state demo_object).
  vm_compute. reflexivity.
Defined.

(** C5 as the specification states it fails: a successful [checkout] does
    mutate the cart store.  The cart holds one line before the call and none
    after it, with no step of the caller in between. *)
Lemma checkout_success_mutates_cart :
  result (checkout demo_host (Some (cart demo_state)) demo_state) = Ok demo_object
  ∧ length (cart demo_state) = 1%nat
  ∧ cart (final (checkout demo_host (Some (cart demo_state)) demo_state)) = []
  ∧ cart (final (checkout demo_host (Some (cart demo_state)) demo_state)) ≠ cart demo_state.
Proof.
  split; [vm_compute; reflexivity|]. split; [vm_compute; reflexivity|].
  split; [vm_compute; reflexivity|]. vm_compute. discriminate.
Qed.

(** ** Cart store (claims C6, C7 and C10) *)

Lemma line_has_id_true (s : string) (line : CartLine) :
  line_has_id s line = true ↔ id (item line) = Some s.
Proof. apply strict_eq_true. Qed.

(** [find] returns the first line with the identifier: the lines before it
    have another one. *)
Lemma find_line_split (s : string) (lines : list CartLine) (found : CartLine) :
  List.find (line_has_id s) lines = Some found →
  ∃ before after,
    lines = (before ++ found :: after)%list
    ∧ id (item found) = Some s
    ∧ Forall (λ line, id (item line) ≠ Some s) before.
Proof.
  induction lines as [|line rest IH]; simpl; [done|].
  destruct (line_has_id s line) eqn:Hline.
  - intros [= ->]. exists [], rest. split; [done|]. split; [|constructor].
    by apply line_has_id_true.
  - intros Hfind. destruct (IH Hfind) as (before & after & -> & Hid & Hbefore).
    exists (line :: before), after. split; [done|]. split; [done|].
    constructor; [|done]. rewrite <- line_has_id_true. congruence.
Qed.

Lemma find_line_none (s : string) (lines : list CartLine) :
  List.find (line_has_id s) lines = None →
  Forall (λ line, id (item line) ≠ Some s) lines.
Proof.
  induction lines as [|line rest IH]; simpl; [constructor|].
  destruct (line_has_id s line) eqn:Hline; [done|].
  intros Hfind. constructor; [|by apply IH].
  rewrite <- line_has_id_true. congruence.
Qed.

Lemma update_found_split (s : string) (d : Z) (before after : list CartLine)
    (found : CartLine) :
  Forall (λ line, id (item line) ≠ Some s) before → id (item found) = Some s →
  update_found s d (before ++ found :: after)
  = (before ++ add_quantity d found :: after)%list.
Proof.
  intros Hbefore Hfound. induction Hbefore as [|line rest Hline _ IH]; simpl.
  - apply line_has_id_true in Hfound. rewrite Hfound. done.
  - destruct (line_has_id s line) eqn:Hhas.
    + apply line_has_id_true in Hhas. done.
    + by rewrite IH.
Qed.

Lemma filter_other_ids (s : string) (lines : list CartLine) :
  Forall (λ line, id (item line) ≠ Some s) lines →
  List.filter (λ line, negb (line_has_id s line)) lines = lines.
Proof.
  induction 1 as [|line rest Hline _ IH]; simpl; [done|].
  destruct (line_has_id s line) eqn:Hhas; simpl.
  - apply line_has_id_true in Hhas. done.
  - by rewrite IH.
Qed.

(** The invariant of the cart: one line per identifier, each with a quantity
    of at least one. *)
Lemma NoDup_ids_split (s : string) (before after : list CartLine) (found : CartLine) :
  NoDup (map (λ line, id (item line)) (before ++ found :: after)) →
  id (item found) = Some s →
  Forall (λ line, id (item line) ≠ Some s) before
  ∧ Forall (λ line, id (item line) ≠ Some s) after.
Proof.
  rewrite map_app. simpl. intros Hnd Hfound.
  apply NoDup_app in Hnd as (_ & Hdisj & Hnd).
  apply NoDup_cons in Hnd as (Hnotin & _).
  split; apply Forall_forall; intros line Hin Hid.
  - apply (Hdisj (Some s)).
    + rewrite <- Hid. by apply (list_elem_of_fmap_2 (λ l, id (item l))).
    + rewrite <- Hfound. left.
  - apply Hnotin. rewrite Hfound, <- Hid. by apply (list_elem_of_fmap_2 (λ l, id (item l))).
Qed.

Lemma filter_removes_found (s : string) (d : Z) (before after : list CartLine)
    (found : CartLine) :
  Forall (λ line, id (item line) ≠ Some s) before →
  Forall (λ line, id (item line) ≠ Some s) after →
  id (item found) = Some s →
  List.filter (λ line, negb (line_has_id s line)) (before ++ add_quantity d found :: after)
  = (before ++ after)%list.
Proof.
  intros Hbefore Hafter Hfound. rewrite List.filter_app. simpl.
  assert (Hhas : line_has_id s (add_quantity d found) = true)
    by (apply line_has_id_true; done).
  rewrite Hhas. simpl. by rewrite !filter_other_ids.
Qed.

Lemma cart_inv_update (d : Z) (before after : list CartLine) (found : CartLine) :
  cart_inv (before ++ found :: after) → 1 <= quantity found + d →
  cart_inv (before ++ add_quantity d found :: after).
Proof.
  intros [Hnd Hq] Hd. split.
  - rewrite map_app in *. exact Hnd.
  - apply Forall_app in Hq as [Hb Ha]. apply Forall_cons in Ha as [_ Ha].
    apply Forall_app. split; [done|]. constructor; done.
Qed.

Lemma cart_inv_remove (before after : list CartLine) (found : CartLine) :
  cart_inv (before ++ found :: after) → cart_inv (before ++ after).
Proof.
  intros [Hnd Hq]. split.
  - rewrite map_app in *. simpl in Hnd.
    apply NoDup_app in Hnd as (Hb & Hdisj & Ha). apply NoDup_cons in Ha as [_ Ha].
    apply NoDup_app. split; [done|]. split; [|done].
    intros x Hx Hx'. apply (Hdisj x Hx). by right.
  - apply Forall_app in Hq as [Hb Ha]. apply Forall_cons in Ha as [_ Ha].
    apply Forall_app. done.
Qed.

Lemma cart_inv_addToCart (s : string) (st : State) :
  cart_inv (cart st) → cart_inv (cart (addToCart s st).2).
Proof.
  intros Hinv. unfold addToCart.
  destruct (List.find _ (inventory st)) as [product|] eqn:Hprod; [|done].
  apply List.find_some in Hprod as [_ Hid]. apply strict_eq_true in Hid.
  destruct (List.find (line_has_id s) (cart st)) as [found|] eqn:Hfind; simpl.
  - destruct (find_line_split s _ _ Hfind) as (before & after & Hcart & Hfound & Hbefore).
    rewrite Hcart in *. rewrite update_found_split by done.
    apply cart_inv_update; [done|].
    destruct Hinv as [_ Hq]. apply Forall_app in Hq as [_ Hq].
    apply Forall_cons in Hq as [Hq _]. lia.
  - apply find_line_none in Hfind. destruct Hinv as [Hnd Hq]. split.
    + rewrite map_app. simpl. apply NoDup_app. split; [done|].
      split; [|apply NoDup_singleton].
      intros x Hx Hx'. apply list_elem_of_singleton in Hx'. subst x.
      apply list_elem_of_fmap in Hx as (line & Hline & Hin).
      rewrite Forall_forall in Hfind. apply (Hfind line Hin). congruence.
    + apply Forall_app. split; [done|]. constructor; [simpl; lia|constructor].
Qed.

Lemma cart_inv_updateQuantity (s action : string) (st : State) :
  cart_inv (cart st) → cart_inv (cart (updateQuantity s action st)).
Proof.
  intros Hinv. unfold updateQuantity.
  destruct (List.find (line_has_id s) (cart st)) as [found|] eqn:Hfind; [|done].
  destruct (find_line_split s _ _ Hfind) as (before & after & Hcart & Hfound & Hbefore).
  rewrite Hcart in *.
  assert (Hq : 1 <= quantity found).
  { destruct Hinv as [_ Hq]. apply Forall_app in Hq as [_ Hq].
    by apply Forall_cons in Hq as [Hq _]. }
  destruct (NoDup_ids_split s before after found (proj1 Hinv) Hfound) as [_ Hafter].
  destruct (String.eqb action "increase").
  { simpl. rewrite update_found_split by done. apply cart_inv_update; [done|lia]. }
  destruct (String.eqb action "decrease"); [|by rewrite Hcart].
  rewrite update_found_split by done.
  destruct (Z.leb_spec (quantity found - 1) 0); simpl.
  - rewrite filter_removes_found by done. by eapply cart_inv_remove.
  - apply cart_inv_update; [done|lia].
Qed.

Lemma reachable_cart_inv (st : State) : reachable st → cart_inv (cart st).
Proof.
  induction 1 as [grid|host st _ IH|host st _ IH|pl st _ IH|s st _ IH|s st _ IH
                 |s action st _ IH|host c st _ IH|c st _ IH|query st _ IH|st _ IH].
  - split; constructor.
  - destruct (loadConfig_final host st) as [c ->]. done.
  - rewrite getInventory_final. done.
  - destruct (renderProducts_cart pl st) as (-> & _). done.
  - by apply cart_inv_addToCart.
  - by apply cart_inv_addToCart.
  - by apply cart_inv_updateQuantity.
  - pose proof (checkout_final host c st) as Hf.
    destruct (result (checkout host c st)); rewrite Hf; [split; constructor|done].
  - unfold filterByCategory. destruct (renderProducts_cart
      (List.filter (λ product, strict_eq (category product) c) (inventory st)) st)
      as (-> & _). done.
  - destruct (searchProducts_cart query st) as (-> & _). done.
  - split; constructor.
Qed.

(** C6.  In every state of a running service, whatever methods ran and in
    whatever order since the cart was created empty, every cart line has a
    quantity of at least one; and decreasing a line whose quantity is one
    removes it: no line of the cart has that identifier afterwards, the other
    lines stay as they were, and the cart is shorter by exactly one. *)
Theorem cart_quantities_positive (st : State) :
  reachable st →
  Forall (λ line, 1 <= quantity line) (cart st)
  ∧ ∀ s line, In line (cart st) → id (item line) = Some s → quantity line = 1 →
      Forall (λ line', id (item line') ≠ Some s) (cart (updateQuantity s "decrease" st))
      ∧ cart (updateQuantity s "decrease" st)
        = List.filter (λ line', negb (line_has_id s line')) (cart st)
      ∧ (length (cart (updateQuantity s "decrease" st)) + 1 = length (cart st))%nat.
Proof.
  intros Hreach. pose proof (reachable_cart_inv st Hreach) as Hinv.
  split; [exact (proj2 Hinv)|].
  intros s line Hin Hid Hq1. unfold updateQuantity.
  destruct (List.find (line_has_id s) (cart st)) as [found|] eqn:Hfind.
  2:{ apply find_line_none in Hfind. rewrite Forall_forall in Hfind.
      exfalso. apply (Hfind line); [by apply list_elem_of_In|done]. }
  destruct (find_line_split s _ _ Hfind) as (before & after & Hcart & Hfound & Hbefore).
  rewrite Hcart in *.
  destruct (NoDup_ids_split s before after found (proj1 Hinv) Hfound) as [_ Hafter].
  assert (found = line) as ->.
  { apply in_app_or in Hin as [Hin|[Hin|Hin]]; [|done|].
    - rewrite Forall_forall in Hbefore. exfalso.
      apply (Hbefore line); [by apply list_elem_of_In|done].
    - rewrite Forall_forall in Hafter. exfalso.
      apply (Hafter line); [by apply list_elem_of_In|done]. }
  cbn [String.eqb Ascii.eqb Bool.eqb]. rewrite Hq1.
  change (1 - 1 <=? 0) with true. cbv iota.
  rewrite update_found_split by done. cbn [cart set_cart].
  rewrite filter_removes_found by done.
  split; [apply Forall_app; done|]. split.
  - rewrite List.filter_app. simpl.
    assert (Hhas : line_has_id s line = true) by (apply line_has_id_true; done).
    rewrite Hhas. simpl. by rewrite !filter_other_ids.
  - rewrite !length_app. simpl. lia.
Qed.

(** C6 on the started application. *)
Lemma cart_quantities_positive_demo :
  Forall (λ line, 1 <= quantity line) (cart demo_state)
  ∧ ∀ s line, In line (cart demo_state) → id (item line) = Some s → quantity line = 1 →
      Forall (λ line', id (item line') ≠ Some s)
        (cart (updateQuantity s "decrease" demo_state))
      ∧ cart (updateQuantity s "decrease" demo_state)
        = List.filter (λ line', negb (line_has_id s line')) (cart demo_state)
      ∧ (length (cart (updateQuantity s "decrease" demo_state)) + 1
         = length (cart demo_state))%nat.
Proof.
  apply (cart_quantities_positive demo_state).
  unfold demo_state, demo_catalog_state.
  apply reach_addToCart, reach_renderProducts, reach_loadConfig, reach_new.
Defined.

Lemma find_line_snoc (s : string) (lines : list CartLine) (new : CartLine) :
  List.find (line_has_id s) lines = None → id (item new) = Some s →
  List.find (line_has_id s) (lines ++ [new]) = Some new
  ∧ update_found s 1 (lines ++ [new]) = (lines ++ [add_quantity 1 new])%list.
Proof.
  intros Hnone Hnew. apply find_line_none in Hnone.
  assert (Hhas : line_has_id s new = true) by (by apply line_has_id_true).
  split; [|by apply update_found_split].
  induction Hnone as [|line rest Hline _ IH]; simpl; [by rewrite Hhas|].
  destruct (line_has_id s line) eqn:Hl; [|done].
  apply line_has_id_true in Hl. done.
Qed.

(** C7.  [addToCart] with an identifier that the catalog has: when the cart
    has a line for it, the first such line keeps its product snapshot and its
    place and gains one in quantity, and no line is added; when the cart has
    none, one line with the catalog's product and quantity 1 is appended at the
    end, and a second call turns that line into quantity 2 without adding
    another.  With an identifier that the catalog lacks, [addToCart] returns
    [false] and leaves the state as it was. *)
Theorem addToCart_spec (s : string) (st : State) :
  (∀ product found,
     List.find (λ p, strict_eq (id p) s) (inventory st) = Some product →
     List.find (line_has_id s) (cart st) = Some found →
     ∃ before after,
       cart st = (before ++ found :: after)%list
       ∧ Forall (λ line, id (item line) ≠ Some s) before
       ∧ id (item found) = Some s
       ∧ addToCart s st =
         (true, set_cart (before ++ {| item := item found;
                                       quantity := quantity found + 1 |} :: after)%list st))
  ∧ (∀ product,
       List.find (λ p, strict_eq (id p) s) (inventory st) = Some product →
       List.find (line_has_id s) (cart st) = None →
       id product = Some s
       ∧ addToCart s st =
         (true, set_cart (cart st ++ [{| item := product; quantity := 1 |}])%list st)
       ∧ addToCart s (addToCart s st).2 =
         (true, set_cart (cart st ++ [{| item := product; quantity := 2 |}])%list st))
  ∧ (List.find (λ p, strict_eq (id p) s) (inventory st) = None →
     addToCart s st = (false, st)).
Proof.
  split; [|split].
  - intros product found Hprod Hfind.
    destruct (find_line_split s _ _ Hfind) as (before & after & Hcart & Hfound & Hbefore).
    exists before, after. split; [done|]. split; [done|]. split; [done|].
    unfold addToCart. rewrite Hprod, Hfind, Hcart.
    rewrite update_found_split by done. reflexivity.
  - intros product Hprod Hfind.
    pose proof Hprod as Hid. apply List.find_some in Hid as [_ Hid].
    apply strict_eq_true in Hid. split; [done|].
    assert (Hfirst : addToCart s st =
              (true, set_cart (cart st ++ [{| item := product; quantity := 1 |}])%list st)).
    { unfold addToCart. by rewrite Hprod, Hfind. }
    split; [done|]. rewrite Hfirst. cbn [snd].
    destruct (find_line_snoc s (cart st) {| item := product; quantity := 1 |} Hfind Hid)
      as [Hfind' Hupd].
    unfold addToCart. cbn [inventory cart set_cart]. rewrite Hprod, Hfind', Hupd.
    reflexivity.
  - intros Hprod. unfold addToCart. by rewrite Hprod.
Qed.

(** C10.  [updateQuantity] with an action that is neither [increase] nor
    [decrease] leaves the state, and so every line of the cart, as it was. *)
Theorem updateQuantity_unknown_action (s action : string) (st : State) :
  action ≠ "increase" → action ≠ "decrease" →
  updateQuantity s action st = st.
Proof.
  intros Hinc Hdec. unfold updateQuantity.
  destruct (List.find (line_has_id s) (cart st)); [|done].
  apply String.eqb_neq in Hinc, Hdec. by rewrite Hinc, Hdec.
Qed.

(** C10 on the started application, with the action [reset] on the line in
    the cart. *)
Lemma updateQuantity_unknown_action_demo :
  updateQuantity "semen-rajawali" "reset" demo_state = demo_state.
Proof.
  apply (updateQuantity_unknown_action "semen-rajawali" "reset" demo_state);
    vm_compute; discriminate.
Defined.

(** ** Flat-file parsing (claim C8) *)

Lemma parse_rows_spec (host : Host) (headers lines : list string) (acc : list Product) :
  parse_rows host headers lines acc =
  (acc ++ map with_default_image
            (List.filter has_id_and_name
               (map (row_product host headers)
                  (List.filter (λ line, truthy (trim line)) lines))))%list.
Proof.
  revert acc. induction lines as [|line rest IH]; intros acc; simpl.
  - by rewrite app_nil_r.
  - destruct (truthy (trim line)); simpl; [|apply IH].
    destruct (has_id_and_name (row_product host headers line)); simpl; [|apply IH].
    rewrite IH, <- app_assoc. reflexivity.
Qed.


(** What [forEach] leaves in a property that [setField] assigns under the
    headers [is_col] and under no other: the converted cell of the last such
    column, or what the property held before. *)
Lemma forEach_header_field {A} (host : Host) (get : Product → option A)
    (is_col : string → bool) (conv : string → A) :
  (∀ header value product,
     get (setField host header value product)
     = if is_col header then Some (conv value) else get product) →
  ∀ headers index values product,
    get (forEach_header host headers index values product)
    = match last_index is_col headers with
      | Some i => Some (conv (nth (index + i) values ""))
      | None => get product
      end.
Proof.
  intros Hset. induction headers as [|header rest IH]; intros index values product;
    simpl; [done|].
  rewrite IH. destruct (last_index is_col rest) as [i|].
  - by rewrite Nat.add_succ_r.
  - rewrite Hset. destruct (is_col header); [|done]. by rewrite Nat.add_0_r.
Qed.

Lemma row_product_field {A} (host : Host) (get : Product → option A)
    (is_col : string → bool) (conv : string → A) (headers : list string) (line : string) :
  (∀ header value product,
     get (setField host header value product)
     = if is_col header then Some (conv value) else get product) →
  get empty_object = None →
  get (row_product host headers line) = conv <$> column_value is_col headers (cells line).
Proof.
  intros Hset Hempty. unfold row_product, column_value, cells.
  rewrite (forEach_header_field host get is_col conv Hset).
  destruct (last_index is_col headers); simpl; [done|exact Hempty].
Qed.

(** One case of the [switch] after another: the lower-cased header is one of
    the names, or it is none of them. *)
Ltac header_cases :=
  unfold setField, header_in; cbn [existsb]; cbv zeta;
  match goal with
  | |- context [toLowerCase ?header] =>
      let h := fresh "h" in
      generalize (toLowerCase header); intros h;
      repeat match goal with
             | |- context [String.eqb h ?s] => destruct (String.eqb_spec h s) as [->|?]
             end
  end;
  reflexivity.

Lemma setField_id (host : Host) (header value : string) (product : Product) :
  id (setField host header value product)
  = if is_id_header header then Some value else id product.
Proof. unfold is_id_header. header_cases. Qed.

Lemma setField_name (host : Host) (header value : string) (product : Product) :
  name (setField host header value product)
  = if is_name_header header then Some value else name product.
Proof. unfold is_name_header. header_cases. Qed.

Lemma setField_price (host : Host) (header value : string) (product : Product) :
  price (setField host header value product)
  = if is_price_header header then Some (stored_number (parseFloat host value))
    else price product.
Proof. unfold is_price_header. header_cases. Qed.

Lemma setField_stock (host : Host) (header value : string) (product : Product) :
  stock (setField host header value product)
  = if is_stock_header header then Some (stored_number (parseInt host value))
    else stock product.
Proof. unfold is_stock_header. header_cases. Qed.

Lemma setField_costPrice (host : Host) (header value : string) (product : Product) :
  costPrice (setField host header value product)
  = if is_cost_header header then Some (stored_number (parseFloat host value))
    else costPrice product.
Proof. unfold is_cost_header. header_cases. Qed.

Lemma setField_image (host : Host) (header value : string) (product : Product) :
  image (setField host header value product)
  = if is_image_header header then Some value else image product.
Proof. unfold is_image_header. header_cases. Qed.

(** The identifier and the name of the product of a row are what the row
    says in the identifier and name columns. *)
Lemma row_product_id_name (host : Host) (headers : list string) (line : string) :
  id (row_product host headers line) = column_value is_id_header headers (cells line)
  ∧ name (row_product host headers line) = column_value is_name_header headers (cells line).
Proof.
  split.
  - rewrite (row_product_field host id is_id_header (λ v, v)); [|apply setField_id|done].
    by destruct (column_value _ _ _).
  - rewrite (row_product_field host name is_name_header (λ v, v)); [|apply setField_name|done].
    by destruct (column_value _ _ _).
Qed.

Lemma has_id_and_name_row (host : Host) (headers : list string) (line : string) :
  has_id_and_name (row_product host headers line) = row_has_id_and_name headers line.
Proof.
  unfold has_id_and_name, row_has_id_and_name.
  by destruct (row_product_id_name host headers line) as [-> ->].
Qed.

Lemma filter_map_rows {A B} (f : A → B) (keep : B → bool) (l : list A) :
  List.filter keep (map f l) = map f (List.filter (λ x, keep (f x)) l).
Proof.
  induction l as [|x l IH]; simpl; [done|].
  destruct (keep (f x)); simpl; by rewrite IH.
Qed.

Lemma parseCSV_kept_rows (host : Host) (csvText : string) :
  parseCSV host csvText
  = map (λ line, with_default_image (row_product host (csv_headers csvText) line))
      (List.filter (row_has_id_and_name (csv_headers csvText)) (data_rows csvText)).
Proof.
  unfold parseCSV. cbv zeta. rewrite parse_rows_spec. simpl.
  fold (csv_headers csvText). fold (data_rows csvText).
  rewrite filter_map_rows, map_map.
  f_equal. apply filter_ext. intros line. apply has_id_and_name_row.
Qed.


(** The scenario of the specification: the row [A1] has an identifier and
    no name and is dropped; the row [B2] after it is parsed as usual. *)
Lemma parseCSV_sample :
  parseCSV demo_host sample_csv =
    [ {| id := Some "B2"; name := Some "Paku Beton"; price := None;
         category := Some "paku"; weight := None;
         image := Some "Asset/assets/img/products/B2.png";
         stock := None; costPrice := None; vendor := None; extra := ∅ |} ].
Proof. vm_compute. reflexivity. Qed.

(** A name cell that holds only a no-break space is empty once trimmed, and
    the row is dropped. *)
Example parseCSV_no_break_space_name :
  parseCSV demo_host
    ("sku,nama_item" ++ String "010" ("A1," ++ String "160" (String "010" "B2,Paku")))
  = [ {| id := Some "B2"; name := Some "Paku"; price := None; category := None;
         weight := None; image := Some "Asset/assets/img/products/B2.png";
         stock := None; costPrice := None; vendor := None; extra := ∅ |} ].
Proof. vm_compute. reflexivity. Qed.

(** ** Search and filter (claim C9) *)

(** C9, evaluated.  On the started application the catalog is the built-in
    list, which has a product named Pintu Kayu of category [pintu].  A search
    for [pintu] shows it.  After a search for [semen], the same search for
    [pintu] shows nothing: the first search replaced [this.inventory] by its
    own result, and the second one filtered that result.  The same holds for
    two calls of [filterByCategory].  The cart is the same throughout. *)
Lemma search_after_search_filters_previous_result :
  let after_semen := (searchProducts "semen" demo_catalog_state).2 in
  let after_pintu := (searchProducts "pintu" after_semen).2 in
  inventory demo_catalog_state = getFallbackInventory
  ∧ map id (default [] (productsGrid (searchProducts "pintu" demo_catalog_state).2))
    = [Some "pintu-kayu"]
  ∧ (searchProducts "pintu" after_semen).1 = Ok tt
  ∧ productsGrid after_pintu = Some []
  ∧ inventory after_pintu = []
  ∧ productsGrid (filterByCategory "pintu" (filterByCategory "semen" demo_catalog_state))
    = Some []
  ∧ cart after_pintu = cart demo_catalog_state.
Proof. vm_compute. repeat split; reflexivity. Qed.

(** * Further properties of the code *)

(** ** Flat-file parsing: header case, short input, the products kept *)

(** The ends of the two ranges of capitals, and the characters between and
    after them that have no lower-case form: the multiplication sign U+00D7
    and the sharp s U+00DF. *)
Example toLowerCase_capitals :
  toLowerCase
    ("AZ[" ++ String "192" (String "214" (String "215" (String "216"
                (String "222" (String "223" ""))))))
  = "az[" ++ String "224" (String "246" (String "215" (String "248"
                (String "254" (String "223" ""))))).
Proof. reflexivity. Qed.

(** [trim] removes the no-break space like the other white space. *)
Example trim_no_break_space :
  trim (String "160" (" a b" ++ String "009" (String "160" ""))) = "a b".
Proof. reflexivity. Qed.

Lemma lower_ascii_idemp (c : ascii) : lower_ascii (lower_ascii c) = lower_ascii c.
Proof. destruct c as [[] [] [] [] [] [] [] []]; reflexivity. Qed.

Lemma toLowerCase_idemp (s : string) : toLowerCase (toLowerCase s) = toLowerCase s.
Proof. induction s as [|c s IH]; simpl; [done|]. by rewrite lower_ascii_idemp, IH. Qed.

Lemma setField_lower (host : Host) (header value : string) (product : Product) :
  setField host (toLowerCase header) value product = setField host header value product.
Proof. unfold setField. by rewrite toLowerCase_idemp. Qed.

Lemma forEach_header_lower (host : Host) (headers : list string) (index : nat)
    (values : list string) (product : Product) :
  forEach_header host (map toLowerCase headers) index values product
  = forEach_header host headers index values product.
Proof.
  revert index product. induction headers as [|h rest IH]; intros index product; simpl; [done|].
  by rewrite setField_lower, IH.
Qed.

Lemma split_nonempty (sep : ascii) (s : string) : split sep s ≠ [].
Proof.
  destruct s as [|c s]; simpl; [done|].
  destruct (Ascii.eqb c sep); [done|]. by destruct (split sep s).
Qed.

Lemma split_app_sep (sep : ascii) (s : string) :
  split sep (s ++ String sep "") = (split sep s ++ [""])%list.
Proof.
  induction s as [|c s IH]; simpl.
  - by rewrite Ascii.eqb_refl.
  - destruct (Ascii.eqb c sep); [by rewrite IH|].
    rewrite IH. pose proof (split_nonempty sep s). destruct (split sep s); simpl; done.
Qed.

Lemma nth_app_default (values : list string) (index : nat) :
  nth index (values ++ [""]) "" = nth index values "".
Proof.
  revert index. induction values as [|v rest IH]; intros [|index]; simpl; try done.
  by destruct index.
Qed.

Lemma forEach_header_values (host : Host) (headers : list string) (index : nat)
    (values values' : list string) (product : Product) :
  (∀ i, nth i values "" = nth i values' "") →
  forEach_header host headers index values product
  = forEach_header host headers index values' product.
Proof.
  intros Hnth. revert index product.
  induction headers as [|h rest IH]; intros index product; simpl; [done|].
  by rewrite Hnth, IH.
Qed.

(** A column that is missing at the end of a row reads like an empty one. *)
Lemma row_product_trailing_comma (host : Host) (headers : list string) (line : string) :
  row_product host headers (line ++ ",") = row_product host headers line.
Proof.
  unfold row_product. rewrite split_app_sep, map_app. simpl.
  apply forEach_header_values. intros i. apply nth_app_default.
Qed.

Lemma lower_ascii_eqb (c sep : ascii) :
  lower_ascii sep = sep → (∀ c', lower_ascii c' = sep → c' = sep) →
  Ascii.eqb (lower_ascii c) sep = Ascii.eqb c sep.
Proof.
  intros Hsep Hinj. destruct (Ascii.eqb_spec c sep) as [->|Hne].
  - rewrite Hsep. apply Ascii.eqb_refl.
  - apply Ascii.eqb_neq. intros Heq. apply Hne, Hinj, Heq.
Qed.

Lemma lower_ascii_newline (c : ascii) : lower_ascii c = "010"%char → c = "010"%char.
Proof. destruct c as [[] [] [] [] [] [] [] []]; vm_compute; congruence. Qed.

Lemma lower_ascii_comma (c : ascii) : lower_ascii c = ","%char → c = ","%char.
Proof. destruct c as [[] [] [] [] [] [] [] []]; vm_compute; congruence. Qed.

Lemma is_white_lower (c : ascii) : is_white (lower_ascii c) = is_white c.
Proof. destruct c as [[] [] [] [] [] [] [] []]; reflexivity. Qed.

Lemma split_toLowerCase (s : string) :
  split "," (toLowerCase s) = map toLowerCase (split "," s).
Proof.
  induction s as [|c s IH]; simpl; [done|].
  rewrite (lower_ascii_eqb c ","%char eq_refl lower_ascii_comma).
  destruct (Ascii.eqb c ","); simpl; [by rewrite IH|].
  rewrite IH. by destruct (split "," s).
Qed.

Lemma trimStart_toLowerCase (s : string) :
  trimStart (toLowerCase s) = toLowerCase (trimStart s).
Proof.
  induction s as [|c s IH]; simpl; [done|].
  rewrite is_white_lower. by destruct (is_white c).
Qed.

Lemma trimEnd_toLowerCase (s : string) :
  trimEnd (toLowerCase s) = toLowerCase (trimEnd s).
Proof.
  induction s as [|c s IH]; simpl; [done|].
  rewrite IH, is_white_lower. destruct (trimEnd s); simpl; [|done].
  by destruct (is_white c).
Qed.

Lemma trim_toLowerCase (s : string) : trim (toLowerCase s) = toLowerCase (trim s).
Proof. unfold trim. by rewrite trimStart_toLowerCase, trimEnd_toLowerCase. Qed.

Lemma split_lower_first_line (text : string) :
  hd "" (split "010" (lower_first_line text)) = toLowerCase (hd "" (split "010" text))
  ∧ tl (split "010" (lower_first_line text)) = tl (split "010" text).
Proof.
  induction text as [|c s [IHh IHt]]; simpl; [done|].
  destruct (Ascii.eqb c "010") eqn:Hc; simpl.
  - rewrite Hc. done.
  - rewrite (lower_ascii_eqb c "010"%char eq_refl lower_ascii_newline), Hc.
    pose proof (split_nonempty "010" (lower_first_line s)).
    pose proof (split_nonempty "010" s).
    destruct (split "010" (lower_first_line s)), (split "010" s); simpl in *; try done.
    by subst.
Qed.

Lemma parse_rows_lower (host : Host) (headers lines : list string) (acc : list Product) :
  parse_rows host (map toLowerCase headers) lines acc = parse_rows host headers lines acc.
Proof.
  revert acc. induction lines as [|line rest IH]; intros acc; simpl; [done|].
  unfold row_product. rewrite forEach_header_lower.
  destruct (truthy (trim line)); [|done].
  by destruct (has_id_and_name _).
Qed.

(** X1.  The column names of a flat file are matched without regard to
    case.  For every text of characters U+0000 to U+00FF, writing the header
    line in lower case, accented capitals included, changes nothing of the
    products [parseCSV] returns, including the names under which it stores
    the columns it does not know. *)
Theorem parseCSV_header_case (host : Host) (csvText : string) :
  parseCSV host (lower_first_line csvText) = parseCSV host csvText.
Proof.
  unfold parseCSV. cbv zeta.
  destruct (split_lower_first_line csvText) as [-> ->].
  rewrite split_toLowerCase, !map_map.
  rewrite (map_ext (λ x, trim (toLowerCase x)) (λ x, toLowerCase (trim x)))
    by (intros; apply trim_toLowerCase).
  rewrite <- (map_map trim toLowerCase). apply parse_rows_lower.
Qed.

(** X2.  [parseCSV] tolerates input that stops short: a line feed after the
    last row adds no product, and a row gives the same product with or
    without a comma after its last value (columns missing at the end of a row
    are read as empty strings). *)
Theorem parseCSV_tolerates_short_input (host : Host) (csvText : string) :
  parseCSV host (csvText ++ String "010" "") = parseCSV host csvText
  ∧ ∀ headers line,
      row_product host headers (line ++ ",") = row_product host headers line.
Proof.
  split; [|intros; apply row_product_trailing_comma].
  unfold parseCSV. cbv zeta. rewrite split_app_sep.
  pose proof (split_nonempty "010" csvText).
  destruct (split "010" csvText) as [|header rest]; [done|]. simpl.
  rewrite !parse_rows_spec, List.filter_app. simpl. by rewrite app_nil_r.
Qed.

Lemma or_zero_clean (x : number) : clean_number (Some (or_zero x)).
Proof. unfold or_zero, clean_number. destruct (truthy_number x) eqn:Hx; auto. Qed.

Lemma setField_clean (host : Host) (header value : string) (product : Product) :
  clean_numbers product → clean_numbers (setField host header value product).
Proof.
  intros (Hp & Hs & Hc). unfold setField.
  repeat case_match; unfold clean_numbers; simpl; repeat split; auto;
    apply (or_zero_clean _).
Qed.

Lemma forEach_header_clean (host : Host) (headers : list string) (index : nat)
    (values : list string) (product : Product) :
  clean_numbers product → clean_numbers (forEach_header host headers index values product).
Proof.
  revert index product. induction headers as [|h rest IH]; intros index product Hp; simpl;
    [done|]. apply IH, setField_clean, Hp.
Qed.

Lemma with_default_image_frame (product : Product) :
  price (with_default_image product) = price product
  ∧ stock (with_default_image product) = stock product
  ∧ costPrice (with_default_image product) = costPrice product
  ∧ truthy_opt (image (with_default_image product)) = true.
Proof.
  unfold with_default_image. destruct (truthy_opt (image product)) eqn:Hi; [done|].
  simpl. done.
Qed.

Lemma parseCSV_rows (host : Host) (csvText : string) (product : Product) :
  In product (parseCSV host csvText) →
  ∃ line, In line (data_rows csvText)
    ∧ product = with_default_image (row_product host (csv_headers csvText) line)
    ∧ has_id_and_name (row_product host (csv_headers csvText) line) = true.
Proof.
  unfold parseCSV. cbv zeta. rewrite parse_rows_spec. simpl.
  intros Hin. apply in_map_iff in Hin as (raw & <- & Hin).
  apply filter_In in Hin as [Hin Hraw].
  apply in_map_iff in Hin as (line & <- & Hin). by exists line.
Qed.

(** The numeric properties and the image of the product of a row are read
    from the cells of their columns. *)
Lemma row_product_numbers (host : Host) (headers : list string) (line : string) :
  price (row_product host headers line)
  = (λ v, stored_number (parseFloat host v))
      <$> column_value is_price_header headers (cells line)
  ∧ stock (row_product host headers line)
    = (λ v, stored_number (parseInt host v))
        <$> column_value is_stock_header headers (cells line)
  ∧ costPrice (row_product host headers line)
    = (λ v, stored_number (parseFloat host v))
        <$> column_value is_cost_header headers (cells line)
  ∧ image (row_product host headers line)
    = column_value is_image_header headers (cells line).
Proof.
  split; [|split; [|split]].
  - apply row_product_field; [apply setField_price|done].
  - apply row_product_field; [apply setField_stock|done].
  - apply row_product_field; [apply setField_costPrice|done].
  - rewrite (row_product_field host image is_image_header (λ v, v));
      [|apply setField_image|done].
    by destruct (column_value _ _ _).
Qed.

(** X3.  The numbers and the image of a product come from the cells of the
    row.  The price, the stock and the cost price are what [parseFloat],
    [parseInt] and [parseFloat] read from the text of their cells, and zero
    where that is [NaN] or zero: an unreadable number is stored as [0], so no
    product that [parseCSV] returns has a [NaN] among them.  Every product
    returned has a non-empty image path: a kept row whose image cell is empty
    or missing gets the path built from its identifier. *)
Theorem parseCSV_products_well_formed (host : Host) (csvText : string) :
  Forall (λ product,
            truthy_opt (image product) = true
            ∧ price product ≠ Some NaN ∧ stock product ≠ Some NaN
            ∧ costPrice product ≠ Some NaN)
    (parseCSV host csvText)
  ∧ (∀ line,
       price (with_default_image (row_product host (csv_headers csvText) line))
       = (λ v, stored_number (parseFloat host v))
           <$> column_value is_price_header (csv_headers csvText) (cells line)
       ∧ stock (with_default_image (row_product host (csv_headers csvText) line))
         = (λ v, stored_number (parseInt host v))
             <$> column_value is_stock_header (csv_headers csvText) (cells line)
       ∧ costPrice (with_default_image (row_product host (csv_headers csvText) line))
         = (λ v, stored_number (parseFloat host v))
             <$> column_value is_cost_header (csv_headers csvText) (cells line))
  ∧ (∀ line v,
       column_value is_price_header (csv_headers csvText) (cells line) = Some v →
       parseFloat host v = NaN →
       price (with_default_image (row_product host (csv_headers csvText) line))
       = Some (S754_zero false))
  ∧ (∀ line i, In line (data_rows csvText) →
       row_has_id_and_name (csv_headers csvText) line = true →
       column_value is_id_header (csv_headers csvText) (cells line) = Some i →
       column_value is_image_header (csv_headers csvText) (cells line) = None
       ∨ column_value is_image_header (csv_headers csvText) (cells line) = Some "" →
       image (with_default_image (row_product host (csv_headers csvText) line))
       = Some ("Asset/assets/img/products/" ++ i ++ ".png")
       ∧ In (with_default_image (row_product host (csv_headers csvText) line))
            (parseCSV host csvText)).
Proof.
  assert (Hnumbers : ∀ line,
       price (with_default_image (row_product host (csv_headers csvText) line))
       = (λ v, stored_number (parseFloat host v))
           <$> column_value is_price_header (csv_headers csvText) (cells line)
       ∧ stock (with_default_image (row_product host (csv_headers csvText) line))
         = (λ v, stored_number (parseInt host v))
             <$> column_value is_stock_header (csv_headers csvText) (cells line)
       ∧ costPrice (with_default_image (row_product host (csv_headers csvText) line))
         = (λ v, stored_number (parseFloat host v))
             <$> column_value is_cost_header (csv_headers csvText) (cells line)).
  { intros line.
    destruct (with_default_image_frame (row_product host (csv_headers csvText) line))
      as (-> & -> & -> & _).
    destruct (row_product_numbers host (csv_headers csvText) line) as (Hp & Hs & Hc & _).
    done. }
  split; [|split; [exact Hnumbers|split]].
  - apply Forall_forall. intros product Hin.
    apply list_elem_of_In, parseCSV_rows in Hin as (line & _ & -> & _).
    destruct (with_default_image_frame (row_product host (csv_headers csvText) line))
      as (-> & -> & -> & Himg).
    split; [done|].
    assert (Hclean : clean_numbers (row_product host (csv_headers csvText) line)).
    { apply forEach_header_clean. by unfold clean_numbers. }
    destruct Hclean as (Hp & Hs & Hc).
    repeat split; intros Heq.
    + rewrite Heq in Hp. destruct Hp; discriminate.
    + rewrite Heq in Hs. destruct Hs; discriminate.
    + rewrite Heq in Hc. destruct Hc; discriminate.
  - intros line v Hcell Hnan. destruct (Hnumbers line) as (-> & _).
    rewrite Hcell. simpl. unfold stored_number. by rewrite Hnan.
  - intros line i Hin Hrow Hid Himage.
    destruct (row_product_numbers host (csv_headers csvText) line) as (_ & _ & _ & Himg).
    destruct (row_product_id_name host (csv_headers csvText) line) as [Hi _].
    assert (Hnone : truthy_opt (image (row_product host (csv_headers csvText) line)) = false)
      by (rewrite Himg; by destruct Himage as [-> | ->]).
    split.
    + unfold with_default_image. rewrite Hnone. simpl. by rewrite Hi, Hid.
    + rewrite parseCSV_kept_rows. apply in_map_iff. exists line.
      split; [done|]. by apply filter_In.
Qed.

(** ** The catalog: error pages, a missing configuration, filters, search *)

Lemma split_one_line (t : string) :
  includes (String "010" "") t = false → split "010" t = [t].
Proof.
  induction t as [|c t IH]; [done|]. cbn [includes split String.prefix].
  destruct (ascii_dec "010" c) as [<-|Hne]; [by destruct t|].
  cbn [orb]. intros Hinc. destruct (Ascii.eqb_spec c "010"); [congruence|].
  by rewrite IH.
Qed.

Lemma parseCSV_one_line (host : Host) (t : string) :
  includes (String "010" "") t = false → parseCSV host t = [].
Proof. intros Ht. unfold parseCSV. by rewrite split_one_line. Qed.

Lemma getInventory_csv_run (host : Host) (st : State) (cfg : JsonObject) :
  config st = Some cfg → api_configured cfg = false →
  getInventory host st =
    match csv_text host googleSheetsUrl with
    | Some t => ([plain_get googleSheetsUrl], Ok (parseCSV host t), st)
    | None =>
        ([plain_get googleSheetsUrl; plain_get "assets/data/inventory.csv"],
         match csv_text host "assets/data/inventory.csv" with
         | Some t => Ok (parseCSV host t)
         | None => Ok getFallbackInventory
         end, st)
    end.
Proof.
  unfold api_configured. intros Hcfg Hapi.
  unfold getInventory. unfold_M. cbn. rewrite Hcfg. cbn. rewrite Hapi.
  rewrite fetchFromCSV_run.
  destruct (csv_text host googleSheetsUrl); [done|].
  destruct (csv_text host "assets/data/inventory.csv"); done.
Qed.

(** X4.  [fetchFromCSV] does not look at the status of a response.  When the
    structured source is not configured and the remote flat file answers
    with any body of a single line (an error page, whatever its status),
    [getInventory] returns the empty catalog after that one request: neither
    the local flat file nor the built-in list is used. *)
Theorem getInventory_error_page_gives_empty_catalog (host : Host) (st : State)
    (cfg : JsonObject) (response : Response) (t : string) :
  config st = Some cfg → api_configured cfg = false →
  network host (plain_get googleSheetsUrl) = Ok response →
  text response = Ok t →
  includes (String "010" "") t = false →
  getInventory host st = ([plain_get googleSheetsUrl], Ok [], st).
Proof.
  intros Hcfg Hapi Hnet Htext Hline.
  rewrite (getInventory_csv_run host st cfg Hcfg Hapi).
  unfold csv_text. rewrite Hnet, Htext. by rewrite parseCSV_one_line.
Qed.

(** X4 on a remote end that answers 404 with the body [Not Found]. *)
Lemma getInventory_error_page_demo :
  getInventory not_found_host (set_config (Some default_config) (new_InventoryService None))
  = ([plain_get googleSheetsUrl], Ok [],
     set_config (Some default_config) (new_InventoryService None)).
Proof.
  apply (getInventory_error_page_gives_empty_catalog not_found_host _ default_config
           {| ok := false; http_status := 404; text := Ok "Not Found";
              json := Throw (Error "Unexpected token N in JSON") |} "Not Found");
    reflexivity.
Defined.

(** [loadConfig] sends one request, never throws, and assigns only
    [this.config]: the default configuration when the file cannot be fetched
    or read. *)
Lemma loadConfig_run (host : Host) (st : State) :
  ∃ c, loadConfig host st = ([plain_get "config.json"], Ok tt, set_config c st)
       ∧ ((∃ e, network host (plain_get "config.json") = Throw e)
          ∨ (∃ r e, network host (plain_get "config.json") = Ok r ∧ json r = Throw e)
          → c = Some default_config).
Proof.
  unfold loadConfig, plain_get. unfold_M. cbn.
  destruct (network host _) as [r|e] eqn:Hn; cbn.
  - destruct (json r) as [parsed|e] eqn:Hj; cbn.
    + eexists. split; [reflexivity|].
      intros [[e He]|(r' & e & Hr & He)]; [discriminate|].
      injection Hr as <-. congruence.
    + eexists. split; [reflexivity|]. done.
  - eexists. split; [reflexivity|]. done.
Qed.

(** X5.  When [config.json] cannot be fetched or parsed, [loadConfig] does
    not throw and leaves the default configuration with its empty strings.
    With it, every [checkout] of a non-empty cart fails with the message
    [Apps Script URL not configured] before any request is sent, on any
    host, and [getInventory] is [fetchFromCSV]: the structured source is not
    asked. *)
Theorem loadConfig_failure_disables_remote (host : Host) (st : State) :
  config_unreadable host = true →
  loadConfig host st
    = ([plain_get "config.json"], Ok tt, set_config (Some default_config) st)
  ∧ (∀ host' line rest,
       checkout host' (Some (line :: rest)) (set_config (Some default_config) st)
       = ([], Throw (Error "Apps Script URL not configured"),
          set_config (Some default_config) st))
  ∧ (∀ host',
       getInventory host' (set_config (Some default_config) st)
       = fetchFromCSV host' (set_config (Some default_config) st)).
Proof.
  unfold config_unreadable. intros Hfail.
  destruct (loadConfig_run host st) as (c & Hrun & Hc).
  assert (c = Some default_config) as ->.
  { apply Hc. destruct (network host _) as [r|e]; [|left; by exists e].
    right. destruct (json r) as [|e] eqn:Hjson; [done|]. by exists r, e. }
  split; [exact Hrun|]. split.
  - intros host' line rest. reflexivity.
  - intros host'. rewrite fetchFromCSV_run.
    by rewrite (getInventory_csv_run host' _ default_config).
Qed.

(** X5 on the host whose network rejects every request, for the started
    application. *)
Lemma loadConfig_failure_disables_remote_demo :
  config_unreadable offline_host = true
  ∧ loadConfig offline_host demo_state
    = ([plain_get "config.json"], Ok tt, set_config (Some default_config) demo_state)
  ∧ (∀ host' line rest,
       checkout host' (Some (line :: rest)) (set_config (Some default_config) demo_state)
       = ([], Throw (Error "Apps Script URL not configured"),
          set_config (Some default_config) demo_state))
  ∧ (∀ host',
       getInventory host' (set_config (Some default_config) demo_state)
       = fetchFromCSV host' (set_config (Some default_config) demo_state)).
Proof.
  split; [reflexivity|].
  apply (loadConfig_failure_disables_remote offline_host demo_state). reflexivity.
Defined.

Lemma filter_sublist {A} (f : A → bool) (l : list A) : sublist (List.filter f l) l.
Proof.
  induction l as [|x l IH]; simpl; [constructor|].
  destruct (f x); by constructor.
Qed.

Lemma filter_throwing_sublist {A} (f : A → outcome bool) (l kept : list A) :
  filter_throwing f l = Ok kept → sublist kept l.
Proof.
  revert kept. induction l as [|x l IH]; intros kept; simpl.
  - intros [= <-]. constructor.
  - destruct (f x) as [keep|e]; [|done].
    destruct (filter_throwing f l) as [kept'|e]; [|done].
    intros [= <-]. destruct keep; constructor; by apply IH.
Qed.

Lemma renderProducts_inventory (productList : list Product) (st : State) :
  inventory (renderProducts productList st) = productList
  ∨ renderProducts productList st = st.
Proof. unfold renderProducts. destruct (productsGrid st); auto. Qed.

(** X6.  A filter or a search never adds to the catalog the service holds:
    after [filterByCategory] or [searchProducts] the inventory is a
    subsequence, in the same order, of the inventory before, and neither the
    cart nor the configuration has changed. *)
Theorem catalog_only_shrinks (st : State) :
  (∀ c, sublist (inventory (filterByCategory c st)) (inventory st)
        ∧ cart (filterByCategory c st) = cart st
        ∧ config (filterByCategory c st) = config st)
  ∧ (∀ query, sublist (inventory (searchProducts query st).2) (inventory st)
        ∧ cart (searchProducts query st).2 = cart st
        ∧ config (searchProducts query st).2 = config st).
Proof.
  split.
  - intros c. unfold filterByCategory.
    set (l := List.filter _ _).
    destruct (renderProducts_cart l st) as (-> & _ & ->).
    split; [|done].
    destruct (renderProducts_inventory l st) as [-> | ->]; [apply filter_sublist|done].
  - intros query. unfold searchProducts.
    destruct (filter_throwing _ _) as [kept|e] eqn:Hf; simpl; [|done].
    destruct (renderProducts_cart kept st) as (-> & _ & ->).
    split; [|done].
    destruct (renderProducts_inventory kept st) as [-> | ->];
      [by eapply filter_throwing_sublist|done].
Qed.

Lemma filter_other_category (c1 c2 : string) (l : list Product) :
  c1 ≠ c2 →
  List.filter (λ p, strict_eq (category p) c2)
    (List.filter (λ p, strict_eq (category p) c1) l) = [].
Proof.
  intros Hne. induction l as [|p l IH]; simpl; [done|].
  destruct (strict_eq (category p) c1) eqn:H1; [|done]. simpl.
  destruct (strict_eq (category p) c2) eqn:H2; [|done].
  apply strict_eq_true in H1, H2. congruence.
Qed.

Lemma filter_filter_same {A} (f : A → bool) (l : list A) :
  List.filter f (List.filter f l) = List.filter f l.
Proof.
  induction l as [|x l IH]; simpl; [done|].
  destruct (f x) eqn:Hx; simpl; [|done]. by rewrite Hx, IH.
Qed.

(** X7.  On a page with a product grid, selecting the same category twice
    is the same as selecting it once, and selecting a category after a
    different one always leaves an empty catalog and an empty grid, whatever
    the catalog was. *)
Theorem filterByCategory_twice (c1 c2 : string) (st : State) :
  productsGrid st ≠ None →
  filterByCategory c1 (filterByCategory c1 st) = filterByCategory c1 st
  ∧ (c1 ≠ c2 →
     inventory (filterByCategory c2 (filterByCategory c1 st)) = []
     ∧ productsGrid (filterByCategory c2 (filterByCategory c1 st)) = Some []).
Proof.
  intros Hgrid. unfold filterByCategory, renderProducts.
  destruct (productsGrid st) as [shown|] eqn:Hshown; [|done]. simpl.
  split; [by rewrite filter_filter_same|].
  intros Hne. by rewrite filter_other_category.
Qed.

(** X7 on the started application, with the categories [semen] and
    [pintu]. *)
Lemma filterByCategory_twice_demo :
  filterByCategory "semen" (filterByCategory "semen" demo_catalog_state)
  = filterByCategory "semen" demo_catalog_state
  ∧ ("semen" ≠ "pintu" →
     inventory (filterByCategory "pintu" (filterByCategory "semen" demo_catalog_state)) = []
     ∧ productsGrid (filterByCategory "pintu" (filterByCategory "semen" demo_catalog_state))
       = Some []).
Proof.
  apply (filterByCategory_twice "semen" "pintu" demo_catalog_state).
  vm_compute. discriminate.
Defined.

Lemma search_match_lower (query : string) (product : Product) :
  search_match (toLowerCase query) product = search_match query product.
Proof. unfold search_match. by rewrite toLowerCase_idemp. Qed.

Lemma filter_throwing_ext {A} (f g : A → outcome bool) (l : list A) :
  (∀ x, f x = g x) → filter_throwing f l = filter_throwing g l.
Proof. intros Hfg. induction l as [|x l IH]; simpl; [done|]. by rewrite Hfg, IH. Qed.

Lemma filter_throwing_all {A} (f : A → outcome bool) (l : list A) :
  Forall (λ x, f x = Ok true) l → filter_throwing f l = Ok l.
Proof. induction 1 as [|x l Hx _ IH]; simpl; [done|]. by rewrite Hx, IH. Qed.

Lemma filter_throwing_throws {A} (f : A → outcome bool) (l : list A) (x : A) (e : JsError) :
  (∀ y e', f y = Throw e' → e' = e) → In x l → f x = Throw e →
  filter_throwing f l = Throw e.
Proof.
  intros Hsame Hin Hx. induction l as [|y l IH]; [done|]. simpl.
  destruct (f y) as [keep|e'] eqn:Hy.
  - destruct Hin as [->|Hin]; [congruence|]. by rewrite IH.
  - f_equal. by apply Hsame in Hy.
Qed.

Lemma search_match_throw (query : string) (product : Product) (e : JsError) :
  search_match query product = Throw e → e = undefined_toLowerCase.
Proof.
  unfold search_match. destruct (name product); [|by intros [= <-]].
  destruct (includes _ _); [done|]. destruct (category product); [done|by intros [= <-]].
Qed.

(** X8.  For queries and catalogs of characters U+0000 to U+00FF,
    [searchProducts] does not distinguish the case of the letters of the
    query, accented ones included; the empty query keeps the whole catalog
    when every product has a name; and a single product without a name
    anywhere in the catalog makes every search throw a [TypeError] and leave
    the service as it was. *)
Theorem searchProducts_matching (query : string) (st : State) :
  searchProducts (toLowerCase query) st = searchProducts query st
  ∧ (Forall (λ product, name product ≠ None) (inventory st) →
     searchProducts "" st = (Ok tt, renderProducts (inventory st) st))
  ∧ (∀ product, In product (inventory st) → name product = None →
     searchProducts query st = (Throw undefined_toLowerCase, st)).
Proof.
  split; [|split].
  - unfold searchProducts.
    by rewrite (filter_throwing_ext _ (search_match query)) by apply search_match_lower.
  - intros Hnamed. unfold searchProducts. rewrite filter_throwing_all; [done|].
    eapply Forall_impl; [exact Hnamed|]. intros product Hname. unfold search_match.
    cbn beta in Hname. destruct (name product) as [n|]; [|done].
    by destruct (toLowerCase n).
  - intros product Hin Hname. unfold searchProducts.
    rewrite (filter_throwing_throws _ _ product undefined_toLowerCase); [done| |done|].
    + intros y e'. apply search_match_throw.
    + unfold search_match. by rewrite Hname.
Qed.

(** The query [ULIN] with U+00DC for its first letter finds the product
    named [Kayu ulin] with U+00FC. *)
Example search_match_accented_capital :
  search_match (String "220" "LIN")
    (set_name ("Kayu " ++ String "252" "lin") (set_category "kayu" empty_object))
  = Ok true.
Proof. reflexivity. Qed.

Lemma addToCart_grid (sku : string) (st : State) :
  productsGrid (addToCart sku st).2 = productsGrid st.
Proof.
  unfold addToCart. destruct (List.find _ (inventory st)); [|done].
  destruct (List.find _ (cart st)); done.
Qed.

Lemma updateQuantity_grid (sku action : string) (st : State) :
  productsGrid (updateQuantity sku action st) = productsGrid st.
Proof.
  unfold updateQuantity. destruct (List.find _ (cart st)); [|done].
  repeat case_match_goal; done.
Qed.

Lemma renderProducts_no_grid (productList : list Product) (st : State) :
  productsGrid (renderProducts productList st) = None →
  renderProducts productList st = st.
Proof. unfold renderProducts. by destruct (productsGrid st). Qed.

Lemma addToCart_empty_inventory (sku : string) (st : State) :
  inventory st = [] → addToCart sku st = (false, st).
Proof. intros Hinv. unfold addToCart. by rewrite Hinv. Qed.

Lemma updateQuantity_empty_cart (sku action : string) (st : State) :
  cart st = [] → updateQuantity sku action st = st.
Proof. intros Hcart. unfold updateQuantity. by rewrite Hcart. Qed.

Lemma reachable_no_grid (st : State) :
  reachable st → productsGrid st = None → inventory st = [] ∧ cart st = [].
Proof.
  induction 1 as [grid|host st _ IH|host st _ IH|pl st _ IH|s st _ IH|s st _ IH
                 |s action st _ IH|host c st _ IH|c st _ IH|query st _ IH|st _ IH].
  - done.
  - destruct (loadConfig_final host st) as [c ->]. exact IH.
  - rewrite getInventory_final. exact IH.
  - intros Hg. pose proof (renderProducts_no_grid _ _ Hg) as Heq.
    rewrite Heq in Hg |- *. by apply IH.
  - rewrite addToCart_grid. intros Hg. destruct (IH Hg) as [Hi Hc].
    by rewrite (addToCart_empty_inventory s st Hi).
  - unfold selectProduct. rewrite addToCart_grid. intros Hg. destruct (IH Hg) as [Hi Hc].
    by rewrite (addToCart_empty_inventory s st Hi).
  - rewrite updateQuantity_grid. intros Hg. destruct (IH Hg) as [Hi Hc].
    by rewrite (updateQuantity_empty_cart s action st Hc).
  - pose proof (checkout_final host c st) as Hf.
    destruct (result (checkout host c st)); rewrite Hf; [|exact IH].
    intros Hg. destruct (IH Hg) as [Hi Hc]. done.
  - unfold filterByCategory. intros Hg. pose proof (renderProducts_no_grid _ _ Hg) as Heq.
    rewrite Heq in Hg |- *. by apply IH.
  - unfold searchProducts. destruct (filter_throwing _ _); simpl; [|exact IH].
    intros Hg. pose proof (renderProducts_no_grid _ _ Hg) as Heq.
    rewrite Heq in Hg |- *. by apply IH.
  - intros Hg. destruct (IH Hg) as [Hi Hc]. done.
Qed.

(** X9.  On a page without the element [#productsGrid], [renderProducts]
    returns before it stores the list, so a running service never holds a
    catalog there: in every state it reaches, the inventory and the cart are
    empty, every [addToCart] returns [false], and [renderProducts] changes
    nothing. *)
Theorem no_grid_no_cart (st : State) :
  reachable st → productsGrid st = None →
  inventory st = [] ∧ cart st = []
  ∧ (∀ sku, addToCart sku st = (false, st))
  ∧ (∀ productList, renderProducts productList st = st).
Proof.
  intros Hreach Hgrid. destruct (reachable_no_grid st Hreach Hgrid) as [Hi Hc].
  split; [done|]. split; [done|]. split.
  - intros sku. by apply addToCart_empty_inventory.
  - intros productList. unfold renderProducts. by rewrite Hgrid.
Qed.

(** X9 after the built-in catalog was rendered and Semen Rajawali added on
    a page without a grid. *)
Lemma no_grid_no_cart_demo :
  inventory gridless_state = [] ∧ cart gridless_state = []
  ∧ (∀ sku, addToCart sku gridless_state = (false, gridless_state))
  ∧ (∀ productList, renderProducts productList gridless_state = gridless_state).
Proof.
  apply (no_grid_no_cart gridless_state).
  - unfold gridless_state. apply reach_addToCart, reach_renderProducts, reach_new.
  - reflexivity.
Defined.

(** ** The cart: undoing an addition, and what an addition costs *)

Lemma find_line_at (sku : string) (before after : list CartLine) (found : CartLine) :
  Forall (λ line, id (item line) ≠ Some sku) before → id (item found) = Some sku →
  List.find (line_has_id sku) (before ++ found :: after) = Some found.
Proof.
  intros Hbefore Hfound. induction Hbefore as [|line rest Hline _ IH]; simpl.
  - apply line_has_id_true in Hfound. by rewrite Hfound.
  - destruct (line_has_id sku line) eqn:Hhas; [|done].
    apply line_has_id_true in Hhas. done.
Qed.

Lemma add_quantity_inverse (line : CartLine) :
  add_quantity (-1) (add_quantity 1 line) = line.
Proof. destruct line as [p q]. unfold add_quantity. simpl. f_equal. lia. Qed.

Lemma decrease_after_increment (sku : string) (st : State) (before after : list CartLine)
    (found : CartLine) :
  cart st = (before ++ found :: after)%list →
  Forall (λ line, id (item line) ≠ Some sku) before → id (item found) = Some sku →
  1 <= quantity found →
  updateQuantity sku "decrease" (set_cart (update_found sku 1 (cart st)) st) = st.
Proof.
  intros Hcart Hbefore Hfound Hq. rewrite Hcart, update_found_split by done.
  unfold updateQuantity. cbn [cart set_cart].
  rewrite (find_line_at sku before after (add_quantity 1 found)) by done.
  cbn [String.eqb Ascii.eqb Bool.eqb].
  rewrite (update_found_split sku (-1) before after (add_quantity 1 found)) by done.
  rewrite add_quantity_inverse.
  destruct (Z.leb_spec (quantity (add_quantity 1 found) - 1) 0) as [Hle|_];
    [simpl in Hle; lia|].
  rewrite <- Hcart. by destruct st.
Qed.

(** X10.  In every state of a running service, [decrease] undoes
    [increase], and it undoes a successful [addToCart]: the service is back
    in the state it was in, with the line at its former quantity, or gone
    again if the addition had created it. *)
Theorem decrease_undoes_increase_and_add (sku : string) (st : State) :
  reachable st →
  updateQuantity sku "decrease" (updateQuantity sku "increase" st) = st
  ∧ ((addToCart sku st).1 = true →
     updateQuantity sku "decrease" (addToCart sku st).2 = st).
Proof.
  intros Hreach. destruct (reachable_cart_inv st Hreach) as [Hnd Hq].
  assert (Hexisting : ∀ found, List.find (line_has_id sku) (cart st) = Some found →
            updateQuantity sku "decrease" (set_cart (update_found sku 1 (cart st)) st) = st).
  { intros found Hfind.
    destruct (find_line_split sku _ _ Hfind) as (before & after & Hcart & Hfound & Hbefore).
    apply (decrease_after_increment sku st before after found); try done.
    rewrite Hcart in Hq. apply Forall_app in Hq as [_ Hq].
    by apply Forall_cons in Hq as [Hq _]. }
  split.
  - unfold updateQuantity at 2.
    destruct (List.find (line_has_id sku) (cart st)) as [found|] eqn:Hfind.
    + cbn [String.eqb Ascii.eqb Bool.eqb]. by apply (Hexisting found).
    + unfold updateQuantity. by rewrite Hfind.
  - unfold addToCart.
    destruct (List.find _ (inventory st)) as [product|] eqn:Hprod; [|done].
    intros _. pose proof Hprod as Hid. apply List.find_some in Hid as [_ Hid].
    apply strict_eq_true in Hid.
    destruct (List.find (line_has_id sku) (cart st)) as [found|] eqn:Hfind; cbn [snd].
    + by apply (Hexisting found).
    + destruct (find_line_snoc sku (cart st) {| item := product; quantity := 1 |} Hfind Hid)
        as [Hfind' _].
      unfold updateQuantity. cbn [cart set_cart]. rewrite Hfind'.
      cbn [String.eqb Ascii.eqb Bool.eqb quantity].
      change (1 - 1 <=? 0) with true. cbv iota.
      apply find_line_none in Hfind.
      rewrite (update_found_split sku (-1) (cart st) []
                 {| item := product; quantity := 1 |} Hfind Hid).
      rewrite (filter_removes_found sku (-1) (cart st) []
                 {| item := product; quantity := 1 |} Hfind (List.Forall_nil _) Hid).
      rewrite app_nil_r. by destruct st.
Qed.

(** X10 on the started application, for Pintu Kayu, which is not in the
    cart. *)
Lemma decrease_undoes_increase_and_add_demo :
  updateQuantity "pintu-kayu" "decrease" (updateQuantity "pintu-kayu" "increase" demo_state)
  = demo_state
  ∧ ((addToCart "pintu-kayu" demo_state).1 = true →
     updateQuantity "pintu-kayu" "decrease" (addToCart "pintu-kayu" demo_state).2
     = demo_state).
Proof.
  apply (decrease_undoes_increase_and_add "pintu-kayu" demo_state).
  unfold demo_state, demo_catalog_state.
  apply reach_addToCart, reach_renderProducts, reach_loadConfig, reach_new.
Defined.

Lemma exact_subtotal_app (l1 l2 : list CartLine) :
  exact_subtotal (l1 ++ l2) = exact_subtotal l1 + exact_subtotal l2.
Proof.
  unfold exact_subtotal. induction l1 as [|line rest IH]; simpl; [done|]. rewrite IH. lia.
Qed.

Lemma exact_item_count_app (l1 l2 : list CartLine) :
  exact_item_count (l1 ++ l2) = exact_item_count l1 + exact_item_count l2.
Proof.
  unfold exact_item_count. induction l1 as [|line rest IH]; simpl; [done|]. rewrite IH. lia.
Qed.

Lemma addToCart_exact_sums (sku : string) (st : State) (product : Product) :
  List.find (λ p, strict_eq (id p) sku) (inventory st) = Some product →
  Forall integer_line (cart st) →
  is_integer (to_number (price product)) → 0 <= Z_of_number (to_number (price product)) →
  Forall integer_line (cart (addToCart sku st).2)
  ∧ exact_subtotal (cart (addToCart sku st).2)
    = exact_subtotal (cart st) + added_price sku product (cart st)
  ∧ exact_item_count (cart (addToCart sku st).2) = exact_item_count (cart st) + 1.
Proof.
  intros Hfind Hall Hint Hprice. unfold addToCart, added_price. rewrite Hfind.
  destruct (List.find (line_has_id sku) (cart st)) as [found|] eqn:Hline; cbn [snd cart set_cart].
  - destruct (find_line_split _ _ _ Hline) as (before & after & Hcart & Hid & Hbefore).
    rewrite Hcart in Hall |- *. rewrite update_found_split by done.
    apply Forall_app in Hall as [Hb Ha]. apply Forall_cons in Ha as [Hf Ha].
    split; [|split].
    + apply Forall_app. split; [done|]. apply Forall_cons. split; [|done].
      destruct Hf as (Hi & Hp & Hq). unfold integer_line, unit_price, add_quantity in *.
      cbn [item quantity]. split; [done|]. split; [done|lia].
    + rewrite !exact_subtotal_app. unfold exact_subtotal, unit_price, add_quantity.
      cbn [foldr item quantity]. lia.
    + rewrite !exact_item_count_app. unfold exact_item_count, add_quantity.
      cbn [foldr item quantity]. lia.
  - split; [|split].
    + apply Forall_app. split; [done|]. apply Forall_cons. split; [|constructor].
      unfold integer_line, unit_price. cbn [item quantity]. split; [done|]. split; [done|lia].
    + rewrite exact_subtotal_app. unfold exact_subtotal at 2, unit_price.
      cbn [foldr item quantity]. lia.
    + rewrite exact_item_count_app. unfold exact_item_count at 2. cbn [foldr quantity]. lia.
Qed.

(** X11.  What one more [addToCart] does to the order summary.  For a cart
    of integer lines and a catalog product with a non-negative integer
    price, with sums below [2^53], the subtotal shown after the addition is
    the subtotal before plus one unit price, and the item count is one
    more.  The unit price is the one stored in the cart line when the
    product is already in the cart, whatever the catalog says now, and the
    catalog price otherwise. *)
Theorem addToCart_raises_summary (sku : string) (st : State) (product : Product) :
  List.find (λ p, strict_eq (id p) sku) (inventory st) = Some product →
  Forall integer_line (cart st) →
  is_integer (to_number (price product)) → 0 <= Z_of_number (to_number (price product)) →
  exact_subtotal (cart st) + added_price sku product (cart st) < 2 ^ 53 →
  exact_item_count (cart st) + 1 < 2 ^ 53 →
  subTotal (updateOrderSummary (addToCart sku st).2)
    = number_of_Z (exact_subtotal (cart st) + added_price sku product (cart st))
  ∧ itemCount (updateOrderSummary (addToCart sku st).2)
    = number_of_Z (exact_item_count (cart st) + 1).
Proof.
  intros Hfind Hall Hint Hprice Hs Hc.
  destruct (addToCart_exact_sums sku st product Hfind Hall Hint Hprice) as (Hall' & Hs' & Hc').
  unfold updateOrderSummary. cbn [subTotal itemCount].
  rewrite (fold_subtotal_exact _ 0 Hall') by lia.
  rewrite (fold_item_count_exact _ 0 Hall') by lia.
  rewrite !Z.add_0_l, Hs', Hc'. done.
Qed.

(** X11 on the started application: a second Semen Rajawali, at 105000,
    gives the subtotal 210000 and two items. *)
Lemma addToCart_raises_summary_demo :
  added_price "semen-rajawali"
    (fallback_product "semen-rajawali" "Semen Rajawali" 105000 "semen" "55Kg / 1 Karung" 40)
    (cart demo_state) = 105000
  ∧ exact_subtotal (cart demo_state) = 105000
  ∧ subTotal (updateOrderSummary (addToCart "semen-rajawali" demo_state).2)
    = number_of_Z
        (exact_subtotal (cart demo_state)
         + added_price "semen-rajawali"
             (fallback_product "semen-rajawali" "Semen Rajawali" 105000 "semen"
                "55Kg / 1 Karung" 40)
             (cart demo_state))
  ∧ itemCount (updateOrderSummary (addToCart "semen-rajawali" demo_state).2)
    = number_of_Z (exact_item_count (cart demo_state) + 1).
Proof.
  split; [reflexivity|]. split; [reflexivity|].
  apply (addToCart_raises_summary "semen-rajawali" demo_state
           (fallback_product "semen-rajawali" "Semen Rajawali" 105000 "semen"
              "55Kg / 1 Karung" 40)).
  - reflexivity.
  - constructor; [|constructor].
    split; [reflexivity|]. split; [vm_compute; discriminate|reflexivity].
  - reflexivity.
  - vm_compute; discriminate.
  - reflexivity.
  - reflexivity.
Defined.

(** ** The transaction record *)

Lemma line_within_sums (lines : list CartLine) (line : CartLine) :
  Forall integer_line lines → In line lines →
  unit_price line * quantity line <= exact_subtotal lines
  ∧ quantity line <= exact_item_count lines.
Proof.
  induction 1 as [|first rest (_ & Hp & Hq) Hrest IH]; [done|].
  pose proof (exact_subtotal_nonneg rest Hrest) as Hs0.
  pose proof (exact_item_count_nonneg rest Hrest) as Hc0.
  simpl. intros [->|Hin].
  - split; [nia|lia].
  - destruct (IH Hin) as [Hs Hc]. split; [nia|lia].
Qed.

(** X12.  What [checkout] sends is exact.  In every state of a running
    service, for a cart of lines with non-negative integer prices and
    positive quantities, with an exact subtotal of at most
    [max_exact_subtotal] and fewer than [2^53] items, the transaction built
    holds, as Numbers, the integers of the order: for every line the product
    of price and quantity, as subtotal their sum, as tax 11 percent of the
    subtotal rounded half up, and as total the sum of the two. *)
Theorem transaction_amounts_exact (host : Host) (st : State) (lines : list CartLine) :
  reachable st →
  Forall integer_line lines →
  exact_subtotal lines <= max_exact_subtotal →
  exact_item_count lines < 2 ^ 53 →
  map item_total (items (build_transaction host st lines))
  = map (λ line, number_of_Z (unit_price line * quantity line)) lines
  ∧ subtotal (build_transaction host st lines) = number_of_Z (exact_subtotal lines)
  ∧ tax (build_transaction host st lines)
    = number_of_Z (round_half_up (inject_Z (exact_subtotal lines) * (11 # 100)))
  ∧ total (build_transaction host st lines)
    = number_of_Z (exact_subtotal lines
                   + round_half_up (inject_Z (exact_subtotal lines) * (11 # 100))).
Proof.
  intros Hreach Hall Hs Hc.
  pose proof (exact_subtotal_nonneg _ Hall) as Hs0.
  pose proof Hs as Hs'. unfold max_exact_subtotal in Hs'.
  assert (Hs53 : exact_subtotal lines < 2 ^ 53)
    by (change (2 ^ 53) with 9007199254740992; lia).
  pose proof (fold_subtotal_exact lines 0 Hall ltac:(lia) ltac:(lia) Hc) as Hfold.
  unfold line_total in Hfold. rewrite Z.add_0_l in Hfold.
  rewrite round_half_up_11_percent.
  unfold build_transaction. cbn [items subtotal tax total].
  rewrite (reachable_taxRate st Hreach), Hfold.
  split; [|split; [done|]].
  - rewrite map_map. cbn [item_total]. apply map_ext_in. intros line Hin.
    destruct (line_within_sums lines line Hall Hin) as [Hp Hq].
    rewrite Forall_forall in Hall.
    apply (line_total_exact line); [by apply Hall, list_elem_of_In|lia|lia].
  - rewrite Math_round_tax by lia.
    pose proof (Z.div_pos (11 * exact_subtotal lines + 50) 100 ltac:(lia) ltac:(lia)).
    assert ((11 * exact_subtotal lines + 50) / 100 < 562949953421312)
      by (apply Z.div_lt_upper_bound; lia).
    split; [done|].
    apply js_add_int; [lia|lia|]. change (2 ^ 53) with 9007199254740992. lia.
Qed.

(** X12 on the started application: one Semen Rajawali at 105000 gives the
    subtotal 105000, the tax 11550 and the total 116550. *)
Lemma transaction_amounts_exact_demo :
  map item_total (items (build_transaction demo_host demo_state (cart demo_state)))
  = [number_of_Z 105000]
  ∧ subtotal (build_transaction demo_host demo_state (cart demo_state)) = number_of_Z 105000
  ∧ tax (build_transaction demo_host demo_state (cart demo_state)) = number_of_Z 11550
  ∧ total (build_transaction demo_host demo_state (cart demo_state)) = number_of_Z 116550.
Proof.
  apply (transaction_amounts_exact demo_host demo_state (cart demo_state)).
  - exact demo_state_reachable.
  - constructor; [|constructor].
    split; [reflexivity|]. split; [vm_compute; discriminate|reflexivity].
  - vm_compute; discriminate.
  - reflexivity.
Defined.

(** ** The application: start-up and the checkout button *)

Lemma bindEvents_run (page : Page) (st : State) :
  bindEvents page st
  = if has_controls page then ([], Ok tt, st)
    else ([], Throw (null_property "addEventListener"), st).
Proof. unfold bindEvents, has_controls. by destruct page as [[] [] []]. Qed.

Lemma init_run (host : Host) (page : Page) (st : State) :
  init host page st
  = if has_controls page then (let* _ := loadInventory host in initializeCart) st
    else ([], Throw (null_property "addEventListener"), st).
Proof.
  unfold init. unfold bind at 1. rewrite bindEvents_run.
  destruct (has_controls page); [|done].
  by destruct ((let* _ := loadInventory host in initializeCart) st) as [[tr r] st'].
Qed.

(** X13.  Start-up asks for no catalog, whatever the network would answer.
    On a page that has the search field, the search button and the checkout
    button, [init] on the fresh service sends no request and completes: with
    a product grid it leaves the built-in catalog in the inventory and on the
    grid and one Semen Rajawali in the cart, without one it leaves the
    service untouched.  On a page that lacks one of the three controls,
    [init] is rejected with a [TypeError] by [bindEvents] in any state,
    before anything is loaded, and leaves the service as it was.  In both
    cases the constructor itself completes, its only request is the one for
    [config.json], and the answer changes only the configuration. *)
Theorem startup_shows_builtin_catalog (host : Host) (page : Page)
    (grid : option (list Product)) :
  init host page (new_InventoryService grid)
  = (if has_controls page then ([], Ok tt, started_state grid)
     else ([], Throw (TypeError "Cannot read properties of null (reading 'addEventListener')"),
           new_InventoryService grid))
  ∧ (∃ c, new_MiniERP host page grid
          = ([plain_get "config.json"], Ok tt,
             set_config c (if has_controls page then started_state grid
                           else new_InventoryService grid)))
  ∧ (∀ st, result (init host page st)
           = if has_controls page then Ok tt
             else Throw (TypeError
                           "Cannot read properties of null (reading 'addEventListener')"))
  ∧ (∀ st, has_controls page = false →
           trace (init host page st) = [] ∧ final (init host page st) = st).
Proof.
  assert (Hinit : init host page (new_InventoryService grid)
                  = (if has_controls page then ([], Ok tt, started_state grid)
                     else ([], Throw (null_property "addEventListener"),
                           new_InventoryService grid))).
  { rewrite init_run. destruct (has_controls page); [|done]. by destruct grid. }
  split; [exact Hinit|]. split; [|split].
  - unfold new_MiniERP, bind, unawaited. rewrite Hinit.
    destruct (has_controls page).
    + destruct (loadConfig_run host (started_state grid)) as (c & -> & _). by exists c.
    + destruct (loadConfig_run host (new_InventoryService grid)) as (c & -> & _).
      by exists c.
  - intros st. rewrite init_run. destruct (has_controls page); [|done].
    unfold loadInventory, initializeCart. unfold_M.
    destruct (getInventory host st) as [[tr [l|e]] st']; reflexivity.
  - intros st Hpage. by rewrite init_run, Hpage.
Qed.

(** The state used in the instances is the one the constructor leaves on a
    page with every control, on the host that answers every request; on a
    page without the checkout button the same constructor leaves an empty
    catalog and an empty cart. *)
Example new_MiniERP_demo :
  new_MiniERP demo_host full_page (Some []) = ([plain_get "config.json"], Ok tt, demo_state)
  ∧ new_MiniERP demo_host {| searchInput := true; searchBtn := true; checkoutBtn := false |}
      (Some [])
    = ([plain_get "config.json"], Ok tt,
       set_config (Some demo_object) (new_InventoryService (Some []))).
Proof. split; reflexivity. Qed.

(** The three ways [handleCheckout] runs. *)
Lemma handleCheckout_run (host : Host) (browser : Browser) (st : State) :
  (cart st = [] → handleCheckout host browser st = ([], Ok [empty_cart_alert], st))
  ∧ (cart st ≠ [] → confirm browser (confirmation_text browser (cart st)) = false →
     handleCheckout host browser st = ([], Ok [], st))
  ∧ (cart st ≠ [] → confirm browser (confirmation_text browser (cart st)) = true →
     handleCheckout host browser st =
       (trace (checkout host (Some (cart st)) st),
        Ok [match result (checkout host (Some (cart st)) st) with
            | Ok _ => success_alert
            | Throw e => "Pembayaran gagal: " ++ message e
            end],
        final (checkout host (Some (cart st)) st))).
Proof.
  assert (Hstep : handleCheckout host browser st =
            match cart st with
            | [] => ([], Ok [empty_cart_alert], st)
            | _ :: _ =>
                if confirm browser (confirmation_text browser (cart st)) then
                  try_catch
                    (let* _ := checkout host (Some (cart st)) in ret [success_alert])
                    (λ e, ret ["Pembayaran gagal: " ++ message e]) st
                else ([], Ok [], st)
            end).
  { unfold handleCheckout, getCart. unfold bind at 1. unfold get_state.
    destruct (cart st); [reflexivity|].
    destruct (confirm browser _); [|reflexivity].
    cbn [app]. by destruct (try_catch _ _ st) as [[tr r] st']. }
  rewrite Hstep. destruct (cart st) as [|line rest]; [done|].
  split; [done|]. split; intros _ ->; [done|].
  unfold try_catch, bind, ret.
  destruct (checkout host (Some (line :: rest)) st) as [[tr [o|e]] st'];
    cbn; rewrite app_nil_r; reflexivity.
Qed.

(** X14.  [handleCheckout] never throws and sends at most one request.  It
    shows the empty-cart alert and does nothing else when the cart is empty;
    it shows nothing and sends nothing when the user declines the dialog;
    otherwise it sends what [checkout] sends for the cart, and when that
    fails it shows the message of the error after [Pembayaran gagal: ] and
    leaves the service as it was.  The only change it ever makes is the
    clearing of the cart, and then the alert is the success alert. *)
Theorem handleCheckout_outcomes (host : Host) (browser : Browser) (st : State) :
  ∃ alerts,
    result (handleCheckout host browser st) = Ok alerts
    ∧ (length (trace (handleCheckout host browser st)) <= 1)%nat
    ∧ (final (handleCheckout host browser st) = st
       ∨ final (handleCheckout host browser st) = clearCart st ∧ alerts = [success_alert])
    ∧ (cart st = [] →
       handleCheckout host browser st = ([], Ok [empty_cart_alert], st))
    ∧ (cart st ≠ [] → confirm browser (confirmation_text browser (cart st)) = false →
       handleCheckout host browser st = ([], Ok [], st))
    ∧ (cart st ≠ [] → confirm browser (confirmation_text browser (cart st)) = true →
       trace (handleCheckout host browser st) = trace (checkout host (Some (cart st)) st)
       ∧ ∀ e, result (checkout host (Some (cart st)) st) = Throw e →
              alerts = ["Pembayaran gagal: " ++ message e]
              ∧ final (handleCheckout host browser st) = st).
Proof.
  destruct (handleCheckout_run host browser st) as (Hempty & Hdecline & Hconfirm).
  destruct (cart st) as [|line rest] eqn:Hcart.
  - exists [empty_cart_alert]. rewrite Hempty by done. cbn. repeat split; auto; done.
  - destruct (confirm browser (confirmation_text browser (line :: rest))) eqn:Hanswer.
    + rewrite Hconfirm by done.
      pose proof (checkout_final host (Some (line :: rest)) st) as Hfinal.
      pose proof (checkout_trace host (Some (line :: rest)) st) as Htrace.
      eexists. split; [reflexivity|]. cbn [trace result final fst snd].
      split; [|split; [|split; [|split]]].
      * destruct Htrace as [->|(? & ? & _ & _ & _ & _ & ->)]; cbn; lia.
      * destruct (result (checkout host (Some (line :: rest)) st)); [right|left]; done.
      * done.
      * done.
      * intros _ _. split; [done|]. intros e He. rewrite He in Hfinal |- *. done.
    + exists []. rewrite Hdecline by done. cbn. repeat split; auto; done.
Qed.

(** X15.  The amounts of the confirmation dialog are computed a third time,
    with the literal [0.11]; they are the amounts of the order summary, and
    in every state of a running service the transaction that
    [handleCheckout] sends carries exactly the subtotal, tax and total the
    user confirmed. *)
Theorem handleCheckout_dialog_matches_request (host : Host) (browser : Browser) (st : State) :
  reachable st →
  confirmation_totals (cart st)
    = (subTotal (updateOrderSummary st), taxAmount (updateOrderSummary st),
       totalAmount (updateOrderSummary st))
  ∧ ∀ request, request ∈ trace (handleCheckout host browser st) →
      ∃ payload, body request = Some payload
        ∧ (subtotal (data payload), tax (data payload), total (data payload))
          = confirmation_totals (cart st).
Proof.
  intros Hreach. split; [reflexivity|].
  intros request Hin.
  destruct (handleCheckout_run host browser st) as (Hempty & Hdecline & Hconfirm).
  destruct (cart st) as [|line rest] eqn:Hcart.
  { rewrite Hempty in Hin by done. cbn in Hin. by apply elem_of_nil in Hin. }
  destruct (confirm browser (confirmation_text browser (line :: rest))) eqn:Hanswer.
  2:{ rewrite Hdecline in Hin by done. cbn in Hin. by apply elem_of_nil in Hin. }
  rewrite Hconfirm in Hin by done. cbn [trace fst] in Hin.
  destruct (checkout_trace host (Some (line :: rest)) st)
    as [Hnil|(lines & cfg & Hlines & _ & _ & _ & Hsent)].
  { rewrite Hnil in Hin. by apply elem_of_nil in Hin. }
  injection Hlines as <-. rewrite Hsent in Hin.
  apply list_elem_of_singleton in Hin as ->.
  eexists. split; [reflexivity|].
  cbn [data checkout_request body].
  pose proof (reachable_taxRate st Hreach) as Hrate.
  unfold build_transaction, confirmation_totals. cbn [subtotal tax total].
  rewrite Hrate. reflexivity.
Qed.

(** X15 on the started application, with a user who confirms: a request is
    sent, and it carries the amounts of the dialog. *)
Lemma handleCheckout_dialog_matches_request_demo :
  reachable demo_state
  ∧ trace (handleCheckout demo_host confirming_browser demo_state) ≠ []
  ∧ ∀ request, request ∈ trace (handleCheckout demo_host confirming_browser demo_state) →
      ∃ payload, body request = Some payload
        ∧ (subtotal (data payload), tax (data payload), total (data payload))
          = confirmation_totals (cart demo_state).
Proof.
  split; [exact demo_state_reachable|]. split; [vm_compute; discriminate|].
  apply (handleCheckout_dialog_matches_request demo_host confirming_browser demo_state
           demo_state_reachable).
Defined.

(** ** The payment dialog: amounts, change and transaction numbers *)

Lemma binary_round_opp (m : positive) (e : Z) :
  binary_round prec emax true m e = SFopp (binary_round prec emax false m e).
Proof.
  unfold binary_round.
  destruct (shl_align m e _) as [mz ez]. unfold binary_round_aux.
  destruct (shr_fexp prec emax (Z.pos mz) ez loc_Exact) as [mrs e'].
  destruct (shr_fexp prec emax _ e' loc_Exact) as [mrs' e''].
  destruct (shr_m mrs'); [done| |done].
  destruct (e'' <=? emax - prec); done.
Qed.

Lemma canon_finite (n : Z) :
  0 < n < 2 ^ 53 →
  canon n = S754_finite false (Z.to_pos (n * 2 ^ (53 - Zdigits2 n))) (Zdigits2 n - 53)
  ∧ Zdigits2 n - 53 <= 0
  ∧ Z.pos (Z.to_pos (n * 2 ^ (53 - Zdigits2 n))) / 2 ^ (- (Zdigits2 n - 53)) = n.
Proof.
  intros Hn. pose proof (Zdigits2_le_53 n Hn) as Hd.
  split; [reflexivity|]. split; [lia|].
  rewrite (canon_mantissa n Hn).
  replace (- (Zdigits2 n - 53)) with (53 - Zdigits2 n) by lia.
  apply Z.div_mul. apply Z.pow_nonzero; lia.
Qed.

(** [Math.floor] keeps an integer, of either sign. *)
Lemma Math_floor_int (n : Z) :
  0 <= n < 2 ^ 53 → Math_floor (number_of_Z n) = number_of_Z n.
Proof.
  intros Hn. destruct (Z.eq_dec n 0) as [->|Hn0]; [reflexivity|].
  rewrite number_of_Z_canon by lia.
  destruct (canon_finite n ltac:(lia)) as (Hc & He & Hdiv).
  rewrite Hc. unfold Math_floor.
  destruct (Z.leb_spec 0 (Zdigits2 n - 53)); [done|].
  cbn [cond_Zopp]. rewrite Hdiv. rewrite <- Hc.
  apply (number_of_Z_canon n). lia.
Qed.

Lemma Math_floor_neg_int (n : Z) :
  0 < n < 2 ^ 53 → Math_floor (SFopp (number_of_Z n)) = SFopp (number_of_Z n).
Proof.
  intros Hn. rewrite number_of_Z_canon by lia.
  destruct (canon_finite n Hn) as (Hc & He & Hdiv).
  rewrite Hc. cbn [SFopp negb]. unfold Math_floor.
  destruct (Z.leb_spec 0 (Zdigits2 n - 53)); [done|].
  cbn [cond_Zopp].
  assert (Hexact : - Z.pos (Z.to_pos (n * 2 ^ (53 - Zdigits2 n)))
                   / 2 ^ (- (Zdigits2 n - 53)) = - n).
  { rewrite (canon_mantissa n Hn).
    replace (- (Zdigits2 n - 53)) with (53 - Zdigits2 n) by lia.
    rewrite <- Z.mul_opp_l. apply Z.div_mul. apply Z.pow_nonzero; lia. }
  rewrite Hexact.
  destruct n as [|q|q]; try lia.
  change (binary_normalize prec emax (- Z.pos q) 0 true)
    with (binary_round prec emax true q 0).
  rewrite binary_round_opp.
  change (binary_round prec emax false q 0) with (number_of_Z (Z.pos q)).
  rewrite number_of_Z_canon by lia. rewrite Hc. reflexivity.
Qed.

Lemma Math_max_zero_int (n : Z) :
  0 <= n < 2 ^ 53 → Math_max (number_of_Z 0) (number_of_Z n) = number_of_Z n.
Proof.
  intros Hn. destruct (Z.eq_dec n 0) as [->|Hn0]; [reflexivity|].
  rewrite (number_of_Z_canon n) by lia. reflexivity.
Qed.

Lemma Math_max_zero_neg (n : Z) :
  0 < n < 2 ^ 53 → Math_max (number_of_Z 0) (SFopp (number_of_Z n)) = number_of_Z 0.
Proof. intros Hn. rewrite (number_of_Z_canon n) by lia. reflexivity. Qed.

Lemma js_sub_nonneg (a b : Z) :
  0 <= b → b <= a → a < 2 ^ 53 →
  js_sub (number_of_Z a) (number_of_Z b) = number_of_Z (a - b).
Proof.
  intros Hb Hba Ha. destruct (Z.eq_dec b 0) as [->|Hb0]; [|apply js_sub_int; lia].
  rewrite Z.sub_0_r. destruct (Z.eq_dec a 0) as [->|Ha0]; [reflexivity|].
  rewrite (number_of_Z_canon a) by lia. reflexivity.
Qed.

(** The difference of two integers is exact when it is negative, too. *)
Lemma js_sub_neg (a b : Z) :
  0 <= a → a < b → b < 2 ^ 53 →
  js_sub (number_of_Z a) (number_of_Z b) = SFopp (number_of_Z (b - a)).
Proof.
  intros Ha0 Hab Hb.
  destruct (Z.eq_dec a 0) as [->|Hane].
  { rewrite Z.sub_0_r, (number_of_Z_canon b) by lia. reflexivity. }
  rewrite (number_of_Z_canon a), (number_of_Z_canon b) by lia.
  pose proof (Zdigits2_le_53 a ltac:(lia)) as Hda.
  pose proof (Zdigits2_le_53 b ltac:(lia)) as Hdb.
  pose proof (canon_mantissa a ltac:(lia)) as Hma.
  pose proof (canon_mantissa b ltac:(lia)) as Hmb.
  unfold js_sub, canon, SFsub.
  remember (Z.to_pos (a * 2 ^ (53 - Zdigits2 a))) as ma eqn:Ema. clear Ema.
  remember (Z.to_pos (b * 2 ^ (53 - Zdigits2 b))) as mb eqn:Emb. clear Emb.
  remember (Z.min (Zdigits2 a - 53) (Zdigits2 b - 53)) as ez eqn:Hez.
  cbv zeta. cbn [cond_Zopp].
  pose proof (shl_align_fst ma (Zdigits2 a - 53) ez ltac:(lia)) as Hfa.
  pose proof (shl_align_fst mb (Zdigits2 b - 53) ez ltac:(lia)) as Hfb.
  assert (Hfa' : Z.pos (fst (shl_align ma (Zdigits2 a - 53) ez)) = a * 2 ^ (- ez)).
  { rewrite Hfa, Hma, <- Z.mul_assoc, <- Z.pow_add_r by lia. f_equal. f_equal. lia. }
  assert (Hfb' : Z.pos (fst (shl_align mb (Zdigits2 b - 53) ez)) = b * 2 ^ (- ez)).
  { rewrite Hfb, Hmb, <- Z.mul_assoc, <- Z.pow_add_r by lia. f_equal. f_equal. lia. }
  assert (Hpow : 0 < 2 ^ (- ez)) by (apply Z.pow_pos_nonneg; lia).
  destruct (Z.pos (fst (shl_align ma (Zdigits2 a - 53) ez))
            - Z.pos (fst (shl_align mb (Zdigits2 b - 53) ez))) as [|p|p] eqn:Hdiff.
  - exfalso. nia.
  - exfalso. nia.
  - cbn [binary_normalize]. rewrite binary_round_opp. f_equal.
    rewrite number_of_Z_canon by lia.
    replace ez with (- - ez) at 1 by lia.
    apply binary_round_int; [|lia|lia].
    assert (Z.pos p = b * 2 ^ (- ez) - a * 2 ^ (- ez)) by lia. lia.
Qed.

(** [Math.max(0, Math.floor(paid - total))] on amounts below [2^53]. *)
Lemma change_amount (p t : Z) :
  0 <= p < 2 ^ 53 → 0 <= t < 2 ^ 53 →
  Math_max (number_of_Z 0) (Math_floor (js_sub (number_of_Z p) (number_of_Z t)))
  = number_of_Z (Z.max 0 (p - t)).
Proof.
  intros Hp Ht. destruct (Z_le_gt_dec t p) as [Hle|Hgt].
  - rewrite js_sub_nonneg, Math_floor_int, Math_max_zero_int by lia. f_equal. lia.
  - rewrite js_sub_neg, Math_floor_neg_int, Math_max_zero_neg by lia. f_equal. lia.
Qed.

Lemma digits_value_lower (digits : string) (acc : Z) :
  0 <= acc → acc <= digits_value acc digits.
Proof.
  revert acc. induction digits as [|c rest IH]; intros acc Hacc; simpl; [lia|].
  etrans; [|apply IH]; lia.
Qed.


Lemma parseRupiah_value (text : string) :
  parseRupiah text = number_of_Z (digits_value 0 (keep_digits text)).
Proof.
  unfold parseRupiah, Number_of_digits. destruct (keep_digits text); reflexivity.
Qed.

Lemma amount_of_or_text (field : option string) (d : string) :
  keep_digits d = "0" ∨ keep_digits d = "" →
  digits_value 0 (keep_digits (or_text field d)) = amount_of field.
Proof.
  intros Hd. unfold or_text, amount_of.
  destruct field as [[|c s]|]; cbn [truthy String.eqb negb default]; try done;
    destruct Hd as [-> | ->]; reflexivity.
Qed.


Lemma updateChange_amounts (browser : Browser) (totalAmount cashPaid : option string) :
  amount_of totalAmount < 2 ^ 53 → amount_of cashPaid < 2 ^ 53 →
  updateChange browser totalAmount cashPaid
  = "Rp " ++ format_idID browser
               (number_of_Z (Z.max 0 (amount_of cashPaid - amount_of totalAmount))).
Proof.
  intros Ht Hp. unfold updateChange, formatRupiahWithPrefix, formatRupiahNumberOnly.
  rewrite !parseRupiah_value.
  rewrite (amount_of_or_text totalAmount "Rp 0") by (by left).
  rewrite (amount_of_or_text cashPaid "0") by (by left).
  rewrite change_amount; [done| |].
  - split; [apply digits_value_lower; lia|done].
  - split; [apply digits_value_lower; lia|done].
Qed.

(** X17.  For a total and a payment below [2^53], the change that
    [updateChange] writes is the prefix [Rp ] and the formatted Number of
    payment minus total when the payment covers the total, and of zero
    otherwise: the difference is computed exactly, and a negative change or
    a negative zero is never shown.  A missing or empty field counts as
    zero. *)
Theorem updateChange_never_negative (browser : Browser) (totalAmount cashPaid : option string) :
  amount_of totalAmount < 2 ^ 53 → amount_of cashPaid < 2 ^ 53 →
  updateChange browser totalAmount cashPaid
  = "Rp " ++ format_idID browser
               (number_of_Z (Z.max 0 (amount_of cashPaid - amount_of totalAmount))).
Proof. apply updateChange_amounts. Qed.

(** X17 for a total of 116550: a payment of 100000 shows no change, a
    payment of 150000 shows 33450. *)
Lemma updateChange_never_negative_demo :
  updateChange plain_browser (Some "Rp 116.550") (Some "Rp 100.000") = "Rp 0"
  ∧ updateChange plain_browser (Some "Rp 116.550") (Some "Rp 150.000") = "Rp 33450".
Proof.
  split.
  - apply (updateChange_never_negative plain_browser (Some "Rp 116.550") (Some "Rp 100.000"));
      reflexivity.
  - apply (updateChange_never_negative plain_browser (Some "Rp 116.550") (Some "Rp 150.000"));
      reflexivity.
Defined.

Lemma number_of_Z_is_zero (n : Z) :
  0 <= n < 2 ^ 53 → is_zero (number_of_Z n) = (n =? 0).
Proof.
  intros Hn. destruct (Z.eq_dec n 0) as [->|Hn0]; [reflexivity|].
  rewrite number_of_Z_canon by lia. destruct (Z.eqb_spec n 0); [done|reflexivity].
Qed.

Lemma updateChange_paid (browser : Browser) (totalAmount : option string)
    (shown : string) (n : Z) :
  amount_of totalAmount < 2 ^ 53 → n < 2 ^ 53 →
  amount_of (Some shown) = n →
  updateChange browser totalAmount (Some ("Rp " ++ shown))
  = "Rp " ++ format_idID browser (number_of_Z (Z.max 0 (n - amount_of totalAmount))).
Proof.
  intros Ht Hn Hshown. rewrite updateChange_amounts; [|done|].
  - change (amount_of (Some ("Rp " ++ shown))) with (amount_of (Some shown)).
    by rewrite Hshown.
  - change (amount_of (Some ("Rp " ++ shown))) with (amount_of (Some shown)).
    by rewrite Hshown.
Qed.

(** X18.  The [input] listener of the cash field rewrites the field and
    then computes the change from the rewritten text.  When the window's
    format of the typed amount keeps the digits of that amount, the field
    shows [Rp ] and the formatted amount ([Rp 0] for zero), and the change
    shown is the one for the amount typed. *)
Theorem cashInput_oninput_change (browser : Browser) (totalAmount : option string)
    (value : string) :
  amount_of totalAmount < 2 ^ 53 → amount_of (Some value) < 2 ^ 53 →
  amount_of (Some (format_idID browser (number_of_Z (amount_of (Some value)))))
    = amount_of (Some value) →
  cashInput_oninput browser totalAmount value
  = ("Rp " ++ (if amount_of (Some value) =? 0 then "0"
               else format_idID browser (number_of_Z (amount_of (Some value)))),
     "Rp " ++ format_idID browser
                (number_of_Z (Z.max 0 (amount_of (Some value) - amount_of totalAmount)))).
Proof.
  intros Ht Hv Hformat.
  assert (Hv0 : 0 <= amount_of (Some value)) by (apply digits_value_lower; lia).
  unfold cashInput_oninput. rewrite parseRupiah_value.
  change (digits_value 0 (keep_digits value)) with (amount_of (Some value)).
  rewrite number_of_Z_is_zero by lia.
  unfold formatRupiahNumberOnly. rewrite Math_floor_int, Math_max_zero_int by lia.
  f_equal. apply updateChange_paid; [done|done|].
  destruct (Z.eqb_spec (amount_of (Some value)) 0) as [Hz|Hz].
  - by rewrite Hz.
  - exact Hformat.
Qed.

(** X18 for a total of 116550 and the typed text [Rp 1500007]. *)
Lemma cashInput_oninput_change_demo :
  cashInput_oninput plain_browser (Some "Rp 116.550") "Rp 1500007"
  = ("Rp 1500007", "Rp 1383457").
Proof.
  apply (cashInput_oninput_change plain_browser (Some "Rp 116.550") "Rp 1500007");
    reflexivity.
Defined.

(** The decimal numeral of a positive integer does not start with [0]. *)
Lemma pretty_N_go_head (x : N) (s : string) :
  (0 < x)%N → head_is_not_zero (pretty_N_go x s).
Proof.
  revert s. induction (N.lt_wf_0 x) as [x _ IH]; intros s Hx.
  rewrite pretty_N_go_step by done.
  destruct (decide (x < 10)%N) as [Hlt|Hge].
  - rewrite (N.div_small x 10) by done. rewrite pretty_N_go_0.
    rewrite N.mod_small by done. simpl.
    assert (x = 1 ∨ x = 2 ∨ x = 3 ∨ x = 4 ∨ x = 5 ∨ x = 6 ∨ x = 7 ∨ x = 8 ∨ x = 9)%N
      as Hcases by lia.
    destruct Hcases as [->|[->|[->|[->|[->|[->|[->|[->| ->]]]]]]]]; done.
  - apply IH; [apply N.div_lt; lia|]. apply N.div_str_pos. lia.
Qed.

Lemma pretty_Z_head (k : Z) : 0 < k → head_is_not_zero (pretty k).
Proof.
  intros Hk. destruct k as [|p|p]; try lia.
  unfold pretty, pretty_Z, pretty, pretty_positive, pretty, pretty_N.
  destruct (decide (N.pos p = 0%N)); [done|]. by apply pretty_N_go_head.
Qed.

Lemma repeat_zero_inj (a b : nat) (s1 s2 : string) :
  head_is_not_zero s1 → head_is_not_zero s2 →
  repeat_char a "0" ++ s1 = repeat_char b "0" ++ s2 → s1 = s2.
Proof.
  intros H1 H2. revert b.
  induction a as [|a IH]; intros [|b]; cbn [repeat_char].
  - done.
  - change ("" ++ s1) with s1.
    change (String "0" (repeat_char b "0") ++ s2) with (String "0" (repeat_char b "0" ++ s2)).
    intros ->. by cbn in H1.
  - change ("" ++ s2) with s2.
    change (String "0" (repeat_char a "0") ++ s1) with (String "0" (repeat_char a "0" ++ s1)).
    intros <-. by cbn in H2.
  - change (String "0" (repeat_char a "0") ++ s1) with (String "0" (repeat_char a "0" ++ s1)).
    change (String "0" (repeat_char b "0") ++ s2) with (String "0" (repeat_char b "0" ++ s2)).
    intros [= Heq]. by apply IH in Heq.
Qed.

Lemma padStart_pretty_inj (n : nat) (k1 k2 : Z) :
  0 < k1 → 0 < k2 → padStart n "0" (pretty k1) = padStart n "0" (pretty k2) → k1 = k2.
Proof.
  intros H1 H2 Heq. unfold padStart in Heq.
  apply repeat_zero_inj in Heq; [|by apply pretty_Z_head..].
  by apply (inj pretty) in Heq.
Qed.

Lemma string_length_app (a b : string) :
  String.length (a ++ b) = (String.length a + String.length b)%nat.
Proof.
  induction a as [|c a IH]; [done|].
  change (String c a ++ b) with (String c (a ++ b)). cbn [String.length]. by rewrite IH.
Qed.

Lemma string_app_inv_length (a1 a2 b1 b2 : string) :
  String.length a1 = String.length a2 → a1 ++ b1 = a2 ++ b2 → b1 = b2.
Proof.
  revert a2. induction a1 as [|c a1 IH]; intros [|c2 a2]; cbn [String.length]; try done.
  change (String c a1 ++ b1) with (String c (a1 ++ b1)).
  change (String c2 a2 ++ b2) with (String c2 (a2 ++ b2)).
  intros [= Hlen] [= _ Heq]. by apply (IH a2).
Qed.

Lemma string_app_assoc (a b c : string) : (a ++ b) ++ c = a ++ b ++ c.
Proof.
  induction a as [|x a IH]; [done|].
  change (String x a ++ b) with (String x (a ++ b)).
  change (String x (a ++ b) ++ c) with (String x ((a ++ b) ++ c)).
  change (String x a ++ b ++ c) with (String x (a ++ b ++ c)). by rewrite IH.
Qed.

(** Day and month take two characters, a year of four digits takes four. *)
Lemma two_digit_length (d : Z) :
  0 <= d < 100 → String.length (padStart 2 "0" (pretty d)) = 2%nat.
Proof.
  intros Hd.
  assert (Hall : forallb (λ d, Nat.eqb (String.length (padStart 2 "0" (pretty d))) 2)
                   (seqZ 0 100) = true) by (vm_compute; reflexivity).
  rewrite forallb_forall in Hall. apply Nat.eqb_eq, Hall.
  apply list_elem_of_In, elem_of_seqZ. lia.
Qed.

Lemma year_length (y : Z) :
  1000 <= y <= 9999 → String.length (pretty y) = 4%nat.
Proof.
  intros Hy.
  assert (Hall : forallb (λ y, Nat.eqb (String.length (pretty y)) 4) (seqZ 1000 9000) = true)
    by (vm_compute; reflexivity).
  rewrite forallb_forall in Hall. apply Nat.eqb_eq, Hall.
  apply list_elem_of_In, elem_of_seqZ. lia.
Qed.

Lemma date_prefix_length (d : Date) :
  calendar_date d → String.length (date_prefix d) = 12%nat.
Proof.
  intros (Hday & Hmonth & Hyear). unfold date_prefix.
  rewrite !string_length_app, !two_digit_length, year_length by lia. reflexivity.
Qed.

Lemma generateTrxNumber_prefix (d : Date) (k : Z) :
  (generateTrxNumber d k).1 = date_prefix d ++ padStart 5 "0" (pretty (k + 1)).
Proof.
  unfold generateTrxNumber, date_prefix. cbn [fst]. by rewrite !string_app_assoc.
Qed.

(** X19.  Transaction numbers do not repeat within a session: two calls of
    [generateTrxNumber] that start from different values of the session
    counter give different numbers, on the same day or on different days of
    the calendar (the counter only grows, so no two calls of a session start
    from the same value). *)
Theorem generateTrxNumber_never_repeats (d1 d2 : Date) (k1 k2 : Z) :
  calendar_date d1 → calendar_date d2 → 0 <= k1 → 0 <= k2 → k1 ≠ k2 →
  (generateTrxNumber d1 k1).1 ≠ (generateTrxNumber d2 k2).1.
Proof.
  intros Hd1 Hd2 Hk1 Hk2 Hne. rewrite !generateTrxNumber_prefix. intros Heq.
  apply string_app_inv_length in Heq; [|by rewrite !date_prefix_length].
  apply padStart_pretty_inj in Heq; lia.
Qed.

(** X19 for the first call of a session on 5 January 2025 and the second
    call on the next day. *)
Lemma generateTrxNumber_never_repeats_demo :
  generateTrxNumber {| getDate := 5; getMonth := 0; getFullYear := 2025 |} 0
  = ("TRX-0501202500001", 1)
  ∧ (generateTrxNumber {| getDate := 5; getMonth := 0; getFullYear := 2025 |} 0).1
    ≠ (generateTrxNumber {| getDate := 6; getMonth := 0; getFullYear := 2025 |} 1).1.
Proof.
  split; [reflexivity|].
  apply (generateTrxNumber_never_repeats
           {| getDate := 5; getMonth := 0; getFullYear := 2025 |}
           {| getDate := 6; getMonth := 0; getFullYear := 2025 |} 0 1).
  - unfold calendar_date. cbn. lia.
  - unfold calendar_date. cbn. lia.
  - lia.
  - lia.
  - lia.
Defined.
